(** * pyNSGP multi-tree: the fitness evaluator [SymbolicRegressionFitness]

    A shallow embedding of
    [pynsgp/Fitness/FitnessFunction.py].  Python floats and numpy's
    [float64] are IEEE-754 binary64 values ([spec_float], precision 53,
    [emax] 1024); Python ints are [Z].  The methods that mutate the
    evaluator or the individual are written in a state-and-exception monad
    over the pair (evaluator, individual under evaluation); the read-only
    ones are plain functions into [result].  numpy reductions, scipy, keras
    and the [int] builtin are the fields of two interfaces, so that every
    statement holds whatever those libraries compute. *)

From Stdlib Require Import String Ascii.
From Stdlib Require Import ZArith List Bool Lia FinFun.
From Stdlib Require Import Floats.SpecFloat.
Import ListNotations.
Local Open Scope Z_scope.

Set Implicit Arguments.

(** ** Numbers *)

Definition float := spec_float.

Definition prec : Z := 53.
Definition emax : Z := 1024.

Definition fadd : float -> float -> float := SFadd prec emax.
Definition fsub : float -> float -> float := SFsub prec emax.
Definition fmul : float -> float -> float := SFmul prec emax.
Definition fdiv : float -> float -> float := SFdiv prec emax.
Definition fltb : float -> float -> bool := SFltb.

(** Conversion of an integer to [float64] (round to nearest even). *)
Definition Z2f (n : Z) : float := binary_normalize prec emax n 0 false.

Definition np_inf : float := S754_infinity false.
Definition np_nan : float := S754_nan.

(** [np.isnan] *)
Definition isnan (x : float) : bool :=
  match x with S754_nan => true | _ => false end.

(** [np.square] on one entry *)
Definition square (x : float) : float := fmul x x.

(** The literals of the source, as the binary64 values Python reads. *)
Definition f_0_0 : float := S754_zero false.
Definition f_1_0 : float := S754_finite false 4503599627370496 (-52).
Definition f_1e_10 : float := S754_finite false 7737125245533627 (-86).
Definition coeffs : list float :=
  [ S754_finite true 8994678527200962 (-62)  (* -0.00195041 *)
  ; S754_finite true 5791989408768647 (-60)  (* -0.00502375 *)
  ; S754_finite true 4830607077177778 (-57)  (* -0.03351907 *)
  ; S754_finite true 6445005590129846 (-57)  (* -0.04472121 *) ].

(** A Python number held in [objectives]: [len] and the size loop give
    ints, the error and the interpretability score give floats. *)
Inductive pyval :=
| VInt (n : Z)
| VFloat (x : float).

(** Exact comparison of an int with a float, as Python does it. *)
Definition Z_compare_float (n : Z) (x : float) : option comparison :=
  match x with
  | S754_nan => None
  | S754_infinity s => Some (if s then Gt else Lt)
  | S754_zero _ => Some (n ?= 0)
  | S754_finite s m e =>
      let v := if s then Zneg m else Zpos m in
      Some (if 0 <=? e then n ?= v * 2 ^ e else n * 2 ^ (- e) ?= v)
  end.

(** [a < b] on Python numbers. *)
Definition py_lt (a b : pyval) : bool :=
  match a, b with
  | VFloat x, VFloat y => fltb x y
  | VInt n, VInt m => n <? m
  | VInt n, VFloat y =>
      match Z_compare_float n y with Some Lt => true | _ => false end
  | VFloat x, VInt m =>
      match Z_compare_float m x with Some Gt => true | _ => false end
  end.


(** ** Exceptions *)

Inductive exn :=
| UnboundLocalError
| IndexError
| ValueError
| AssertionError
| AttributeError
| ExternalError.

Inductive result (A : Type) :=
| Ok (a : A)
| Raise (e : exn).
Arguments Ok {A} a.
Arguments Raise {A} e.

Definition rbind {A B} (r : result A) (k : A -> result B) : result B :=
  match r with Ok a => k a | Raise e => Raise e end.

Declare Scope result_scope.
Delimit Scope result_scope with res.
Notation "x <-- c ; k" := (rbind c (fun x => k))
  (at level 61, c at next level, right associativity) : result_scope.

(** ** Arrays *)

(** A numpy array of rank 1, or of rank 2 held as the list of its columns. *)
Inductive ndarray :=
| Vec (v : list float)
| Mat (cols : list (list float)).

(** Python indexing of a list: negative indices count from the end. *)
Definition py_getitem {A} (l : list A) (i : Z) : result A :=
  let n := Z.of_nat (length l) in
  let j := if i <? 0 then i + n else i in
  if (0 <=? j) && (j <? n)
  then match nth_error l (Z.to_nat j) with
       | Some a => Ok a
       | None => Raise IndexError
       end
  else Raise IndexError.

(** [range(n)] *)
Definition py_range (n : Z) : list Z :=
  map Z.of_nat (seq 0 (Z.to_nat n)).

(** [l[a:b]] *)
Definition py_slice {A} (l : list A) (a b : Z) : list A :=
  let n := Z.of_nat (length l) in
  let clamp i := Z.max 0 (Z.min n (if i <? 0 then i + n else i)) in
  let lo := clamp a in
  let hi := clamp b in
  firstn (Z.to_nat (hi - lo)) (skipn (Z.to_nat lo) l).

(** [arr[:, i]] for [i >= 0]: a rank-1 array has no second axis. *)
Definition column (a : ndarray) (i : Z) : result (list float) :=
  match a with
  | Vec _ => Raise IndexError
  | Mat cols =>
      match nth_error cols (Z.to_nat i) with
      | Some c => if 0 <=? i then Ok c else Raise IndexError
      | None => Raise IndexError
      end
  end.

(** [arr.shape[0]] and [arr.shape[1]] *)
Definition shape0 (a : ndarray) : Z :=
  match a with
  | Vec v => Z.of_nat (length v)
  | Mat cols => Z.of_nat (length (hd [] cols))
  end.

Definition shape1 (a : ndarray) : result Z :=
  match a with
  | Vec _ => Raise IndexError
  | Mat cols => Ok (Z.of_nat (length cols))
  end.

(** Elementwise binary operation on two rank-1 arrays with numpy's
    broadcasting: equal lengths, or one of them of length 1. *)
Definition broadcast (f : float -> float -> float) (x y : list float)
  : result (list float) :=
  if (length x =? length y)%nat then Ok (map (fun p => f (fst p) (snd p)) (combine x y))
  else match x, y with
       | [a], _ => Ok (map (f a) y)
       | _, [b] => Ok (map (fun u => f u b) x)
       | _, _ => Raise ValueError
       end.

(** [arr[indices]]: selection of rows. *)
Fixpoint take (v : list float) (idx : list Z) : result (list float) :=
  match idx with
  | [] => Ok []
  | i :: r =>
      (a <-- py_getitem v i ; t <-- take v r ; Ok (a :: t))%res
  end.

Fixpoint take_columns (cols : list (list float)) (idx : list Z)
  : result (list (list float)) :=
  match cols with
  | [] => Ok []
  | c :: r =>
      (c' <-- take c idx ; r' <-- take_columns r idx ; Ok (c' :: r'))%res
  end.

Definition take_rows (a : ndarray) (idx : list Z) : result ndarray :=
  match a with
  | Vec v => (v' <-- take v idx ; Ok (Vec v'))%res
  | Mat cols => (c' <-- take_columns cols idx ; Ok (Mat c'))%res
  end.

Definition vector (a : ndarray) : result (list float) :=
  match a with
  | Vec v => Ok v
  | Mat _ => Raise ValueError
  end.

Fixpoint list_set {A} (l : list A) (n : nat) (x : A) : list A :=
  match l, n with
  | [], _ => []
  | _ :: r, O => x :: r
  | a :: r, S k => a :: list_set r k x
  end.

(** [len(l)] *)
Definition len {A} (l : list A) : Z := Z.of_nat (length l).

Fixpoint Zsum (l : list Z) : Z :=
  match l with
  | [] => 0
  | a :: r => a + Zsum r
  end.

(** ** The data model the evaluator consumes *)

(** What the evaluator reads of a node of a flattened subtree: [n.arity],
    [n.is_not_arithmetic], [isinstance(n, FeatureNode)], [n.id], [str(n)]. *)
Record Node := mkNode {
  arity : Z;
  is_not_arithmetic : bool;
  is_FeatureNode : bool;
  node_id : Z;
  node_str : string
}.

(** A root node used as an individual, a sup_function or a sub_function:
    [GetSubtree()], [GetOutput(X)] (a rank-1 array), [Count_n_nacomp()],
    and the mutable attributes [ls_a], [ls_b], [objectives]. *)
Record Tree := mkTree {
  GetSubtree : list Node;
  tree_GetOutput : ndarray -> list float;
  Count_n_nacomp : Z;
  ls_a : float;
  ls_b : float;
  tree_objectives : list pyval
}.

(** [GetOutput(X)] of a multi-tree individual is a rank-2 array with one
    column per output channel. *)
Record MultiTreeIndividual := mkMulti {
  sup_functions : list Tree;
  sub_functions : list Tree;
  num_sup_functions : Z;
  num_sub_functions : Z;
  multi_GetOutput : ndarray -> list (list float);
  multi_objectives : list pyval
}.

(** [isinstance(individual, MultiTreeIndividual)] is the constructor. *)
Inductive Individual :=
| Single (t : Tree)
| Multi (m : MultiTreeIndividual).

Definition objectives (i : Individual) : list pyval :=
  match i with
  | Single t => tree_objectives t
  | Multi m => multi_objectives m
  end.

Definition with_objectives (i : Individual) (o : list pyval) : Individual :=
  match i with
  | Single t =>
      Single (mkTree (GetSubtree t) (tree_GetOutput t) (Count_n_nacomp t)
                     (ls_a t) (ls_b t) o)
  | Multi m =>
      Multi (mkMulti (sup_functions m) (sub_functions m) (num_sup_functions m)
                     (num_sub_functions m) (multi_GetOutput m) o)
  end.

Definition with_ls (t : Tree) (a b : float) : Tree :=
  mkTree (GetSubtree t) (tree_GetOutput t) (Count_n_nacomp t) a b
         (tree_objectives t).

Definition with_sup_functions (m : MultiTreeIndividual) (s : list Tree)
  : MultiTreeIndividual :=
  mkMulti s (sub_functions m) (num_sup_functions m) (num_sub_functions m)
          (multi_GetOutput m) (multi_objectives m).

Definition output_of (i : Individual) (X : ndarray) : ndarray :=
  match i with
  | Single t => Vec (tree_GetOutput t X)
  | Multi m => Mat (multi_GetOutput m X)
  end.

(** The attributes of [SymbolicRegressionFitness]. *)
Record Evaluator := mkEvaluator {
  X_train : ndarray;
  y_train : ndarray;
  use_linear_scaling : bool;
  use_interpretability_model : bool;
  fitness : string;
  elite : option Individual;
  evaluations : Z
}.

(** [__init__]: stores its arguments; no elite, no evaluation yet. *)
Definition init (X y : ndarray) (ls im : bool) (fit : string) : Evaluator :=
  mkEvaluator X y ls im fit None 0.

Definition with_evaluations (e : Evaluator) (n : Z) : Evaluator :=
  mkEvaluator (X_train e) (y_train e) (use_linear_scaling e)
              (use_interpretability_model e) (fitness e) (elite e) n.

Definition with_elite (e : Evaluator) (el : option Individual) : Evaluator :=
  mkEvaluator (X_train e) (y_train e) (use_linear_scaling e)
              (use_interpretability_model e) (fitness e) el (evaluations e).

(** ** Libraries outside the repository *)

(** numpy reductions over rank-1 data.  [np_cov01 x y] is
    [np.cov(x, y)[0, 1]] for two arrays of one length. *)
Class Numpy := {
  np_mean : list float -> float;
  np_var : list float -> float;
  np_cov01 : list float -> list float -> float;
  np_sum : list float -> float;
  np_argmin : list float -> result Z
}.

(** [int(s)], [random.seed(seed); random.sample(range(n), k)],
    [scipy.spatial.distance.pdist], and the training run of the keras
    decoder, which returns [history["loss"]]. *)
Class External := {
  py_int : string -> result Z;
  random_sample : Z -> Z -> Z -> list Z;
  pdist : ndarray -> result (list float);
  keras_fit : Z -> Z -> Z -> ndarray -> ndarray -> result (list float)
}.

(** ** The monad of the mutating methods *)

(** The evaluator [self], the individual passed to [Evaluate], and two
    counters of calls that leave the evaluator: [GetOutput] and
    [deepcopy]. *)
Record State := mkState {
  self : Evaluator;
  individual : Individual;
  calls_GetOutput : nat;
  calls_deepcopy : nat
}.

Definition with_individual (s : State) (i : Individual) : State :=
  mkState (self s) i (calls_GetOutput s) (calls_deepcopy s).

Definition with_call (s : State) : State :=
  mkState (self s) (individual s) (S (calls_GetOutput s)) (calls_deepcopy s).

(** The next call of [Evaluate]: same evaluator, another individual. *)
Definition next (s : State) (i : Individual) : State := with_individual s i.

Definition M (A : Type) : Type := State -> State * result A.

Definition ret {A} (a : A) : M A := fun s => (s, Ok a).

Definition bind {A B} (c : M A) (k : A -> M B) : M B :=
  fun s => match c s with
           | (s', Ok a) => k a s'
           | (s', Raise e) => (s', Raise e)
           end.

Definition lift {A} (r : result A) : M A := fun s => (s, r).

Definition reads {A} (f : Evaluator -> A) : M A := fun s => (s, Ok (f (self s))).

Definition get_individual : M Individual := fun s => (s, Ok (individual s)).

Definition put_individual (i : Individual) : M unit :=
  fun s => (mkState (self s) i (calls_GetOutput s) (calls_deepcopy s), Ok tt).

Definition put_self (e : Evaluator) : M unit :=
  fun s => (mkState e (individual s) (calls_GetOutput s) (calls_deepcopy s), Ok tt).

Declare Scope monad_scope.
Delimit Scope monad_scope with M.
Notation "x <- c ;; k" := (bind c (fun x => k))
  (at level 61, c at next level, right associativity) : monad_scope.
Notation "c ;; k" := (bind c (fun _ => k))
  (at level 61, right associativity) : monad_scope.

(** Left-to-right loop with an accumulator. *)
Fixpoint foldM {A B} (body : B -> A -> M B) (l : list A) (acc : B) : M B :=
  match l with
  | [] => ret acc
  | x :: r => bind (body acc x) (foldM body r)
  end.

Fixpoint rfold {A B} (body : B -> A -> result B) (l : list A) (acc : B)
  : result B :=
  match l with
  | [] => Ok acc
  | x :: r => rbind (body acc x) (rfold body r)
  end.

Fixpoint rmap {A B} (f : A -> result B) (l : list A) : result (list B) :=
  match l with
  | [] => Ok []
  | x :: r => (y <-- f x ; t <-- rmap f r ; Ok (y :: t))%res
  end.

(** The rows of a rank-2 array, which has as many as its first column is
    long. *)
Definition rows (cols : list (list float)) : list (list float) :=
  map (fun r => map (fun c => nth r c np_nan) cols)
      (seq 0 (length (hd [] cols))).

(** [a.ravel()]: the elements of an array, row after row. *)
Definition ravel (a : ndarray) : list float :=
  match a with
  | Vec v => v
  | Mat cols => concat (rows cols)
  end.

(** [(y - s).ravel()] for [y] of rank 1 or 2 and [s] of rank 1: numpy
    broadcasts [s] along the last axis of [y], which must have the length
    of [s] unless one of the two is 1. *)
Definition subtract (y : ndarray) (s : list float) : result (list float) :=
  match y with
  | Vec v => broadcast fsub v s
  | Mat cols =>
      if (length cols =? length s)%nat || (length cols =? 1)%nat
         || (length s =? 1)%nat
      then (d <-- rmap (fun r => broadcast fsub r s) (rows cols) ;
            Ok (concat d))%res
      else Raise ValueError
  end.

(** ** The methods of [SymbolicRegressionFitness] *)

Section Fitness.
Context {NP : Numpy} {EXT : External}.
Local Open Scope monad_scope.

(** [individual.GetOutput(X)], counted. *)
Definition GetOutput (X : ndarray) : M ndarray :=
  fun s => (mkState (self s) (individual s) (S (calls_GetOutput s))
                    (calls_deepcopy s),
            Ok (output_of (individual s) X)).

(** [np.cov(x, y)[0, 1]]: numpy stacks the two arrays and refuses
    different lengths. *)
Definition cov01 (x y : list float) : result float :=
  if (length x =? length y)%nat then Ok (np_cov01 x y) else Raise ValueError.

(** The fit of the linear scaling, as both error methods write it:
    [b = np.cov(t, o)[0, 1] / (np.var(o) + 1e-10)],
    [a = np.mean(t) - b * np.mean(o)]. *)
Definition fit_b (t o : list float) : result float :=
  (c <-- cov01 t o ; Ok (fdiv c (fadd (np_var o) f_1e_10)))%res.

Definition fit_a (t o : list float) (b : float) : float :=
  fsub (np_mean t) (fmul b (np_mean o)).

(** [a + b * output] *)
Definition scale (a b : float) (output : list float) : list float :=
  map (fun o => fadd a (fmul b o)) output.

(** [np.mean(np.square(t - scaled_output))] *)
Definition mean_square_diff (t scaled_output : list float) : result float :=
  (d <-- broadcast fsub t scaled_output ; Ok (np_mean (map square d)))%res.

(** [np.cov(y, o)[0, 1]] for [y] of rank 1 or 2.  numpy takes the rows of
    a rank-2 [y] as variables and stacks [o] under them: without a row
    the covariance matrix is empty and has no entry [0, 1]; the rows must
    have the length of [o]; the entry [0, 1] is the covariance of the first
    two of the stacked rows, those of [y] when it has two. *)
Definition cov01_nd (y : ndarray) (o : list float) : result float :=
  match y with
  | Vec v => cov01 v o
  | Mat cols =>
      match rows cols with
      | [] => Raise IndexError
      | r0 :: rest =>
          if (length cols =? length o)%nat
          then Ok (np_cov01 r0 (match rest with [] => o | r1 :: _ => r1 end))
          else Raise ValueError
      end
  end.

(** The fit and the error of the single-tree path, where [y_train] is
    taken whole, whatever its rank. *)
Definition fit_b_nd (y : ndarray) (o : list float) : result float :=
  (c <-- cov01_nd y o ; Ok (fdiv c (fadd (np_var o) f_1e_10)))%res.

Definition fit_a_nd (y : ndarray) (o : list float) (b : float) : float :=
  fsub (np_mean (ravel y)) (fmul b (np_mean o)).

Definition mean_square_diff_nd (y : ndarray) (scaled_output : list float)
  : result float :=
  (d <-- subtract y scaled_output ; Ok (np_mean (map square d)))%res.

(** [__EvaluateMeanSquaredErrorOfNormalTree]; [t] is the individual of
    the state, a single tree. *)
Definition EvaluateMeanSquaredErrorOfNormalTree (t : Tree) : M float :=
  X <- reads X_train ;;
  out <- GetOutput X ;;
  output <- lift (vector out) ;;
  y <- reads y_train ;;
  ls <- reads use_linear_scaling ;;
  ab <- (if ls then
           b <- lift (fit_b_nd y output) ;;
           let a := fit_a_nd y output b in
           put_individual (Single (with_ls t a b)) ;;
           ret (a, b)
         else ret (f_0_0, f_1_0)) ;;
  lift (mean_square_diff_nd y (scale (fst ab) (snd ab) output)).

(** One turn of the loop over the output channels: the accumulator is
    the individual as mutated so far and [fit_errors]. *)
Definition channel_step (output : ndarray)
           (acc : MultiTreeIndividual * list float) (i : Z)
  : M (MultiTreeIndividual * list float) :=
  let (m, fit_errors) := acc in
  yt <- reads y_train ;;
  ls <- reads use_linear_scaling ;;
  y_i <- lift (column yt i) ;;
  o_i <- lift (column output i) ;;
  mab <- (if ls then
            b <- lift (fit_b y_i o_i) ;;
            let a := fit_a y_i o_i b in
            f <- lift (py_getitem (sup_functions m) i) ;;
            let m' := with_sup_functions m
                        (list_set (sup_functions m) (Z.to_nat i) (with_ls f a b)) in
            put_individual (Multi m') ;;
            ret (m', (a, b))
          else ret (m, (f_0_0, f_1_0))) ;;
  let '(m', (a, b)) := mab in
  fit_error <- lift (mean_square_diff y_i (scale a b o_i)) ;;
  ret (m', fit_errors ++ [fit_error]).

(** [__EvaluateMeanSquaredErrorOfMultiTree] *)
Definition EvaluateMeanSquaredErrorOfMultiTree (m : MultiTreeIndividual)
  : M float :=
  X <- reads X_train ;;
  output <- GetOutput X ;;
  r <- foldM (channel_step output) (py_range (num_sup_functions m)) (m, []) ;;
  ret (np_mean (snd r)).

(** [stress_cost] *)
Definition stress_cost (batch_size : Z) : M float :=
  X <- reads X_train ;;
  lift (if batch_size <=? shape0 X then Ok tt else Raise AssertionError) ;;
  seed <- reads evaluations ;;
  let indices_vector := random_sample seed (shape0 X) batch_size in
  xb <- lift (take_rows X indices_vector) ;;
  similarity_matrix_batch <- lift (pdist xb) ;;
  prediction_batch <- lift (take_rows X indices_vector) ;;
  output <- GetOutput prediction_batch ;;
  similarity_matrix_pred <- lift (pdist output) ;;
  d <- lift (broadcast fsub similarity_matrix_batch similarity_matrix_pred) ;;
  ret (np_sum (map SFabs d)).

(** [neural_decoder_fitness]; the progress line printed every tenth
    seed is not part of the state. *)
Definition neural_decoder_fitness (seed : Z) : M float :=
  X <- reads X_train ;;
  output <- GetOutput X ;;
  input_size <- lift (shape1 X) ;;
  latent_size <- lift (shape1 output) ;;
  losses <- lift (keras_fit input_size latent_size seed output X) ;;
  argmin <- lift (np_argmin losses) ;;
  ret (np_mean (py_slice losses (argmin - 1) (argmin + 1))).

(** [EvaluateMeanSquaredError] *)
Definition EvaluateMeanSquaredError : M float :=
  ind <- get_individual ;;
  fit_error <- match ind with
               | Multi m => EvaluateMeanSquaredErrorOfMultiTree m
               | Single t => EvaluateMeanSquaredErrorOfNormalTree t
               end ;;
  ret (if isnan fit_error then np_inf else fit_error).

(** [np.sum] of a list of ints: an int, except that the empty list is a
    float array and sums to [0.0]. *)
Definition np_sum_int (l : list Z) : pyval :=
  match l with
  | [] => VFloat f_0_0
  | _ => VInt (Zsum l)
  end.

(** The body of the inner loop of [EvaluateLength]. *)
Definition length_step (num_sub : Z) (len_subfunctions : list Z)
           (l : Z) (node : Node) : result Z :=
  if is_FeatureNode node && (0 <? num_sub)
  then (k <-- py_getitem len_subfunctions (node_id node) ; Ok (l + k))%res
  else Ok (l + 1).

(** [EvaluateLength] *)
Definition EvaluateLength (e : Evaluator) (ind : Individual) : result pyval :=
  match ind with
  | Multi m =>
      let len_subfunctions := map (fun x => len (GetSubtree x)) (sub_functions m) in
      if String.eqb (fitness e) "gp_autoencoder_fitness"%string
      then Ok (np_sum_int len_subfunctions)
      else
        (l <-- rfold (fun l sup_function =>
                        rfold (length_step (num_sub_functions m) len_subfunctions)
                              (GetSubtree sup_function) l)
                     (sup_functions m) 0 ;
         Ok (VInt l))%res
  | Single t => Ok (VInt (len (GetSubtree t)))
  end.

(** The counters of the loop of [__EvaluatePHIsModelOfNormalTree]. *)
Record counters := mkCounters {
  n_ops : Z;
  n_naops : Z;
  n_vars : Z;
  dimensions : list Z;
  n_constants : Z
}.

(** [set.add] *)
Definition set_add (x : Z) (s : list Z) : list Z :=
  if existsb (Z.eqb x) s then s else x :: s.

Definition count_step (c : counters) (n : Node) : result counters :=
  if 0 <? arity n
  then Ok (mkCounters (n_ops c + 1)
                      (if is_not_arithmetic n then n_naops c + 1 else n_naops c)
                      (n_vars c) (dimensions c) (n_constants c))
  else match node_str n with
       | EmptyString => Raise IndexError
       | String c0 rest =>
           if Ascii.eqb c0 "x"%char
           then (idx <-- py_int rest ;
                 Ok (mkCounters (n_ops c) (n_naops c) (n_vars c + 1)
                                (set_add idx (dimensions c)) (n_constants c)))%res
           else Ok (mkCounters (n_ops c) (n_naops c) (n_vars c) (dimensions c)
                               (n_constants c + 1))
       end.

(** [_ComputeInterpretabilityScore] *)
Definition ComputeInterpretabilityScore
           (n_dim n_vars n_const n_nodes n_ops na_ops na_comp : Z) : float :=
  let features := [n_nodes; n_ops; na_ops; na_comp] in
  fmul (np_sum (map (fun p => fmul (Z2f (fst p)) (snd p)) (combine features coeffs)))
       (Z2f 100).

(** [__EvaluatePHIsModelOfNormalTree] *)
Definition EvaluatePHIsModelOfNormalTree (t : Tree) : result float :=
  let subtree := GetSubtree t in
  let n_nodes := len subtree in
  (c <-- rfold count_step subtree (mkCounters 0 0 0 [] 0) ;
   let n_nacomp := Count_n_nacomp t in
   let n_dim := len (dimensions c) in
   let result := ComputeInterpretabilityScore n_dim (n_vars c) (n_constants c)
                   n_nodes (n_ops c) (n_naops c) n_nacomp in
   Ok (fmul (Z2f (-1)) result))%res.

(** [__EvaluatePHIsModelOfMultiTree] *)
Definition EvaluatePHIsModelOfMultiTree (m : MultiTreeIndividual) : result float :=
  (phis_sup <-- rmap EvaluatePHIsModelOfNormalTree (sup_functions m) ;
   phis_sub <-- rmap EvaluatePHIsModelOfNormalTree (sub_functions m) ;
   Ok (np_sum (phis_sup ++ phis_sub)))%res.

(** [EvaluatePHIsModel] *)
Definition EvaluatePHIsModel (ind : Individual) : result float :=
  match ind with
  | Multi m => EvaluatePHIsModelOfMultiTree m
  | Single t => EvaluatePHIsModelOfNormalTree t
  end.

(** [x.objectives[0]] *)
Definition objective0 (i : Individual) : result pyval :=
  py_getitem (objectives i) 0.

(** [individual.objectives.append(v)] *)
Definition append_objective (v : pyval) : M unit :=
  ind <- get_individual ;;
  put_individual (with_objectives ind (objectives ind ++ [v])).

(** The first objective by fitness mode; with any other string no branch
    binds [obj1] and reading it raises. *)
Definition first_objective (fit : string) : M float :=
  if String.eqb fit "manifold_fitness"%string then stress_cost 64
  else if String.eqb fit "neural_decoder_fitness"%string
       then (n <- reads evaluations ;; neural_decoder_fitness n)
  else if String.eqb fit "autoencoder_teacher_fitness"%string
          || String.eqb fit "gp_autoencoder_fitness"%string
       then EvaluateMeanSquaredError
  else lift (Raise UnboundLocalError).

(** [not self.elite or individual.objectives[0] < self.elite.objectives[0]];
    an individual is an object without [__bool__] or [__len__], hence
    true as a condition. *)
Definition improves : M bool :=
  el <- reads elite ;;
  match el with
  | None => ret true
  | Some e =>
      ind <- get_individual ;;
      o <- lift (objective0 ind) ;;
      oe <- lift (objective0 e) ;;
      ret (py_lt o oe)
  end.

(** [del self.elite; self.elite = deepcopy(individual)] *)
Definition replace_elite : M unit :=
  fun s => (mkState (with_elite (self s) (Some (individual s))) (individual s)
                    (calls_GetOutput s) (S (calls_deepcopy s)),
            Ok tt).

(** [Evaluate] *)
Definition Evaluate : M unit :=
  n <- reads evaluations ;;
  e <- reads (fun e => e) ;;
  put_self (with_evaluations e (n + 1)) ;;
  ind <- get_individual ;;
  put_individual (with_objectives ind []) ;;
  fit <- reads fitness ;;
  obj1 <- first_objective fit ;;
  append_objective (VFloat obj1) ;;
  im <- reads use_interpretability_model ;;
  obj2 <- (if im
           then (ind <- get_individual ;;
                 phi <- lift (EvaluatePHIsModel ind) ;;
                 ret (VFloat phi))
           else (e <- reads (fun e => e) ;;
                 ind <- get_individual ;;
                 lift (EvaluateLength e ind))) ;;
  append_objective obj2 ;;
  c <- improves ;;
  if c then replace_elite else ret tt.

End Fitness.

(** ** A reference environment

    Straightforward left-to-right implementations of the numpy reductions
    and of [int] on decimal digits; scipy and keras are absent.  The
    statements below do not depend on it: it instantiates them. *)

Module Ref.

Definition sum (l : list float) : float := fold_left fadd l f_0_0.

Definition mean (l : list float) : float := fdiv (sum l) (Z2f (len l)).

Definition var (l : list float) : float :=
  let m := mean l in
  mean (map (fun x => square (fsub x m)) l).

Definition cov01 (x y : list float) : float :=
  let mx := mean x in
  let my := mean y in
  fdiv (sum (map (fun p => fmul (fsub (fst p) mx) (fsub (snd p) my)) (combine x y)))
       (Z2f (len x - 1)).

(** Index of the first minimum; a NaN counts as the minimum. *)
Fixpoint argmin_from (best : float) (ibest i : Z) (l : list float) : Z :=
  match l with
  | [] => ibest
  | x :: r =>
      if negb (isnan best) && (isnan x || fltb x best)
      then argmin_from x i (i + 1) r
      else argmin_from best ibest (i + 1) r
  end.

Definition argmin (l : list float) : result Z :=
  match l with
  | [] => Raise ValueError
  | x :: r => Ok (argmin_from x 0 1 r)
  end.

Definition digit (c : ascii) : option Z :=
  let n := Z.of_nat (nat_of_ascii c) in
  if (48 <=? n) && (n <=? 57) then Some (n - 48) else None.

Fixpoint digits (acc : Z) (s : string) : result Z :=
  match s with
  | EmptyString => Ok acc
  | String c r =>
      match digit c with
      | Some d => digits (10 * acc + d) r
      | None => Raise ValueError
      end
  end.

Definition int (s : string) : result Z :=
  match s with
  | EmptyString => Raise ValueError
  | _ => digits 0 s
  end.

#[export] Instance numpy : Numpy :=
  {| np_mean := mean; np_var := var; np_cov01 := cov01;
     np_sum := sum; np_argmin := argmin |}.

#[export] Instance external : External :=
  {| py_int := int;
     random_sample := fun _ _ k => py_range k;
     pdist := fun _ => Raise ExternalError;
     keras_fit := fun _ _ _ _ _ => Raise ExternalError |}.

End Ref.

(** ** Sample data *)

Module Sample.

Definition two : float := Z2f 2.
Definition four : float := Z2f 4.

Definition x0 : Node := mkNode 0 false true 0 "x0".
Definition x1 : Node := mkNode 0 false true 1 "x1".
Definition c7 : Node := mkNode 0 false false 0 "7.0".
Definition plus : Node := mkNode 2 false false 0 "+".

(** A tree with the given flattened nodes and a constant output. *)
Definition tree (nodes : list Node) (out : list float) : Tree :=
  mkTree nodes (fun _ => out) 0 f_0_0 f_1_0 [].

Definition X : ndarray := Mat [[f_0_0; f_1_0; two; four]].
Definition zeros : list float := [f_0_0; f_0_0; f_0_0; f_0_0].

(** No scaling, targets all zero: the error is the mean of the squared
    outputs. *)
Definition plain (fit : string) : Evaluator :=
  init X (Vec zeros) false false fit.

Definition start (e : Evaluator) (i : Individual) : State :=
  mkState e i 0 0.

(** One sup_function made of a constant, one sub_function of three
    nodes that nothing refers to. *)
Definition unreferenced : MultiTreeIndividual :=
  mkMulti [tree [c7] zeros] [tree [plus; x0; x1] zeros] 1 1
          (fun _ => [zeros]) [].

(** One sup_function [x0 + x1] over two sub_functions of one node each. *)
Definition each_once : MultiTreeIndividual :=
  mkMulti [tree [plus; x0; x1] zeros] [tree [c7] zeros; tree [c7] zeros] 1 2
          (fun _ => [zeros]) [].

(** One sup_function that is the FeatureNode [x0] alone. *)
Definition alias : MultiTreeIndividual :=
  mkMulti [tree [x0] zeros] [tree [plus; c7; c7] zeros] 1 1
          (fun _ => [zeros]) [].

Definition teacher : string := "autoencoder_teacher_fitness"%string.

(** Four single trees whose errors against [zeros] are 5, 3, 4 and 3. *)
Definition i1 : Individual := Single (tree [plus; x0; c7] [four; two; f_0_0; f_0_0]).
Definition i2 : Individual := Single (tree [x0] [two; two; two; f_0_0]).
Definition i3 : Individual := Single (tree [x1] [four; f_0_0; f_0_0; f_0_0]).
Definition i4 : Individual := Single (tree [c7] [f_0_0; two; two; two]).

(** The state after [Evaluate] on individual [i], in the reference
    environment. *)
Definition after (s : State) (i : Individual) : State :=
  fst (@Evaluate Ref.numpy Ref.external (next s i)).

(** A single tree whose output has a NaN. *)
Definition broken : Individual :=
  Single (tree [x0] [np_nan; f_0_0; f_0_0; f_0_0]).

Definition decoder : Evaluator :=
  init X (Vec zeros) false false "neural_decoder_fitness"%string.

Definition unknown : Evaluator :=
  init X (Vec zeros) true false "mean_squared_error"%string.

(** Targets [2 x + 1] for the outputs [0, 1, 2, 4]. *)
Definition ramp : list float := [f_0_0; f_1_0; two; four].
Definition targets : list float := [f_1_0; Z2f 3; Z2f 5; Z2f 9].

Definition leaf : Tree := tree [x0] ramp.

Definition one_channel : MultiTreeIndividual :=
  mkMulti [tree [x0] ramp] [tree [c7] zeros] 1 1 (fun _ => [ramp]) [].

Definition scaled (fit : string) : Evaluator :=
  init X (Vec targets) true false fit.

Definition multi (ls : bool) : Evaluator :=
  init X (Mat [targets]) ls false teacher.

(** An environment whose decoder diverges: the loss of the first of the
    100 epochs is the lowest. *)
Definition diverging : External :=
  {| py_int := Ref.int;
     random_sample := fun _ _ k => py_range k;
     pdist := fun _ => Raise ExternalError;
     keras_fit := fun _ _ _ _ _ => Ok (f_1_0 :: repeat two 99) |}.

Definition multi_decoder : Evaluator :=
  init X (Mat [targets]) false false "neural_decoder_fitness"%string.


(** A leaf that prints as the empty string, a variable leaf whose index
    does not read as an integer, and a FeatureNode that refers to the last
    sub_function. *)
Definition unnamed : Node := mkNode 0 false false 0 EmptyString.
Definition xa : Node := mkNode 0 false true 0 "xa".
Definition xlast : Node := mkNode 0 false true (-1) "x-1".

(** An individual without output channel, and one whose output has one
    column for two sup_functions. *)
Definition no_channel : MultiTreeIndividual :=
  mkMulti [] [tree [c7] zeros] 0 1 (fun _ => []) [].

Definition short_output : MultiTreeIndividual :=
  mkMulti [tree [x0] ramp; tree [x1] ramp] [tree [c7] zeros] 2 1
          (fun _ => [ramp]) [].

(** An environment whose decoder converges: the loss of the last of the
    100 epochs is the lowest. *)
Definition converging : External :=
  {| py_int := Ref.int;
     random_sample := fun _ _ k => py_range k;
     pdist := fun _ => Raise ExternalError;
     keras_fit := fun _ _ _ _ _ => Ok (repeat two 99 ++ [f_1_0]) |}.

Definition manifold : Evaluator :=
  init X (Vec zeros) false false "manifold_fitness"%string.

End Sample.

(** ** Vocabulary of the statements *)

(** The size of a sub_function, and the flattened nodes of all
    sup_functions in loop order. *)
Definition size (t : Tree) : Z := len (GetSubtree t).

Definition sup_nodes (m : MultiTreeIndividual) : list Node :=
  flat_map GetSubtree (sup_functions m).

(** What one node of a sup_function adds in inlined mode: the size of the
    sub_function it refers to for a FeatureNode when there are
    sub_functions, 1 otherwise. *)
Definition node_cost (m : MultiTreeIndividual) (n : Node) : result Z :=
  if is_FeatureNode n && (0 <? num_sub_functions m)
  then (sub <-- py_getitem (sub_functions m) (node_id n) ; Ok (size sub))%res
  else Ok 1.

(** A Python number that equals the integer [z]. *)
Definition pyval_is (v : pyval) (z : Z) : Prop :=
  v = VInt z \/ v = VFloat (Z2f z).

(** Number of FeatureNodes of the sup_functions that refer to sub_function
    [j], and number of their other nodes. *)
Definition references (m : MultiTreeIndividual) (j : Z) : Z :=
  len (filter (fun n => is_FeatureNode n && (node_id n =? j)) (sup_nodes m)).

Definition other_nodes (m : MultiTreeIndividual) : Z :=
  len (filter (fun n => negb (is_FeatureNode n)) (sup_nodes m)).

Definition size_of_sub (m : MultiTreeIndividual) (j : Z) : Z :=
  nth (Z.to_nat j) (map size (sub_functions m)) 0.

(** A multi-tree individual as the node layer builds it:
    [num_sub_functions] counts the sub_functions, there is at least one,
    every FeatureNode of a sup_function names one of them, and every
    sub_function has at least its root node. *)
Definition well_formed (m : MultiTreeIndividual) : Prop :=
  num_sub_functions m = len (sub_functions m) /\
  0 < num_sub_functions m /\
  Forall (fun n => is_FeatureNode n = true -> 0 <= node_id n < num_sub_functions m)
         (sup_nodes m) /\
  Forall (fun t => 0 < size t) (sub_functions m).

(** The cost of a node when its reference is in range. *)
Definition plain_cost (m : MultiTreeIndividual) (n : Node) : Z :=
  if is_FeatureNode n then size_of_sub m (node_id n) else 1.

Definition gp_autoencoder : string := "gp_autoencoder_fitness"%string.

(** Operators and non-arithmetic operators of a flattened subtree. *)
Definition is_op (n : Node) : bool := 0 <? arity n.
Definition is_naop (n : Node) : bool := is_op n && is_not_arithmetic n.

Definition count (p : Node -> bool) (t : Tree) : Z :=
  len (filter p (GetSubtree t)).

Section Vocabulary.
Context {NP : Numpy} {EXT : External}.

(** [100 * (c0*n_nodes + c1*n_ops + c2*n_naops + c3*n_nacomp)] with the
    four coefficients of the source. *)
Definition linear_model (n_nodes n_ops n_naops n_nacomp : Z) : float :=
  fmul (np_sum [ fmul (Z2f n_nodes) (nth 0 coeffs np_nan)
               ; fmul (Z2f n_ops) (nth 1 coeffs np_nan)
               ; fmul (Z2f n_naops) (nth 2 coeffs np_nan)
               ; fmul (Z2f n_nacomp) (nth 3 coeffs np_nan) ])
       (Z2f 100).

(** The fitted scale and offset of output [o] against target [t]. *)
Definition slope (t o : list float) : float :=
  fdiv (np_cov01 t o) (fadd (np_var o) f_1e_10).

Definition intercept (t o : list float) : float :=
  fsub (np_mean t) (fmul (slope t o) (np_mean o)).

(** Entrywise squared differences of two arrays of one length. *)
Definition squared_differences (t p : list float) : list float :=
  map (fun tp => square (fsub (fst tp) (snd tp))) (combine t p).

(** Mean squared difference between [t] and [a + b * o]. *)
Definition mse (a b : float) (t o : list float) : float :=
  np_mean (squared_differences t (map (fun v => fadd a (fmul b v)) o)).

(** Channel [i] of a list of columns. *)
Definition chan (cols : list (list float)) (i : nat) : list float :=
  nth i cols [].

(** The error of channel [i] after its own fit. *)
Definition fitted_mse (ys os : list (list float)) (i : nat) : float :=
  mse (intercept (chan ys i) (chan os i)) (slope (chan ys i) (chan os i))
      (chan ys i) (chan os i).

(** sup_function [i] with the fit of channel [i] stored on it. *)
Definition fitted (ys os : list (list float)) (i : nat) (f : Tree) : Tree :=
  with_ls f (intercept (chan ys i) (chan os i)) (slope (chan ys i) (chan os i)).

(** A leaf prints as a non-empty string, and as ["x"] followed by what
    [int] reads when it begins with ["x"]. *)
Definition leaf_prints (n : Node) : Prop :=
  is_op n = false ->
  exists c rest, node_str n = String c rest /\
                 (c = "x"%char -> exists k, py_int rest = Ok k).

End Vocabulary.

(** What the loop over the channels needs of channel [i]: the column
    exists in [y_train] and in the output, with one length in both. *)
Definition channel_ok (ys os : list (list float)) (i : nat) : Prop :=
  (i < length ys)%nat /\ (i < length os)%nat /\
  length (nth i ys []) = length (nth i os []).

(** Replacing element [i] of a list by its image, for each index of a
    list of indices in turn. *)
Definition update_at {A} (g : nat -> A -> A) (l : list A) (i : nat) : list A :=
  match nth_error l i with
  | Some a => list_set l i (g i a)
  | None => l
  end.

Definition updates {A} (g : nat -> A -> A) (idx : list nat) (l : list A) : list A :=
  fold_left (update_at g) idx l.

(** The stages of one [Evaluate] call: the state once the counter is
    incremented and the objectives emptied, and the state once a value is
    appended to the objectives. *)
Definition begun (s : State) : State :=
  mkState (with_evaluations (self s) (evaluations (self s) + 1))
          (with_objectives (individual s) [])
          (calls_GetOutput s) (calls_deepcopy s).

Definition appended (s : State) (v : pyval) : State :=
  with_individual s (with_objectives (individual s) (objectives (individual s) ++ [v])).

(** The error before the NaN guard, by kind of individual. *)
Definition raw_error {NP : Numpy} (s : State) : State * result float :=
  match individual s with
  | Multi m => EvaluateMeanSquaredErrorOfMultiTree m s
  | Single t => EvaluateMeanSquaredErrorOfNormalTree t s
  end.

(** The second objective, by [use_interpretability_model]. *)
Definition second_objective {NP : Numpy} {EXT : External} (s : State)
  : result pyval :=
  if use_interpretability_model (self s)
  then (phi <-- EvaluatePHIsModel (individual s) ; Ok (VFloat phi))%res
  else EvaluateLength (self s) (individual s).

(** The test that guards the replacement of the elite. *)
Definition better (s : State) : result bool :=
  match elite (self s) with
  | None => Ok true
  | Some e =>
      (o <-- objective0 (individual s) ; oe <-- objective0 e ; Ok (py_lt o oe))%res
  end.

(** A run that leaves the evaluator, the count of copies and the
    objectives of the individual as they were. *)
Definition keeps (s s' : State) : Prop :=
  self s' = self s /\
  calls_deepcopy s' = calls_deepcopy s /\
  objectives (individual s') = objectives (individual s).

(** A float that is a zero, a finite value or an infinity of sign [s]. *)
Definition signed (s : bool) (x : float) : bool :=
  match x with
  | S754_zero s' => Bool.eqb s s'
  | S754_finite s' _ _ => Bool.eqb s s'
  | S754_infinity s' => Bool.eqb s s'
  | S754_nan => false
  end.

(** A float that is not above zero and not a NaN. *)
Definition nonpos (x : float) : bool :=
  match x with
  | S754_zero _ => true
  | S754_finite s _ _ => s
  | S754_infinity s => s
  | S754_nan => false
  end.

Definition has_nan (l : list float) : Prop := Exists (fun x => isnan x = true) l.

(** What the statements on NaN assume of numpy: the mean of data with a
    NaN is NaN, and a sum of values none of which is above zero or a NaN
    is not a NaN. *)
Class NumpyLaws (NP : Numpy) : Prop := {
  np_mean_nan : forall l, has_nan l -> isnan (np_mean l) = true;
  np_sum_nonpos : forall l, Forall (fun x => nonpos x = true) l ->
                            isnan (np_sum l) = false
}.


(** The two fitness strings whose first objective is the mean squared
    error. *)
Definition mse_mode (fit : string) : bool :=
  String.eqb fit "autoencoder_teacher_fitness"
  || String.eqb fit "gp_autoencoder_fitness".


(** The four fitness strings [Evaluate] has a branch for. *)
Definition recognised (fit : string) : bool :=
  String.eqb fit "manifold_fitness" || String.eqb fit "neural_decoder_fitness"
  || String.eqb fit "autoencoder_teacher_fitness"
  || String.eqb fit "gp_autoencoder_fitness".

(** A computation that never calls [GetOutput], and one that calls it
    once when it returns and at most once when it raises. *)
Definition quiet {A} (c : M A) : Prop :=
  forall s, calls_GetOutput (fst (c s)) = calls_GetOutput s.

Definition once {A} (c : M A) : Prop :=
  forall s,
    match snd (c s) with
    | Ok _ => calls_GetOutput (fst (c s)) = S (calls_GetOutput s)
    | Raise _ => calls_GetOutput (fst (c s)) = calls_GetOutput s \/
                 calls_GetOutput (fst (c s)) = S (calls_GetOutput s)
    end.

(** The elite, when there is one, carries exactly two objectives. *)
Definition elite_has_two (e : Evaluator) : Prop :=
  match elite e with
  | None => True
  | Some i => length (objectives i) = 2%nat
  end.

(** [Evaluate] called on each individual of a list in turn, by a caller
    that goes on after an exception. *)
Fixpoint EvaluateAll {NP : Numpy} {EXT : External}
         (l : list Individual) (s : State) : State :=
  match l with
  | [] => s
  | i :: r => EvaluateAll r (fst (Evaluate (next s i)))
  end.

(** The first objectives of the individuals of a list on which
    [Evaluate], called on each in turn, returned. *)
Fixpoint returned_errors {NP : Numpy} {EXT : External}
         (l : list Individual) (s : State) : list float :=
  match l with
  | [] => []
  | i :: r =>
      let s' := fst (Evaluate (next s i)) in
      match snd (Evaluate (next s i)), objective0 (individual s') with
      | Ok _, Ok (VFloat v) => v :: returned_errors r s'
      | _, _ => returned_errors r s'
      end
  end.

(** The elite holds a lowest error of a list: there is no elite when the
    list is empty; otherwise its first objective is one of the errors and
    none of them is below it. *)
Definition lowest_of (seen : list float) (e : Evaluator) : Prop :=
  match elite e with
  | None => seen = []
  | Some el =>
      exists x, objective0 el = Ok (VFloat x) /\ In x seen /\
                forall v, In v seen -> fltb v x = false
  end.

(** The range of indices Python accepts on a list of length [n]. *)
Definition index_ok (n i : Z) : Prop := - n <= i < n.

(** * Properties *)

(** ** Lists, sums and indexing *)

Lemma Zsum_app (l1 l2 : list Z) : Zsum (l1 ++ l2) = Zsum l1 + Zsum l2.
Proof. induction l1 as [|a l1 IH]; simpl; lia. Qed.

Lemma Zsum_map_add {A} (f g : A -> Z) (l : list A) :
  Zsum (map (fun j => f j + g j) l) = Zsum (map f l) + Zsum (map g l).
Proof. induction l as [|a l IH]; simpl; lia. Qed.

Lemma Zsum_nonneg (l : list Z) : Forall (fun z => 0 <= z) l -> 0 <= Zsum l.
Proof. induction 1; simpl; lia. Qed.

Lemma Zsum_zero (l : list Z) :
  Forall (fun z => 0 <= z) l -> (Zsum l = 0 <-> Forall (fun z => z = 0) l).
Proof.
  induction 1 as [|a l Ha Hl IH]; simpl.
  - split; auto.
  - pose proof (Zsum_nonneg Hl) as Hs. split.
    + intros E. constructor; [lia|]. apply IH. lia.
    + intros F. inversion F as [|? ? Ea Fl]; subst. apply IH in Fl. lia.
Qed.

Lemma len_nonneg {A} (l : list A) : 0 <= len l.
Proof. unfold len. lia. Qed.

Lemma len_cons {A} (a : A) (l : list A) : len (a :: l) = 1 + len l.
Proof. unfold len. simpl length. lia. Qed.

Lemma py_range_NoDup (n : Z) : NoDup (py_range n).
Proof.
  unfold py_range. apply Injective_map_NoDup.
  - intros a b E. lia.
  - apply seq_NoDup.
Qed.

Lemma py_range_In (n j : Z) : In j (py_range n) <-> 0 <= j < n.
Proof.
  unfold py_range. rewrite in_map_iff. split.
  - intros [k [E Hk]]. apply in_seq in Hk. lia.
  - intros Hj. exists (Z.to_nat j). split; [lia|]. apply in_seq. lia.
Qed.

(** Summing an indicator of [i] over a duplicate-free list picks [f i]. *)
Lemma Zsum_indicator (f : Z -> Z) (i : Z) (l : list Z) :
  NoDup l ->
  Zsum (map (fun j => (if i =? j then 1 else 0) * f j) l)
  = if in_dec Z.eq_dec i l then f i else 0.
Proof.
  induction 1 as [|a l Hna Hnd IH]; simpl; [reflexivity|].
  rewrite IH. destruct (Z.eqb_spec i a) as [E|E].
  - subst a. destruct (Z.eq_dec i i) as [?|Hn]; [|congruence].
    destruct (in_dec Z.eq_dec i l); [contradiction|lia].
  - destruct (Z.eq_dec a i) as [E'|?]; [congruence|].
    destruct (in_dec Z.eq_dec i l); lia.
Qed.

Lemma nth_error_map_seq {A} (d : A) (l : list A) :
  map (fun k => nth k l d) (seq 0 (length l)) = l.
Proof.
  induction l as [|a l IH]; simpl; [reflexivity|].
  f_equal. rewrite <- seq_shift, map_map. exact IH.
Qed.

Lemma Zsum_by_index (l : list Z) :
  Zsum (map (fun j => nth (Z.to_nat j) l 0) (py_range (len l))) = Zsum l.
Proof.
  unfold py_range, len. rewrite Nat2Z.id, map_map.
  rewrite (map_ext _ (fun k => nth k l 0)).
  - now rewrite nth_error_map_seq.
  - intros k. now rewrite Nat2Z.id.
Qed.

Lemma py_getitem_in_range {A} (l : list A) (i : Z) (d : A) :
  0 <= i < len l -> py_getitem l i = Ok (nth (Z.to_nat i) l d).
Proof.
  unfold py_getitem, len. intros Hi.
  destruct (Z.ltb_spec i 0); [lia|].
  destruct (Z.leb_spec 0 i); [|lia].
  destruct (Z.ltb_spec i (Z.of_nat (length l))); [|lia]. simpl.
  destruct (nth_error l (Z.to_nat i)) eqn:E.
  - f_equal. symmetry. now apply nth_error_nth.
  - apply nth_error_None in E. lia.
Qed.

Lemma py_getitem_map {A B} (f : A -> B) (l : list A) (i : Z) :
  py_getitem (map f l) i = (a <-- py_getitem l i ; Ok (f a))%res.
Proof.
  unfold py_getitem. rewrite length_map, nth_error_map.
  destruct (_ && _); [|reflexivity].
  now destruct (nth_error l _).
Qed.

Lemma rmap_app {A B} (f : A -> result B) (l1 l2 : list A) :
  rmap f (l1 ++ l2)
  = (a <-- rmap f l1 ; b <-- rmap f l2 ; Ok (a ++ b))%res.
Proof.
  induction l1 as [|x l1 IH]; simpl.
  - now destruct (rmap f l2).
  - destruct (f x); simpl; [|reflexivity]. rewrite IH.
    destruct (rmap f l1); simpl; [|reflexivity].
    now destruct (rmap f l2).
Qed.

Lemma rfold_app {A B} (body : B -> A -> result B) (l1 l2 : list A) (acc : B) :
  rfold body (l1 ++ l2) acc = rbind (rfold body l1 acc) (rfold body l2).
Proof.
  revert acc. induction l1 as [|x l1 IH]; intros acc; simpl; [reflexivity|].
  destruct (body acc x); simpl; auto.
Qed.

(** ** Complexity: [EvaluateLength] *)

Section Complexity.
Context {NP : Numpy} {EXT : External}.

Lemma node_cost_index (m : MultiTreeIndividual) (n : Node) :
  node_cost m n
  = if is_FeatureNode n && (0 <? num_sub_functions m)
    then py_getitem (map (fun x => len (GetSubtree x)) (sub_functions m)) (node_id n)
    else Ok 1.
Proof.
  unfold node_cost. destruct (_ && _); [|reflexivity].
  rewrite py_getitem_map. reflexivity.
Qed.

(** The inner loop adds the costs of the nodes to the running total. *)
Lemma inner_loop (m : MultiTreeIndividual) (nodes : list Node) (l : Z) :
  rfold (length_step (num_sub_functions m)
                     (map (fun x => len (GetSubtree x)) (sub_functions m)))
        nodes l
  = (costs <-- rmap (node_cost m) nodes ; Ok (l + Zsum costs))%res.
Proof.
  revert l. induction nodes as [|n nodes IH]; intros l; cbn [rfold rmap rbind Zsum].
  - f_equal. lia.
  - rewrite node_cost_index. unfold length_step at 1.
    destruct (is_FeatureNode n && (0 <? num_sub_functions m)); cbn [rbind].
    + destruct (py_getitem _ (node_id n)) as [k|e]; cbn [rbind]; [|reflexivity].
      rewrite IH. destruct (rmap (node_cost m) nodes); cbn [rbind Zsum]; [|reflexivity].
      f_equal. lia.
    + rewrite IH. destruct (rmap (node_cost m) nodes); cbn [rbind Zsum]; [|reflexivity].
      f_equal. lia.
Qed.

Lemma outer_loop {A} (step : Z -> A -> result Z) (f : Tree -> list A)
      (sups : list Tree) (l : Z) :
  rfold (fun l sup_function => rfold step (f sup_function) l) sups l
  = rfold step (flat_map f sups) l.
Proof.
  revert l. induction sups as [|t sups IH]; intros l; simpl; [reflexivity|].
  rewrite rfold_app. destruct (rfold step (f t) l); simpl; auto.
Qed.

Lemma EvaluateLength_inlined (e : Evaluator) (m : MultiTreeIndividual) :
  fitness e <> gp_autoencoder ->
  EvaluateLength e (Multi m)
  = (costs <-- rmap (node_cost m) (sup_nodes m) ; Ok (VInt (Zsum costs)))%res.
Proof.
  intros Hf. unfold EvaluateLength.
  destruct (String.eqb_spec (fitness e) "gp_autoencoder_fitness") as [E|_];
    [contradiction|].
  rewrite outer_loop, inner_loop. unfold sup_nodes.
  now destruct (rmap (node_cost m) _).
Qed.

Lemma EvaluateLength_once (e : Evaluator) (m : MultiTreeIndividual) :
  fitness e = gp_autoencoder ->
  EvaluateLength e (Multi m) = Ok (np_sum_int (map size (sub_functions m))).
Proof.
  intros Hf. unfold EvaluateLength. rewrite Hf. reflexivity.
Qed.

Lemma np_sum_int_is (l : list Z) : pyval_is (np_sum_int l) (Zsum l).
Proof. destruct l; [right|left]; reflexivity. Qed.

(** C6. [EvaluateLength] gives: for a single tree, the number of nodes
    of its flattened subtree; for a multi-tree individual under
    ["gp_autoencoder_fitness"], the sum of the sizes of the sub_functions
    alone; for a multi-tree individual under any other mode, the sum over
    every node of every sup_function of the size of the sub_function it
    refers to when the node is a FeatureNode and [num_sub_functions > 0],
    and of 1 for any other node (so also for a FeatureNode when
    [num_sub_functions] is 0). *)
Theorem EvaluateLength_computes (e : Evaluator) :
  (forall t, EvaluateLength e (Single t) = Ok (VInt (len (GetSubtree t)))) /\
  (forall m, fitness e = gp_autoencoder ->
     exists v, EvaluateLength e (Multi m) = Ok v /\
               pyval_is v (Zsum (map size (sub_functions m)))) /\
  (forall m, fitness e <> gp_autoencoder ->
     EvaluateLength e (Multi m)
     = (costs <-- rmap (node_cost m) (sup_nodes m) ; Ok (VInt (Zsum costs)))%res) /\
  (forall m n, num_sub_functions m = 0 -> node_cost m n = Ok 1).
Proof.
  repeat split.
  - intros m Hf. exists (np_sum_int (map size (sub_functions m))). split.
    + now apply EvaluateLength_once.
    + apply np_sum_int_is.
  - intros m Hf. now apply EvaluateLength_inlined.
  - intros m n H0. unfold node_cost. rewrite H0, andb_false_r. reflexivity.
Qed.

(** *** Inlined against counted-once *)

Lemma costs_well_formed (m : MultiTreeIndividual) (nodes : list Node) :
  num_sub_functions m = len (sub_functions m) ->
  0 < num_sub_functions m ->
  Forall (fun n => is_FeatureNode n = true -> 0 <= node_id n < num_sub_functions m)
         nodes ->
  rmap (node_cost m) nodes = Ok (map (plain_cost m) nodes).
Proof.
  intros Hn Hpos. induction 1 as [|n nodes Hid _ IH]; cbn [rmap map]; [reflexivity|].
  assert (node_cost m n = Ok (plain_cost m n)) as ->.
  { rewrite node_cost_index. unfold plain_cost, size_of_sub, size.
    destruct (is_FeatureNode n); cbn [andb]; [|reflexivity].
    destruct (Z.ltb_spec 0 (num_sub_functions m)); [|lia].
    apply py_getitem_in_range.
    unfold len in *. rewrite length_map. specialize (Hid eq_refl). lia. }
  rewrite IH. reflexivity.
Qed.

(** Counting the cost of the nodes by the sub_function they refer to. *)
Lemma costs_by_reference (m : MultiTreeIndividual) (N : Z) (nodes : list Node) :
  Forall (fun n => is_FeatureNode n = true -> 0 <= node_id n < N) nodes ->
  Zsum (map (plain_cost m) nodes)
  = Zsum (map (fun j => len (filter (fun n => is_FeatureNode n && (node_id n =? j)) nodes)
                        * size_of_sub m j) (py_range N))
    + len (filter (fun n => negb (is_FeatureNode n)) nodes).
Proof.
  induction 1 as [|n nodes Hid _ IH].
  - cbn [map filter Zsum]. induction (py_range N) as [|j r IHr]; cbn [map Zsum]; [reflexivity|].
    cbn [map Zsum] in IHr. unfold len in *. cbn [length] in *. lia.
  - cbn [map Zsum filter]. rewrite IH. unfold plain_cost at 1.
    destruct (is_FeatureNode n) eqn:Ef; cbn [andb negb].
    + rewrite (map_ext
        (fun j => len (if node_id n =? j
                       then n :: filter (fun n0 => is_FeatureNode n0 && (node_id n0 =? j)) nodes
                       else filter (fun n0 => is_FeatureNode n0 && (node_id n0 =? j)) nodes)
                  * size_of_sub m j)
        (fun j => (if node_id n =? j then 1 else 0) * size_of_sub m j
                  + len (filter (fun n0 => is_FeatureNode n0 && (node_id n0 =? j)) nodes)
                    * size_of_sub m j)).
      * rewrite Zsum_map_add, Zsum_indicator by apply py_range_NoDup.
        destruct (in_dec Z.eq_dec (node_id n) (py_range N)) as [?|Hout]; [lia|].
        exfalso. apply Hout, py_range_In, Hid, eq_refl.
      * intros j. destruct (node_id n =? j); [rewrite len_cons|]; lia.
    + rewrite len_cons. lia.
Qed.

Lemma inlined_minus_once (m : MultiTreeIndividual) :
  well_formed m ->
  Zsum (map (plain_cost m) (sup_nodes m))
  = Zsum (map size (sub_functions m))
    + Zsum (map (fun j => (references m j - 1) * size_of_sub m j)
                (py_range (num_sub_functions m)))
    + other_nodes m.
Proof.
  intros (Hn & Hpos & Hids & Hsz).
  rewrite (costs_by_reference m Hids).
  fold (other_nodes m).
  rewrite <- (Zsum_by_index (map size (sub_functions m))).
  replace (len (map size (sub_functions m))) with (num_sub_functions m)
    by (unfold len in *; now rewrite length_map).
  fold (size_of_sub m). rewrite <- Zsum_map_add.
  f_equal. f_equal. apply map_ext. intros j. unfold references, size_of_sub. lia.
Qed.

End Complexity.

Section InlinedAgainstOnce.
Context {NP : Numpy} {EXT : External}.

Lemma size_of_sub_pos (m : MultiTreeIndividual) (j : Z) :
  well_formed m -> 0 <= j < num_sub_functions m -> 0 < size_of_sub m j.
Proof.
  intros (Hn & _ & _ & Hsz) Hj. unfold size_of_sub.
  assert (In (nth (Z.to_nat j) (map size (sub_functions m)) 0)
             (map size (sub_functions m))) as Hin.
  { apply nth_In. rewrite length_map. unfold len in Hn. lia. }
  apply in_map_iff in Hin. destruct Hin as [t [<- Ht]].
  rewrite Forall_forall in Hsz. now apply Hsz.
Qed.

(** C7, as the code has it.  For a well-formed multi-tree individual the
    inlined complexity is the counted-once complexity, plus
    [(references - 1) * size] summed over the sub_functions, plus the
    number of nodes of the sup_functions that are not FeatureNodes.
    Hence, when every sub_function is referred to at least once, inlined
    is at least counted-once, and the two are equal exactly when every
    sub_function is referred to exactly once and the sup_functions hold
    FeatureNodes only. *)
Theorem inlined_against_once (e_in e_once : Evaluator) (m : MultiTreeIndividual) :
  fitness e_in <> gp_autoencoder ->
  fitness e_once = gp_autoencoder ->
  well_formed m ->
  exists a b,
    EvaluateLength e_in (Multi m) = Ok (VInt a) /\
    EvaluateLength e_once (Multi m) = Ok (VInt b) /\
    a = b + Zsum (map (fun j => (references m j - 1) * size_of_sub m j)
                      (py_range (num_sub_functions m)))
          + other_nodes m /\
    ((forall j, 0 <= j < num_sub_functions m -> 1 <= references m j) ->
     b <= a /\
     (a = b <-> (forall j, 0 <= j < num_sub_functions m -> references m j = 1)
                /\ other_nodes m = 0)).
Proof.
  intros Hin Honce Hwf.
  exists (Zsum (map (plain_cost m) (sup_nodes m))),
         (Zsum (map size (sub_functions m))).
  pose proof Hwf as (Hn & Hpos & Hids & Hsz).
  split; [|split; [|split]].
  - rewrite EvaluateLength_inlined by assumption.
    rewrite costs_well_formed by assumption. reflexivity.
  - rewrite EvaluateLength_once by assumption.
    destruct (sub_functions m); [|reflexivity].
    unfold len in Hn. simpl in Hn. lia.
  - now apply inlined_minus_once.
  - intros Href. rewrite (inlined_minus_once Hwf).
    set (terms := map (fun j => (references m j - 1) * size_of_sub m j)
                      (py_range (num_sub_functions m))).
    assert (Forall (fun z => 0 <= z) terms) as Hterms.
    { apply Forall_forall. intros z Hz. apply in_map_iff in Hz.
      destruct Hz as [j [<- Hj]]. apply py_range_In in Hj.
      pose proof (size_of_sub_pos Hwf Hj). specialize (Href j Hj). nia. }
    pose proof (Zsum_nonneg Hterms) as Hs.
    pose proof (len_nonneg (filter (fun n => negb (is_FeatureNode n)) (sup_nodes m)))
      as Ho. fold (other_nodes m) in Ho.
    split; [lia|]. split.
    + intros E. assert (Zsum terms = 0) as Hz by lia. split; [|lia].
      apply (Zsum_zero Hterms) in Hz. rewrite Forall_forall in Hz.
      intros j Hj. pose proof (size_of_sub_pos Hwf Hj).
      assert ((references m j - 1) * size_of_sub m j = 0) as Ht.
      { apply Hz. apply in_map_iff. exists j. split; [reflexivity|].
        now apply py_range_In. }
      nia.
    + intros [Hone H0]. assert (Zsum terms = 0) as Hz; [|lia].
      apply (Zsum_zero Hterms). apply Forall_forall. intros z Hz.
      apply in_map_iff in Hz. destruct Hz as [j [<- Hj]].
      apply py_range_In in Hj. rewrite (Hone j Hj). lia.
Qed.

End InlinedAgainstOnce.

(** On [Sample.alias] the two complexities are both 3. *)
Lemma inlined_against_once_alias :
  exists a b,
    EvaluateLength (Sample.plain Sample.teacher) (Multi Sample.alias) = Ok (VInt a) /\
    EvaluateLength (Sample.plain gp_autoencoder) (Multi Sample.alias) = Ok (VInt b) /\
    a = b + Zsum (map (fun j => (references Sample.alias j - 1)
                                * size_of_sub Sample.alias j)
                      (py_range (num_sub_functions Sample.alias)))
          + other_nodes Sample.alias /\
    ((forall j, 0 <= j < num_sub_functions Sample.alias ->
                1 <= references Sample.alias j) ->
     b <= a /\
     (a = b <-> (forall j, 0 <= j < num_sub_functions Sample.alias ->
                           references Sample.alias j = 1)
                /\ other_nodes Sample.alias = 0)).
Proof.
  apply (@inlined_against_once (Sample.plain Sample.teacher)
           (Sample.plain gp_autoencoder) Sample.alias).
  - discriminate.
  - reflexivity.
  - unfold well_formed. cbn. repeat split; try lia.
    + repeat constructor; cbn; lia.
    + repeat constructor.
Defined.

(** C7 as stated fails.  In [Sample.unreferenced] no sub_function is
    referred to more than once, yet the inlined complexity, 1, is below the
    counted-once complexity, 3.  In [Sample.each_once] every sub_function is
    referred to exactly once, yet the two complexities, 3 and 2, differ. *)
Lemma inlined_below_once :
  (EvaluateLength (Sample.plain Sample.teacher) (Multi Sample.unreferenced)
   = Ok (VInt 1) /\
   EvaluateLength (Sample.plain gp_autoencoder) (Multi Sample.unreferenced)
   = Ok (VInt 3) /\
   (forall j, references Sample.unreferenced j <= 1) /\
   ~ 3 <= 1) /\
  (EvaluateLength (Sample.plain Sample.teacher) (Multi Sample.each_once)
   = Ok (VInt 3) /\
   EvaluateLength (Sample.plain gp_autoencoder) (Multi Sample.each_once)
   = Ok (VInt 2) /\
   references Sample.each_once 0 = 1 /\
   references Sample.each_once 1 = 1 /\
   3 <> 2).
Proof.
  repeat split; try reflexivity; try lia.
  intros j. cbn. lia.
Qed.

(** ** Interpretability: [EvaluatePHIsModel] *)

Section Interpretability.
Context {NP : Numpy} {EXT : External}.

(** The loop over the subtree counts operators and non-arithmetic
    operators; it fails only on a leaf that does not print as expected. *)
Lemma count_loop (nodes : list Node) (c : counters) :
  Forall leaf_prints nodes ->
  exists c', rfold count_step nodes c = Ok c' /\
             n_ops c' = n_ops c + len (filter is_op nodes) /\
             n_naops c' = n_naops c + len (filter is_naop nodes).
Proof.
  intros H. revert c. induction H as [|n nodes Hn _ IH]; intros c.
  - exists c. cbn. repeat split; lia.
  - cbn [rfold filter]. unfold count_step at 1, is_naop at 1.
    unfold leaf_prints in Hn. fold (is_op n). destruct (is_op n) eqn:Eop.
    + cbn [rbind andb]. edestruct IH as (c' & -> & H1 & H2).
      exists c'. split; [reflexivity|]. rewrite H1, H2. cbn [n_ops n_naops].
      rewrite len_cons. destruct (is_not_arithmetic n); [rewrite len_cons|]; lia.
    + destruct (Hn eq_refl) as (c0 & rest & -> & Hx). cbn [andb].
      destruct (Ascii.eqb_spec c0 "x"%char) as [E|E].
      * destruct (Hx E) as [k ->]. cbn [rbind].
        edestruct IH as (c' & -> & H1 & H2).
        exists c'. split; [reflexivity|]. rewrite H1, H2. cbn. lia.
      * cbn [rbind]. edestruct IH as (c' & -> & H1 & H2).
        exists c'. split; [reflexivity|]. rewrite H1, H2. cbn. lia.
Qed.

(** Whenever the loop ends without an exception, the counters hold the
    same counts. *)
Lemma count_loop_returns (nodes : list Node) :
  forall c c',
    rfold count_step nodes c = Ok c' ->
    n_ops c' = n_ops c + len (filter is_op nodes) /\
    n_naops c' = n_naops c + len (filter is_naop nodes).
Proof.
  induction nodes as [|n nodes IH]; intros c c' H.
  - cbn in H. inversion H; subst. cbn. lia.
  - cbn [rfold] in H. unfold count_step at 1 in H. cbn [filter].
    unfold is_naop at 1. fold (is_op n) in H. destruct (is_op n) eqn:Eop.
    + cbn [rbind andb] in H. apply IH in H. cbn [n_ops n_naops] in H.
      destruct H as [H1 H2]. rewrite H1, H2, len_cons. cbn [andb].
      destruct (is_not_arithmetic n); [rewrite len_cons|]; lia.
    + cbn [andb]. destruct (node_str n) as [|c0 rest]; [discriminate|].
      destruct (Ascii.eqb c0 "x"%char).
      * destruct (py_int rest) as [k|]; [|discriminate].
        cbn [rbind] in H. apply IH in H. cbn [n_ops n_naops] in H. lia.
      * cbn [rbind] in H. apply IH in H. cbn [n_ops n_naops] in H. lia.
Qed.

Lemma EvaluatePHIsModelOfNormalTree_returns (t : Tree) (r : float) :
  EvaluatePHIsModelOfNormalTree t = Ok r ->
  r = fmul (Z2f (-1))
           (linear_model (size t) (count is_op t) (count is_naop t)
                         (Count_n_nacomp t)).
Proof.
  unfold EvaluatePHIsModelOfNormalTree.
  destruct (rfold count_step (GetSubtree t) (mkCounters 0 0 0 [] 0)) as [c'|] eqn:E;
    [|discriminate].
  apply count_loop_returns in E. destruct E as [H1 H2]. cbn [n_ops n_naops] in H1, H2.
  cbn [rbind]. intros H. inversion H. rewrite H1, H2. reflexivity.
Qed.

Lemma EvaluatePHIsModelOfNormalTree_score (t : Tree) :
  Forall leaf_prints (GetSubtree t) ->
  EvaluatePHIsModelOfNormalTree t
  = Ok (fmul (Z2f (-1))
             (linear_model (size t) (count is_op t) (count is_naop t)
                           (Count_n_nacomp t))).
Proof.
  intros H. unfold EvaluatePHIsModelOfNormalTree.
  destruct (count_loop (mkCounters 0 0 0 [] 0) H) as (c' & -> & H1 & H2).
  cbn [rbind]. rewrite H1, H2. reflexivity.
Qed.

(** C8. For a single tree the interpretability objective, whenever one
    is returned, and always when the leaves print as the loop expects, is
    [-1] times
    [100 * (-0.00195041*n_nodes - 0.00502375*n_ops - 0.03351907*n_naops
    - 0.04472121*n_nacomp)], with [n_nodes], [n_ops], [n_naops] counted on
    the flattened subtree of that tree and [n_nacomp] its
    [Count_n_nacomp()].  For a multi-tree individual it is [np.sum] of the
    scores of the sup_functions followed by those of the sub_functions,
    each the score of that tree taken alone. *)
Theorem EvaluatePHIsModel_computes :
  (forall t r, EvaluatePHIsModel (Single t) = Ok r ->
     r = fmul (Z2f (-1))
              (linear_model (size t) (count is_op t) (count is_naop t)
                            (Count_n_nacomp t))) /\
  (forall t, Forall leaf_prints (GetSubtree t) ->
     EvaluatePHIsModel (Single t)
     = Ok (fmul (Z2f (-1))
                (linear_model (size t) (count is_op t) (count is_naop t)
                              (Count_n_nacomp t)))) /\
  (forall m,
     EvaluatePHIsModel (Multi m)
     = (phis <-- rmap (fun t => EvaluatePHIsModel (Single t))
                      (sup_functions m ++ sub_functions m) ;
        Ok (np_sum phis))%res) /\
  coeffs = [ fmul (Z2f (-1)) (fdiv (Z2f 195041) (Z2f 100000000))
           ; fmul (Z2f (-1)) (fdiv (Z2f 502375) (Z2f 100000000))
           ; fmul (Z2f (-1)) (fdiv (Z2f 3351907) (Z2f 100000000))
           ; fmul (Z2f (-1)) (fdiv (Z2f 4472121) (Z2f 100000000)) ].
Proof.
  split; [|split; [|split]].
  - intros t r H. now apply EvaluatePHIsModelOfNormalTree_returns.
  - intros t H. now apply EvaluatePHIsModelOfNormalTree_score.
  - intros m. cbn [EvaluatePHIsModel]. unfold EvaluatePHIsModelOfMultiTree.
    rewrite rmap_app.
    change (fun t => EvaluatePHIsModel (Single t)) with EvaluatePHIsModelOfNormalTree.
    destruct (rmap _ (sup_functions m)); cbn [rbind]; [|reflexivity].
    destruct (rmap _ (sub_functions m)); reflexivity.
  - vm_compute. reflexivity.
Qed.

End Interpretability.

(** ** Error: linear scaling and mean squared error *)

Lemma list_set_length {A} (l : list A) (n : nat) (x : A) :
  length (list_set l n x) = length l.
Proof.
  revert n. induction l as [|a l IH]; intros [|n]; simpl; auto.
Qed.

Lemma nth_error_list_set {A} (l : list A) (n i : nat) (x : A) :
  (n < length l)%nat ->
  nth_error (list_set l n x) i = if Nat.eqb i n then Some x else nth_error l i.
Proof.
  revert n i. induction l as [|a l IH]; intros [|n] [|i] H; simpl in *;
    try lia; try reflexivity.
  apply IH. lia.
Qed.

Lemma update_at_length {A} (g : nat -> A -> A) (l : list A) (i : nat) :
  length (update_at g l i) = length l.
Proof.
  unfold update_at. destruct (nth_error l i); [apply list_set_length|reflexivity].
Qed.

Lemma updates_length {A} (g : nat -> A -> A) (idx : list nat) (l : list A) :
  length (updates g idx l) = length l.
Proof.
  unfold updates. revert l. induction idx as [|i idx IH]; intros l; simpl.
  - reflexivity.
  - rewrite IH. apply update_at_length.
Qed.

Lemma nth_error_update_at {A} (g : nat -> A -> A) (l : list A) (j i : nat) :
  nth_error (update_at g l j) i
  = if Nat.eqb i j then option_map (g j) (nth_error l j) else nth_error l i.
Proof.
  unfold update_at. destruct (nth_error l j) eqn:E.
  - rewrite nth_error_list_set.
    + destruct (Nat.eqb_spec i j); reflexivity.
    + apply nth_error_Some. congruence.
  - destruct (Nat.eqb_spec i j); [subst; now rewrite E|reflexivity].
Qed.

(** After the updates at duplicate-free indices, the element at an updated
    index is the image of the original one and the others are untouched. *)
Lemma nth_error_updates {A} (g : nat -> A -> A) (idx : list nat) (l : list A) (i : nat) :
  NoDup idx ->
  nth_error (updates g idx l) i
  = if in_dec Nat.eq_dec i idx then option_map (g i) (nth_error l i)
    else nth_error l i.
Proof.
  unfold updates. intros H. revert l.
  induction H as [|j idx Hj Hnd IH]; intros l; simpl; [reflexivity|].
  rewrite IH. destruct (Nat.eq_dec j i) as [E|E].
  - subst j. destruct (in_dec Nat.eq_dec i idx); [contradiction|].
    now rewrite nth_error_update_at, Nat.eqb_refl.
  - destruct (in_dec Nat.eq_dec i idx); rewrite nth_error_update_at;
      destruct (Nat.eqb_spec i j); congruence.
Qed.

Lemma broadcast_same_length (f : float -> float -> float) (x y : list float) :
  length x = length y ->
  broadcast f x y = Ok (map (fun p => f (fst p) (snd p)) (combine x y)).
Proof.
  intros H. unfold broadcast. now rewrite H, Nat.eqb_refl.
Qed.

Section Error.
Context {NP : Numpy} {EXT : External}.

Lemma bind_Ok {A B} (c : M A) (k : A -> M B) (s s' : State) (a : A) :
  c s = (s', Ok a) -> bind c k s = k a s'.
Proof. intros H. unfold bind. now rewrite H. Qed.

Lemma fit_b_slope (t o : list float) :
  length t = length o -> fit_b t o = Ok (slope t o).
Proof.
  intros H. unfold fit_b, cov01. rewrite H, Nat.eqb_refl. reflexivity.
Qed.

Lemma mean_square_diff_mse (a b : float) (t o : list float) :
  length t = length o ->
  mean_square_diff t (scale a b o) = Ok (mse a b t o).
Proof.
  intros H. unfold mean_square_diff, scale, mse, squared_differences.
  rewrite broadcast_same_length by now rewrite length_map.
  cbn [rbind]. now rewrite map_map.
Qed.

(** The single-tree error with the scaling fitted. *)
Lemma NormalTree_scaled (s : State) (t : Tree) (y : list float) :
  y_train (self s) = Vec y ->
  individual s = Single t ->
  length y = length (tree_GetOutput t (X_train (self s))) ->
  use_linear_scaling (self s) = true ->
  let o := tree_GetOutput t (X_train (self s)) in
  EvaluateMeanSquaredErrorOfNormalTree t s
  = (with_individual (with_call s)
                     (Single (with_ls t (intercept y o) (slope y o))),
     Ok (mse (intercept y o) (slope y o) y o)).
Proof.
  intros Hy Hi Hl Hls o. unfold EvaluateMeanSquaredErrorOfNormalTree.
  unfold bind, reads, GetOutput, lift, ret, put_individual. cbn.
  rewrite Hi, Hy, Hls. cbn. subst o.
  change (fit_b_nd (Vec y)) with (fit_b y).
  change (fit_a_nd (Vec y)) with (fit_a y).
  change (mean_square_diff_nd (Vec y)) with (mean_square_diff y).
  rewrite fit_b_slope by exact Hl. cbn.
  rewrite mean_square_diff_mse by exact Hl. reflexivity.
Qed.

(** The single-tree error without scaling. *)
Lemma NormalTree_unscaled (s : State) (t : Tree) (y : list float) :
  y_train (self s) = Vec y ->
  individual s = Single t ->
  length y = length (tree_GetOutput t (X_train (self s))) ->
  use_linear_scaling (self s) = false ->
  let o := tree_GetOutput t (X_train (self s)) in
  EvaluateMeanSquaredErrorOfNormalTree t s
  = (with_call s, Ok (mse f_0_0 f_1_0 y o)).
Proof.
  intros Hy Hi Hl Hls o. unfold EvaluateMeanSquaredErrorOfNormalTree.
  unfold bind, reads, GetOutput, lift, ret, put_individual. cbn.
  rewrite Hi, Hy, Hls. cbn. subst o.
  change (mean_square_diff_nd (Vec y)) with (mean_square_diff y).
  rewrite mean_square_diff_mse by exact Hl. unfold with_call. now rewrite Hi.
Qed.

End Error.

Section SingleTreeError.
Context {NP : Numpy} {EXT : External}.

(** C4. For a single tree with output [o = GetOutput(X_train)] of the
    length of [y_train]: with [use_linear_scaling], the coefficients are
    [b = cov(y_train, o) / (var(o) + 1e-10)] and
    [a = mean(y_train) - b * mean(o)], they are stored in [ls_a] and
    [ls_b] of the individual, and the error returned is the mean of the
    squared differences between [y_train] and [a + b * o]; without it,
    [a = 0.0] and [b = 1.0] are used and the individual is left as it
    was. *)
Theorem single_tree_error (s : State) (t : Tree) (y : list float) :
  individual s = Single t ->
  y_train (self s) = Vec y ->
  length y = length (tree_GetOutput t (X_train (self s))) ->
  let o := tree_GetOutput t (X_train (self s)) in
  exists s' err,
    EvaluateMeanSquaredErrorOfNormalTree t s = (s', Ok err) /\
    (if use_linear_scaling (self s)
     then exists t',
         individual s' = Single t' /\
         ls_b t' = fdiv (np_cov01 y o) (fadd (np_var o) f_1e_10) /\
         ls_a t' = fsub (np_mean y) (fmul (ls_b t') (np_mean o)) /\
         GetSubtree t' = GetSubtree t /\
         err = np_mean (squared_differences y
                          (map (fun v => fadd (ls_a t') (fmul (ls_b t') v)) o))
     else individual s' = individual s /\
          err = np_mean (squared_differences y
                           (map (fun v => fadd f_0_0 (fmul f_1_0 v)) o))) /\
    f_1e_10 = fdiv (Z2f 1) (Z2f 10000000000).
Proof.
  intros Hi Hy Hl o. destruct (use_linear_scaling (self s)) eqn:Hls.
  - eexists _, _. split; [now apply NormalTree_scaled with (y := y)|].
    split; [|vm_compute; reflexivity].
    eexists. split; [reflexivity|]. repeat split.
  - eexists _, _. split; [now apply NormalTree_unscaled with (y := y)|].
    split; [|vm_compute; reflexivity].
    split; reflexivity.
Qed.

End SingleTreeError.

(** The fit of [Sample.leaf] against [Sample.targets] in the reference
    environment. *)
Lemma single_tree_error_sample :
  let s := Sample.start (Sample.scaled Sample.teacher) (Single Sample.leaf) in
  let o := Sample.ramp in
  let y := Sample.targets in
  exists s' err,
    @EvaluateMeanSquaredErrorOfNormalTree Ref.numpy Sample.leaf s = (s', Ok err) /\
    (if use_linear_scaling (self s)
     then exists t',
         individual s' = Single t' /\
         ls_b t' = fdiv (Ref.cov01 y o) (fadd (Ref.var o) f_1e_10) /\
         ls_a t' = fsub (Ref.mean y) (fmul (ls_b t') (Ref.mean o)) /\
         GetSubtree t' = GetSubtree Sample.leaf /\
         err = Ref.mean (@squared_differences y
                          (map (fun v => fadd (ls_a t') (fmul (ls_b t') v)) o))
     else individual s' = individual s /\
          err = Ref.mean (@squared_differences y
                           (map (fun v => fadd f_0_0 (fmul f_1_0 v)) o))) /\
    f_1e_10 = fdiv (Z2f 1) (Z2f 10000000000).
Proof.
  intros s o y.
  apply (@single_tree_error Ref.numpy s Sample.leaf y); reflexivity.
Defined.

Section MultiTreeError.
Context {NP : Numpy} {EXT : External}.

Lemma column_chan (cols : list (list float)) (i : nat) :
  (i < length cols)%nat -> column (Mat cols) (Z.of_nat i) = Ok (chan cols i).
Proof.
  intros H. unfold column, chan. rewrite Nat2Z.id.
  destruct (nth_error cols i) eqn:E.
  - destruct (Z.leb_spec 0 (Z.of_nat i)); [|lia].
    f_equal. symmetry. now apply nth_error_nth.
  - apply nth_error_None in E. lia.
Qed.

Lemma py_getitem_nat {A} (l : list A) (i : nat) (a : A) :
  nth_error l i = Some a -> py_getitem l (Z.of_nat i) = Ok a.
Proof.
  intros E. assert (i < length l)%nat by (apply nth_error_Some; congruence).
  unfold py_getitem.
  destruct (Z.ltb_spec (Z.of_nat i) 0); [lia|].
  destruct (Z.leb_spec 0 (Z.of_nat i)); [|lia].
  destruct (Z.ltb_spec (Z.of_nat i) (Z.of_nat (length l))); [|lia].
  cbn [andb]. now rewrite Nat2Z.id, E.
Qed.

Lemma channel_step_scaled (s : State) (m : MultiTreeIndividual)
      (errs : list float) (ys os : list (list float)) (i : nat) :
  y_train (self s) = Mat ys ->
  use_linear_scaling (self s) = true ->
  channel_ok ys os i ->
  (i < length (sup_functions m))%nat ->
  let m' := with_sup_functions m (update_at (fitted ys os) (sup_functions m) i) in
  channel_step (Mat os) (m, errs) (Z.of_nat i) s
  = (with_individual s (Multi m'), Ok (m', errs ++ [fitted_mse ys os i])).
Proof.
  intros Hy Hls (Hiy & Hio & Hl) Hsup m'. subst m'.
  unfold channel_step, bind, reads, lift, ret, put_individual.
  rewrite Hy, Hls, (column_chan _ Hiy), (column_chan _ Hio).
  rewrite fit_b_slope by exact Hl.
  unfold update_at. destruct (nth_error (sup_functions m) i) as [f|] eqn:Ef.
  - rewrite (py_getitem_nat _ _ Ef), Nat2Z.id.
    rewrite mean_square_diff_mse by exact Hl. reflexivity.
  - apply nth_error_None in Ef. lia.
Qed.

Lemma channel_step_unscaled (s : State) (m : MultiTreeIndividual)
      (errs : list float) (ys os : list (list float)) (i : nat) :
  y_train (self s) = Mat ys ->
  use_linear_scaling (self s) = false ->
  channel_ok ys os i ->
  channel_step (Mat os) (m, errs) (Z.of_nat i) s
  = (s, Ok (m, errs ++ [mse f_0_0 f_1_0 (chan ys i) (chan os i)])).
Proof.
  intros Hy Hls (Hiy & Hio & Hl).
  unfold channel_step, bind, reads, lift, ret.
  rewrite Hy, Hls, (column_chan _ Hiy), (column_chan _ Hio).
  rewrite mean_square_diff_mse by exact Hl. reflexivity.
Qed.

(** The loop with scaling: every visited channel leaves its own fit on
    its own sup_function and its error at the end of [fit_errors]. *)
Lemma loop_scaled (ys os : list (list float)) (idx : list nat) :
  forall (m : MultiTreeIndividual) (errs : list float) (s : State),
    y_train (self s) = Mat ys ->
    use_linear_scaling (self s) = true ->
    individual s = Multi m ->
    Forall (fun i => channel_ok ys os i /\ (i < length (sup_functions m))%nat) idx ->
    let m' := with_sup_functions m (updates (fitted ys os) idx (sup_functions m)) in
    foldM (channel_step (Mat os)) (map Z.of_nat idx) (m, errs) s
    = (with_individual s (Multi m'), Ok (m', errs ++ map (fitted_mse ys os) idx)).
Proof.
  induction idx as [|i idx IH]; intros m errs s Hy Hls Hi Hok m'; subst m'.
  - cbn. unfold ret. rewrite app_nil_r.
    destruct s as [e ind g d], m; cbn in *. now subst ind.
  - inversion Hok as [|? ? [Hc Hs] Hrest]; subst.
    cbn [map foldM]. erewrite bind_Ok
      by (apply channel_step_scaled; eassumption).
    rewrite IH; try assumption; try reflexivity.
    + cbn. rewrite <- app_assoc. reflexivity.
    + cbn. eapply Forall_impl; [|exact Hrest].
      intros j [Hcj Hj]. split; [exact Hcj|]. now rewrite update_at_length.
Qed.

Lemma loop_unscaled (ys os : list (list float)) (idx : list nat) :
  forall (m : MultiTreeIndividual) (errs : list float) (s : State),
    y_train (self s) = Mat ys ->
    use_linear_scaling (self s) = false ->
    Forall (channel_ok ys os) idx ->
    foldM (channel_step (Mat os)) (map Z.of_nat idx) (m, errs) s
    = (s, Ok (m, errs ++ map (fun i => mse f_0_0 f_1_0 (chan ys i) (chan os i)) idx)).
Proof.
  induction idx as [|i idx IH]; intros m errs s Hy Hls Hok.
  - cbn. unfold ret. now rewrite app_nil_r.
  - inversion Hok as [|? ? Hc Hrest]; subst.
    cbn [map foldM]. erewrite bind_Ok
      by (apply channel_step_unscaled; eassumption).
    rewrite IH by assumption. cbn. now rewrite <- app_assoc.
Qed.

End MultiTreeError.

Section MultiTreeErrorTheorem.
Context {NP : Numpy} {EXT : External}.

Lemma EvaluateMeanSquaredErrorOfMultiTree_scaled
      (s : State) (m : MultiTreeIndividual) (ys : list (list float)) :
  individual s = Multi m ->
  y_train (self s) = Mat ys ->
  use_linear_scaling (self s) = true ->
  let os := multi_GetOutput m (X_train (self s)) in
  let idx := seq 0 (Z.to_nat (num_sup_functions m)) in
  Forall (fun i => channel_ok ys os i /\ (i < length (sup_functions m))%nat) idx ->
  EvaluateMeanSquaredErrorOfMultiTree m s
  = (with_individual (with_call s)
       (Multi (with_sup_functions m (updates (fitted ys os) idx (sup_functions m)))),
     Ok (np_mean (map (fitted_mse ys os) idx))).
Proof.
  intros Hi Hy Hls os idx Hok. unfold EvaluateMeanSquaredErrorOfMultiTree.
  unfold bind at 1. unfold reads at 1. unfold bind at 1. unfold GetOutput at 1.
  cbn [self individual]. rewrite Hi. cbn [output_of]. fold os.
  unfold py_range. fold idx.
  erewrite bind_Ok
    by (apply loop_scaled with (ys := ys); cbn; first [eassumption | reflexivity]).
  reflexivity.
Qed.

Lemma EvaluateMeanSquaredErrorOfMultiTree_unscaled
      (s : State) (m : MultiTreeIndividual) (ys : list (list float)) :
  individual s = Multi m ->
  y_train (self s) = Mat ys ->
  use_linear_scaling (self s) = false ->
  let os := multi_GetOutput m (X_train (self s)) in
  let idx := seq 0 (Z.to_nat (num_sup_functions m)) in
  Forall (channel_ok ys os) idx ->
  EvaluateMeanSquaredErrorOfMultiTree m s
  = (with_call s,
     Ok (np_mean (map (fun i => mse f_0_0 f_1_0 (chan ys i) (chan os i)) idx))).
Proof.
  intros Hi Hy Hls os idx Hok. unfold EvaluateMeanSquaredErrorOfMultiTree.
  unfold bind at 1. unfold reads at 1. unfold bind at 1. unfold GetOutput at 1.
  cbn [self individual]. rewrite Hi. cbn [output_of]. fold os.
  unfold py_range. fold idx.
  erewrite bind_Ok
    by (apply loop_unscaled with (ys := ys); cbn; first [eassumption | reflexivity]).
  unfold with_call. rewrite Hi. reflexivity.
Qed.

(** C5, as the code has it.  For a multi-tree individual whose first
    [num_sup_functions] channels exist in [y_train], in the output and
    among the sup_functions, with one length per channel: [GetOutput] is
    called once; the error is [np.mean] of the per-channel mean squared
    errors.  With [use_linear_scaling], channel [i] is fitted against
    [y_train[:, i]], its pair is stored on [sup_functions[i]] and on no
    other, and its error is taken on the scaled channel; without, every
    channel uses [a = 0.0], [b = 1.0] and the individual is left as it
    was. *)
Theorem multi_tree_error (s : State) (m : MultiTreeIndividual)
        (ys : list (list float)) :
  individual s = Multi m ->
  y_train (self s) = Mat ys ->
  let os := multi_GetOutput m (X_train (self s)) in
  let K := Z.to_nat (num_sup_functions m) in
  (forall i, (i < K)%nat ->
             channel_ok ys os i /\ (i < length (sup_functions m))%nat) ->
  exists s' err,
    EvaluateMeanSquaredErrorOfMultiTree m s = (s', Ok err) /\
    calls_GetOutput s' = S (calls_GetOutput s) /\
    if use_linear_scaling (self s)
    then
      err = np_mean (map (fun i => mse (intercept (chan ys i) (chan os i))
                                       (slope (chan ys i) (chan os i))
                                       (chan ys i) (chan os i))
                         (seq 0 K)) /\
      exists m',
        individual s' = Multi m' /\
        sub_functions m' = sub_functions m /\
        length (sup_functions m') = length (sup_functions m) /\
        (forall i f, (i < K)%nat -> nth_error (sup_functions m) i = Some f ->
           exists f',
             nth_error (sup_functions m') i = Some f' /\
             ls_b f' = fdiv (np_cov01 (chan ys i) (chan os i))
                            (fadd (np_var (chan os i)) f_1e_10) /\
             ls_a f' = fsub (np_mean (chan ys i))
                            (fmul (ls_b f') (np_mean (chan os i))) /\
             GetSubtree f' = GetSubtree f) /\
        (forall i, (K <= i)%nat ->
           nth_error (sup_functions m') i = nth_error (sup_functions m) i)
    else
      err = np_mean (map (fun i => mse f_0_0 f_1_0 (chan ys i) (chan os i))
                         (seq 0 K)) /\
      individual s' = individual s.
Proof.
  intros Hi Hy os K Hok.
  assert (Forall (fun i => channel_ok ys os i /\ (i < length (sup_functions m))%nat)
                 (seq 0 K)) as Hall.
  { apply Forall_forall. intros i Hin. apply in_seq in Hin. apply Hok. lia. }
  destruct (use_linear_scaling (self s)) eqn:Hls.
  - eexists _, _. split.
    { apply EvaluateMeanSquaredErrorOfMultiTree_scaled with (ys := ys); assumption. }
    split; [reflexivity|]. split; [reflexivity|].
    eexists. split; [reflexivity|]. cbn [sub_functions sup_functions with_sup_functions].
    split; [reflexivity|]. split; [apply updates_length|]. split.
    + intros i f Hi' Hf. rewrite nth_error_updates by apply seq_NoDup.
      destruct (in_dec Nat.eq_dec i (seq 0 (Z.to_nat (num_sup_functions m))))
        as [?|Hout].
      * rewrite Hf. cbn [option_map]. eexists. split; [reflexivity|].
        repeat split.
      * exfalso. apply Hout, in_seq. fold K. lia.
    + intros i Hi'. rewrite nth_error_updates by apply seq_NoDup.
      destruct (in_dec Nat.eq_dec i (seq 0 (Z.to_nat (num_sup_functions m))))
        as [Hin|?]; [|reflexivity].
      apply in_seq in Hin. fold K in Hin. lia.
  - eexists _, _. split.
    { apply EvaluateMeanSquaredErrorOfMultiTree_unscaled with (ys := ys);
        try assumption.
      eapply Forall_impl; [|exact Hall]. now intros i [H _]. }
    split; [reflexivity|]. split; [reflexivity|].
    unfold with_call. reflexivity.
Qed.

End MultiTreeErrorTheorem.

(** [Sample.one_channel] under the reference environment, with scaling. *)
Lemma multi_tree_error_sample :
  let s := Sample.start (Sample.multi true) (Multi Sample.one_channel) in
  exists s' err,
    @EvaluateMeanSquaredErrorOfMultiTree Ref.numpy Sample.one_channel s = (s', Ok err) /\
    calls_GetOutput s' = 1%nat /\
    err = Ref.mean [@mse Ref.numpy
                      (@intercept Ref.numpy Sample.targets Sample.ramp)
                      (@slope Ref.numpy Sample.targets Sample.ramp)
                      Sample.targets Sample.ramp] /\
    exists m' f',
      individual s' = Multi m' /\
      nth_error (sup_functions m') 0 = Some f' /\
      ls_b f' = fdiv (Ref.cov01 Sample.targets Sample.ramp)
                     (fadd (Ref.var Sample.ramp) f_1e_10) /\
      ls_a f' = fsub (Ref.mean Sample.targets)
                     (fmul (ls_b f') (Ref.mean Sample.ramp)).
Proof.
  intros s.
  destruct (@multi_tree_error Ref.numpy s Sample.one_channel [Sample.targets])
    as (s' & err & Hrun & Hcalls & Herr & m' & Hm' & _ & _ & Hfit & _).
  - reflexivity.
  - reflexivity.
  - intros i Hi. cbn in Hi. assert (i = 0%nat) as -> by lia.
    unfold channel_ok. cbn. repeat split; lia.
  - destruct (Hfit 0%nat (Sample.tree [Sample.x0] Sample.ramp)) as (f' & Hf' & Hb & Ha & _).
    + cbn. lia.
    + reflexivity.
    + exists s', err. split; [exact Hrun|]. split; [exact Hcalls|].
      split; [exact Herr|]. exists m', f'. repeat split; assumption.
Defined.

(** C5 as stated fails without linear scaling: nothing is fitted and
    nothing is stored.  On [Sample.one_channel] the sup_function keeps its
    [ls_a = 0.0] and [ls_b = 1.0], which are not the fit of its channel,
    and the error, 39/4, is taken on the raw output. *)
Lemma multi_tree_error_unscaled_sample :
  let s := Sample.start (Sample.multi false) (Multi Sample.one_channel) in
  let r := @EvaluateMeanSquaredErrorOfMultiTree Ref.numpy Sample.one_channel s in
  snd r = Ok (fdiv (Z2f 39) (Z2f 4)) /\
  individual (fst r) = Multi Sample.one_channel /\
  map ls_b (sup_functions Sample.one_channel) = [f_1_0] /\
  @slope Ref.numpy Sample.targets Sample.ramp <> f_1_0.
Proof.
  cbv zeta. split; [vm_compute; reflexivity|].
  split; [reflexivity|]. split; [reflexivity|].
  vm_compute. discriminate.
Qed.

(** ** [Evaluate] *)

Section Evaluate.
Context {NP : Numpy} {EXT : External}.

Lemma keeps_refl (s : State) : keeps s s.
Proof. repeat split. Qed.

Lemma keeps_trans (s1 s2 s3 : State) : keeps s1 s2 -> keeps s2 s3 -> keeps s1 s3.
Proof.
  intros (A1 & B1 & C1) (A2 & B2 & C2). repeat split; congruence.
Qed.

Lemma keeps_bind {A B} (c : M A) (k : A -> M B) :
  (forall s, keeps s (fst (c s))) ->
  (forall a s, keeps s (fst (k a s))) ->
  forall s, keeps s (fst (bind c k s)).
Proof.
  intros Hc Hk s. unfold bind. specialize (Hc s).
  destruct (c s) as [s' [a|e]]; cbn in *; [|exact Hc].
  eapply keeps_trans; [exact Hc|apply Hk].
Qed.

Lemma keeps_lift {A} (r : result A) (s : State) : keeps s (fst (lift r s)).
Proof. apply keeps_refl. Qed.

Lemma keeps_reads {A} (f : Evaluator -> A) (s : State) : keeps s (fst (reads f s)).
Proof. apply keeps_refl. Qed.

Lemma keeps_ret {A} (a : A) (s : State) : keeps s (fst (ret a s)).
Proof. apply keeps_refl. Qed.

Lemma keeps_GetOutput (X : ndarray) (s : State) : keeps s (fst (GetOutput X s)).
Proof. repeat split. Qed.

(** Case analysis on every scrutinee of the goal. *)
Ltac break_all :=
  repeat match goal with
         | |- context [match ?x with _ => _ end] =>
             lazymatch x with
             | context [match _ with _ => _ end] => fail
             | _ => destruct x; cbn
             end
         end;
  repeat split; auto.

Ltac keeps_steps :=
  repeat first
    [ apply keeps_lift | apply keeps_reads | apply keeps_ret
    | apply keeps_GetOutput
    | apply keeps_bind; [intros ?|intros ? ?] ].

Lemma keeps_stress_cost (b : Z) (s : State) : keeps s (fst (stress_cost b s)).
Proof. unfold stress_cost. keeps_steps. Qed.

Lemma keeps_neural_decoder_fitness (seed : Z) (s : State) :
  keeps s (fst (neural_decoder_fitness seed s)).
Proof. unfold neural_decoder_fitness. keeps_steps. Qed.

Lemma keeps_NormalTree (t : Tree) (s : State) :
  individual s = Single t ->
  keeps s (fst (EvaluateMeanSquaredErrorOfNormalTree t s)).
Proof.
  intros Hi. unfold EvaluateMeanSquaredErrorOfNormalTree.
  unfold bind, reads, GetOutput, lift, ret, put_individual, keeps.
  cbn. rewrite Hi. break_all.
Qed.

(** One turn of the channel loop keeps the evaluator and the objectives;
    the accumulator stays the individual of the state. *)
Lemma keeps_channel_step (out : ndarray) (m : MultiTreeIndividual)
      (errs : list float) (i : Z) (s : State) :
  individual s = Multi m ->
  keeps s (fst (channel_step out (m, errs) i s)) /\
  match snd (channel_step out (m, errs) i s) with
  | Ok (m', _) => individual (fst (channel_step out (m, errs) i s)) = Multi m'
  | Raise _ => True
  end.
Proof.
  intros Hi. unfold channel_step, bind, reads, lift, ret, put_individual, keeps.
  rewrite Hi. break_all. all: now rewrite Hi.
Qed.

Lemma keeps_loop (out : ndarray) (idx : list Z) :
  forall (m : MultiTreeIndividual) (errs : list float) (s : State),
    individual s = Multi m ->
    keeps s (fst (foldM (channel_step out) idx (m, errs) s)).
Proof.
  induction idx as [|i idx IH]; intros m errs s Hi; cbn [foldM].
  - apply keeps_refl.
  - destruct (@keeps_channel_step out m errs i s Hi) as [Hk Hm].
    unfold bind. destruct (channel_step out (m, errs) i s) as [s1 [[m1 errs1]|e]];
      cbn in *; [|exact Hk].
    eapply keeps_trans; [exact Hk|]. now apply IH.
Qed.

Lemma keeps_MultiTree (m : MultiTreeIndividual) (s : State) :
  individual s = Multi m ->
  keeps s (fst (EvaluateMeanSquaredErrorOfMultiTree m s)).
Proof.
  intros Hi. unfold EvaluateMeanSquaredErrorOfMultiTree.
  unfold bind at 1. unfold reads at 1. unfold bind at 1. unfold GetOutput at 1.
  set (s1 := mkState _ _ _ _). set (out := output_of _ _).
  assert (keeps s s1) as H01 by (repeat split).
  assert (individual s1 = Multi m) as Hi1 by exact Hi.
  pose proof (@keeps_loop out (py_range (num_sup_functions m)) m [] s1 Hi1) as Hl.
  unfold bind. destruct (foldM _ _ _ s1) as [s2 [r|e]];
    exact (@keeps_trans s s1 s2 H01 Hl).
Qed.

Lemma keeps_EvaluateMeanSquaredError (s : State) :
  keeps s (fst (EvaluateMeanSquaredError s)).
Proof.
  unfold EvaluateMeanSquaredError. unfold bind at 1. unfold get_individual at 1.
  destruct (individual s) as [t|m] eqn:Hi.
  - pose proof (@keeps_NormalTree t s Hi) as H. unfold bind.
    destruct (EvaluateMeanSquaredErrorOfNormalTree t s) as [s' [a|e]]; exact H.
  - pose proof (@keeps_MultiTree m s Hi) as H. unfold bind.
    destruct (EvaluateMeanSquaredErrorOfMultiTree m s) as [s' [a|e]]; exact H.
Qed.

Lemma keeps_first_objective (fit : string) (s : State) :
  keeps s (fst (first_objective fit s)).
Proof.
  unfold first_objective.
  destruct (String.eqb fit _); [apply keeps_stress_cost|].
  destruct (String.eqb fit _).
  { apply keeps_bind; [apply keeps_reads|]. intros. apply keeps_neural_decoder_fitness. }
  destruct (_ || _); [apply keeps_EvaluateMeanSquaredError|apply keeps_lift].
Qed.

Lemma objectives_with_objectives (i : Individual) (l : list pyval) :
  objectives (with_objectives i l) = l.
Proof. now destruct i. Qed.

Lemma with_objectives_twice (i : Individual) (l1 l2 : list pyval) :
  with_objectives (with_objectives i l1) l2 = with_objectives i l2.
Proof. now destruct i. Qed.

Lemma improves_better (s : State) : improves s = (s, better s).
Proof.
  unfold improves, better, bind, reads, get_individual, lift, ret.
  destruct (elite (self s)); [|reflexivity].
  destruct (objective0 (individual s)); [|reflexivity].
  now destruct (objective0 i).
Qed.

(** [Evaluate], stage by stage. *)
Lemma Evaluate_stages (s : State) :
  Evaluate s
  = match first_objective (fitness (self s)) (begun s) with
    | (s1, Raise e) => (s1, Raise e)
    | (s1, Ok obj1) =>
        let s2 := appended s1 (VFloat obj1) in
        match second_objective s2 with
        | Raise e => (s2, Raise e)
        | Ok obj2 =>
            let s3 := appended s2 obj2 in
            match better s3 with
            | Ok true => replace_elite s3
            | Ok false => (s3, Ok tt)
            | Raise e => (s3, Raise e)
            end
        end
    end.
Proof.
  unfold Evaluate.
  unfold bind at 1. unfold reads at 1. unfold bind at 1. unfold reads at 1.
  unfold bind at 1. unfold put_self at 1. unfold bind at 1.
  unfold get_individual at 1. unfold bind at 1. unfold put_individual at 1.
  unfold bind at 1. unfold reads at 1. cbn [self individual calls_GetOutput calls_deepcopy].
  fold (begun s). change (fitness (with_evaluations (self s) (evaluations (self s) + 1)))
    with (fitness (self s)).
  unfold bind at 1.
  destruct (first_objective (fitness (self s)) (begun s)) as [s1 [obj1|e]];
    [|reflexivity].
  unfold bind at 1. unfold append_objective at 1, bind at 1, get_individual at 1,
    put_individual at 1.
  fold (with_individual s1 (with_objectives (individual s1)
                              (objectives (individual s1) ++ [VFloat obj1]))).
  fold (appended s1 (VFloat obj1)). cbv zeta. set (s2 := appended s1 (VFloat obj1)).
  unfold bind at 1. unfold reads at 1. unfold bind at 1.
  unfold second_objective.
  destruct (use_interpretability_model (self s2)).
  - unfold bind at 1, get_individual at 1, bind at 1, lift at 1.
    destruct (EvaluatePHIsModel (individual s2)) as [phi|e]; [|reflexivity].
    cbn [rbind]. unfold ret at 1.
    unfold bind at 1. unfold append_objective at 1, bind at 1, get_individual at 1,
      put_individual at 1.
    fold (with_individual s2 (with_objectives (individual s2)
                                (objectives (individual s2) ++ [VFloat phi]))).
    fold (appended s2 (VFloat phi)).
    unfold bind. rewrite improves_better.
    destruct (better _) as [[|]|]; reflexivity.
  - unfold bind at 1, reads at 1, bind at 1, get_individual at 1, lift at 1.
    destruct (EvaluateLength (self s2) (individual s2)) as [l|e]; [|reflexivity].
    unfold bind at 1. unfold append_objective at 1, bind at 1, get_individual at 1,
      put_individual at 1.
    fold (with_individual s2 (with_objectives (individual s2)
                                (objectives (individual s2) ++ [l]))).
    fold (appended s2 l).
    unfold bind. rewrite improves_better.
    destruct (better _) as [[|]|]; reflexivity.
Qed.


(** What a call of [Evaluate] that returns has done. *)
Lemma Evaluate_returns (s s' : State) :
  Evaluate s = (s', Ok tt) ->
  exists s1 obj1 obj2 b,
    first_objective (fitness (self s)) (begun s) = (s1, Ok obj1) /\
    second_objective (appended s1 (VFloat obj1)) = Ok obj2 /\
    individual s' = with_objectives (individual s1) [VFloat obj1; obj2] /\
    objectives (individual s') = [VFloat obj1; obj2] /\
    better (with_individual s1 (individual s')) = Ok b /\
    self s' = (if b then with_elite (self s1) (Some (individual s')) else self s1) /\
    self s1 = self (begun s) /\
    calls_deepcopy s' = (if b then S (calls_deepcopy s) else calls_deepcopy s).
Proof.
  rewrite Evaluate_stages.
  pose proof (keeps_first_objective (fitness (self s)) (begun s)) as Hk.
  destruct (first_objective (fitness (self s)) (begun s)) as [s1 [obj1|e]];
    [|discriminate].
  destruct Hk as (Hself & Hdc & Hobj). cbn [fst] in *.
  unfold begun in Hobj. cbn [individual] in Hobj.
  rewrite objectives_with_objectives in Hobj.
  cbv zeta. destruct (second_objective _) as [obj2|e] eqn:E2; [|discriminate].
  assert (appended (appended s1 (VFloat obj1)) obj2
          = with_individual s1 (with_objectives (individual s1) [VFloat obj1; obj2]))
    as Hs3.
  { unfold appended, with_individual.
    cbn [individual self calls_GetOutput calls_deepcopy].
    rewrite objectives_with_objectives, with_objectives_twice, Hobj. reflexivity. }
  rewrite Hs3.
  destruct (better _) as [[|]|e] eqn:Eb; intros H; inversion H; subst s'; clear H.
  - exists s1, obj1, obj2, true. cbn.
    rewrite objectives_with_objectives. repeat split; try assumption.
    now rewrite Hdc.
  - exists s1, obj1, obj2, false. cbn.
    rewrite objectives_with_objectives. repeat split; assumption.
Qed.

Lemma elite_after_first_objective (s s1 : State) :
  self s1 = self (begun s) -> elite (self s1) = elite (self s).
Proof. intros ->. reflexivity. Qed.

(** The elite after a call that returns. *)
Lemma Evaluate_elite (s s' : State) :
  Evaluate s = (s', Ok tt) ->
  exists s1 obj1,
    first_objective (fitness (self s)) (begun s) = (s1, Ok obj1) /\
    objective0 (individual s') = Ok (VFloat obj1) /\
    match elite (self s) with
    | None =>
        elite (self s') = Some (individual s') /\
        calls_deepcopy s' = S (calls_deepcopy s)
    | Some e =>
        exists oe,
          objective0 e = Ok oe /\
          if py_lt (VFloat obj1) oe
          then elite (self s') = Some (individual s') /\
               calls_deepcopy s' = S (calls_deepcopy s)
          else elite (self s') = Some e /\
               calls_deepcopy s' = calls_deepcopy s
    end.
Proof.
  intros H. apply Evaluate_returns in H.
  destruct H as (s1 & obj1 & obj2 & b & H1 & H2 & Hi & Ho & Hb & Hs & Hs1 & Hd).
  exists s1, obj1. split; [exact H1|].
  assert (objective0 (individual s') = Ok (VFloat obj1)) as Ho0.
  { unfold objective0. rewrite Ho. reflexivity. }
  split; [exact Ho0|].
  unfold better in Hb. cbn [self individual with_individual] in Hb.
  rewrite (elite_after_first_objective _ Hs1) in Hb.
  destruct (elite (self s)) as [e|] eqn:Ee.
  - rewrite Ho0 in Hb. cbn [rbind] in Hb.
    destruct (objective0 e) as [oe|] eqn:Eoe; [|discriminate].
    cbn [rbind] in Hb. assert (b = py_lt (VFloat obj1) oe) as -> by congruence.
    exists oe. split; [reflexivity|].
    destruct (py_lt (VFloat obj1) oe); rewrite Hs, Hd.
    + split; reflexivity.
    + split; [|reflexivity]. rewrite (elite_after_first_objective _ Hs1). exact Ee.
  - inversion Hb; subst b. rewrite Hs, Hd. split; reflexivity.
Qed.

(** C1. When [Evaluate] returns, the elite is replaced by a copy of the
    individual, with its objectives just computed, exactly in two cases:
    there was no elite, or [objectives[0]] of the individual is strictly
    below that of the elite; otherwise (a tie, a worse value, a value that
    does not compare) the elite stays and no copy is made.  So four
    evaluations with first objectives 5, 3, 4, 3, begun without an elite,
    end with the second individual as elite, after two copies. *)
Theorem elite_replacement :
  (forall s s',
     Evaluate s = (s', Ok tt) ->
     exists s1 obj1,
       first_objective (fitness (self s)) (begun s) = (s1, Ok obj1) /\
       objective0 (individual s') = Ok (VFloat obj1) /\
       match elite (self s) with
       | None =>
           elite (self s') = Some (individual s') /\
           calls_deepcopy s' = S (calls_deepcopy s)
       | Some e =>
           exists oe,
             objective0 e = Ok oe /\
             if py_lt (VFloat obj1) oe
             then elite (self s') = Some (individual s') /\
                  calls_deepcopy s' = S (calls_deepcopy s)
             else elite (self s') = Some e /\
                  calls_deepcopy s' = calls_deepcopy s
       end) /\
  (forall s0 a b c d s1 s2 s3 s4,
     elite (self s0) = None ->
     Evaluate (next s0 a) = (s1, Ok tt) ->
     objective0 (individual s1) = Ok (VFloat (Z2f 5)) ->
     Evaluate (next s1 b) = (s2, Ok tt) ->
     objective0 (individual s2) = Ok (VFloat (Z2f 3)) ->
     Evaluate (next s2 c) = (s3, Ok tt) ->
     objective0 (individual s3) = Ok (VFloat (Z2f 4)) ->
     Evaluate (next s3 d) = (s4, Ok tt) ->
     objective0 (individual s4) = Ok (VFloat (Z2f 3)) ->
     elite (self s4) = Some (individual s2) /\
     calls_deepcopy s4 = S (S (calls_deepcopy s0))).
Proof.
  split; [exact Evaluate_elite|].
  intros s0 a b c d s1 s2 s3 s4 He0 E1 O1 E2 O2 E3 O3 E4 O4.
  apply Evaluate_elite in E1, E2, E3, E4.
  destruct E1 as (? & v1 & _ & V1 & H1). cbn [next with_individual self] in H1.
  rewrite He0 in H1. destruct H1 as [He1 Hd1].
  destruct E2 as (? & v2 & _ & V2 & H2). cbn [next with_individual self] in H2.
  rewrite He1 in H2. destruct H2 as (oe & Hoe & H2).
  rewrite O1 in Hoe. inversion Hoe; subst oe. clear Hoe.
  rewrite V2 in O2. inversion O2; subst v2.
  change (py_lt (VFloat (Z2f 3)) (VFloat (Z2f 5))) with true in H2.
  destruct H2 as [He2 Hd2].
  destruct E3 as (? & v3 & _ & V3 & H3). cbn [next with_individual self] in H3.
  rewrite He2 in H3. destruct H3 as (oe & Hoe & H3).
  rewrite V2 in Hoe. inversion Hoe; subst oe. clear Hoe.
  rewrite V3 in O3. inversion O3; subst v3.
  change (py_lt (VFloat (Z2f 4)) (VFloat (Z2f 3))) with false in H3.
  destruct H3 as [He3 Hd3].
  destruct E4 as (? & v4 & _ & V4 & H4). cbn [next with_individual self] in H4.
  rewrite He3 in H4. destruct H4 as (oe & Hoe & H4).
  rewrite V2 in Hoe. inversion Hoe; subst oe. clear Hoe.
  rewrite V4 in O4. inversion O4; subst v4.
  change (py_lt (VFloat (Z2f 3)) (VFloat (Z2f 3))) with false in H4.
  destruct H4 as [He4 Hd4].
  split; [exact He4|].
  cbn [next with_individual calls_deepcopy] in *. congruence.
Qed.

(** C10. Without an elite, a call of [Evaluate] that returns installs a
    copy of the evaluated individual as elite, whatever its first
    objective: the test short-circuits before any comparison.  So does
    the first call on a freshly constructed evaluator. *)
Theorem absent_elite_is_replaced :
  (forall s s',
     elite (self s) = None ->
     Evaluate s = (s', Ok tt) ->
     elite (self s') = Some (individual s') /\
     calls_deepcopy s' = S (calls_deepcopy s)) /\
  (forall X y ls im fit i g d s',
     Evaluate (mkState (init X y ls im fit) i g d) = (s', Ok tt) ->
     elite (self s') = Some (individual s')).
Proof.
  assert (forall s s',
     elite (self s) = None ->
     Evaluate s = (s', Ok tt) ->
     elite (self s') = Some (individual s') /\
     calls_deepcopy s' = S (calls_deepcopy s)) as H.
  { intros s s' He E. apply Evaluate_elite in E.
    destruct E as (? & ? & _ & _ & E). now rewrite He in E. }
  split; [exact H|].
  intros X y ls im fit i g d s' E. now apply H in E.
Qed.

(** C9, as the code has it.  [__init__] stores any string as the fitness
    mode.  With a string [Evaluate] has no branch for, every call raises
    on reading the unbound [obj1], once the counter is incremented and
    the objectives of the individual are emptied.  The strings it has a
    branch for are four, each with its method: ["manifold_fitness"] with
    [stress_cost] on batches of 64, ["neural_decoder_fitness"] with
    [neural_decoder_fitness] seeded by the count of the call, and
    ["autoencoder_teacher_fitness"] and ["gp_autoencoder_fitness"] with
    [EvaluateMeanSquaredError]; when [Evaluate] returns, the first
    objective is what the method of the string of the evaluator returned,
    run once the counter is incremented and the objectives are emptied. *)
Theorem unrecognised_fitness :
  (forall X y ls im fit,
     fitness (init X y ls im fit) = fit /\
     elite (init X y ls im fit) = None /\
     evaluations (init X y ls im fit) = 0) /\
  (forall s,
     recognised (fitness (self s)) = false ->
     Evaluate s = (begun s, Raise UnboundLocalError)) /\
  (forall fit,
     recognised fit = true <->
     fit = "manifold_fitness"%string \/ fit = "neural_decoder_fitness"%string \/
     fit = "autoencoder_teacher_fitness"%string \/
     fit = "gp_autoencoder_fitness"%string) /\
  first_objective "manifold_fitness" = stress_cost 64 /\
  first_objective "neural_decoder_fitness"
  = bind (reads evaluations) (fun n => neural_decoder_fitness n) /\
  first_objective "autoencoder_teacher_fitness" = EvaluateMeanSquaredError /\
  first_objective "gp_autoencoder_fitness" = EvaluateMeanSquaredError /\
  (forall s s',
     Evaluate s = (s', Ok tt) ->
     exists s1 obj1,
       objective0 (individual s') = Ok (VFloat obj1) /\
       ((fitness (self s) = "manifold_fitness"%string /\
         stress_cost 64 (begun s) = (s1, Ok obj1)) \/
        (fitness (self s) = "neural_decoder_fitness"%string /\
         neural_decoder_fitness (evaluations (self s) + 1) (begun s)
         = (s1, Ok obj1)) \/
        ((fitness (self s) = "autoencoder_teacher_fitness"%string \/
          fitness (self s) = "gp_autoencoder_fitness"%string) /\
         EvaluateMeanSquaredError (begun s) = (s1, Ok obj1)))).
Proof.
  split; [|split; [|split; [|split; [|split; [|split; [|split]]]]]];
    try reflexivity.
  - intros. repeat split.
  - intros s H. rewrite Evaluate_stages. unfold recognised in H.
    unfold first_objective.
    destruct (String.eqb _ "manifold_fitness"); [discriminate|].
    destruct (String.eqb _ "neural_decoder_fitness"); [discriminate|].
    destruct (String.eqb _ "autoencoder_teacher_fitness"); [discriminate|].
    destruct (String.eqb _ "gp_autoencoder_fitness"); [discriminate|].
    reflexivity.
  - intros fit. unfold recognised. split.
    + intros H.
      destruct (String.eqb_spec fit "manifold_fitness"); [now left|].
      destruct (String.eqb_spec fit "neural_decoder_fitness"); [right; now left|].
      destruct (String.eqb_spec fit "autoencoder_teacher_fitness");
        [right; right; now left|].
      destruct (String.eqb_spec fit "gp_autoencoder_fitness");
        [right; right; now right|].
      discriminate.
    + intros [ -> | [ -> | [ -> | -> ] ] ]; reflexivity.
  - intros s s' E. apply Evaluate_elite in E.
    destruct E as (s1 & obj1 & H1 & Ho & _). exists s1, obj1.
    split; [exact Ho|]. unfold first_objective in H1.
    destruct (String.eqb_spec (fitness (self s)) "manifold_fitness") as [Hf|_];
      [left; now split|].
    destruct (String.eqb_spec (fitness (self s)) "neural_decoder_fitness")
      as [Hf|_]; [right; left; now split|].
    destruct (String.eqb_spec (fitness (self s)) "autoencoder_teacher_fitness")
      as [Hf|_]; [right; right; split; [now left|exact H1]|].
    destruct (String.eqb_spec (fitness (self s)) "gp_autoencoder_fitness")
      as [Hf|_]; [right; right; split; [now right|exact H1]|].
    discriminate.
Qed.

End Evaluate.

(** Errors 5, 3, 4, 3 in the reference environment: the second individual
    is the elite at the end. *)
Lemma elite_replacement_sample :
  let s0 := Sample.start (Sample.plain Sample.teacher) Sample.i1 in
  let s1 := Sample.after s0 Sample.i1 in
  let s2 := Sample.after s1 Sample.i2 in
  let s3 := Sample.after s2 Sample.i3 in
  let s4 := Sample.after s3 Sample.i4 in
  elite (self s4) = Some (individual s2) /\
  calls_deepcopy s4 = S (S (calls_deepcopy s0)).
Proof.
  intros s0 s1 s2 s3 s4.
  apply (proj2 (@elite_replacement Ref.numpy Ref.external)
           s0 Sample.i1 Sample.i2 Sample.i3 Sample.i4 s1 s2 s3 s4);
    vm_compute; reflexivity.
Defined.

(** A first individual whose error is [+inf], and one whose decoder loss
    is NaN (the two-epoch window around a lowest loss at epoch 0 is empty),
    become the elite. *)
Lemma absent_elite_sample :
  let s := Sample.start (Sample.plain Sample.teacher) Sample.broken in
  let s' := fst (@Evaluate Ref.numpy Ref.external s) in
  let n := Sample.start Sample.multi_decoder (Multi Sample.one_channel) in
  let n' := fst (@Evaluate Ref.numpy Sample.diverging n) in
  (objective0 (individual s') = Ok (VFloat np_inf) /\
   elite (self s') = Some (individual s')) /\
  (objective0 (individual n') = Ok (VFloat np_nan) /\
   elite (self n') = Some (individual n')).
Proof.
  intros s s' n n'. split; (split; [vm_compute; reflexivity|]).
  - apply (proj1 (@absent_elite_is_replaced Ref.numpy Ref.external) s s');
      vm_compute; reflexivity.
  - apply (proj1 (@absent_elite_is_replaced Ref.numpy Sample.diverging) n n');
      vm_compute; reflexivity.
Defined.

(** Under the mode ["mean_squared_error"] the first call raises. *)
Lemma unrecognised_fitness_sample :
  let s := Sample.start Sample.unknown Sample.i1 in
  @Evaluate Ref.numpy Ref.external s = (begun s, Raise UnboundLocalError).
Proof.
  intros s.
  apply (proj1 (proj2 (@unrecognised_fitness Ref.numpy Ref.external)) s).
  reflexivity.
Defined.

(** C9 as stated fails: constructing the evaluator with the mode
    ["mean_squared_error"] succeeds, and the failure comes at [Evaluate],
    for each individual, with the counter incremented and the objectives
    emptied. *)
Lemma construction_does_not_validate :
  fitness Sample.unknown = "mean_squared_error"%string /\
  recognised (fitness Sample.unknown) = false /\
  (let r := @Evaluate Ref.numpy Ref.external
              (Sample.start Sample.unknown Sample.i1) in
   snd r = Raise UnboundLocalError /\
   objectives (individual (fst r)) = [] /\
   evaluations (self (fst r)) = 1) /\
  (let r := @Evaluate Ref.numpy Ref.external
              (Sample.start Sample.unknown Sample.i2) in
   snd r = Raise UnboundLocalError).
Proof.
  vm_compute. repeat split.
Qed.

(** ** Floats: NaN and sign *)

Lemma isnan_true (x : float) : isnan x = true -> x = S754_nan.
Proof. destruct x; simpl; congruence. Qed.

Lemma fadd_nan_r (x : float) : fadd x S754_nan = S754_nan.
Proof. now destruct x. Qed.

Lemma fsub_nan_r (x : float) : fsub x S754_nan = S754_nan.
Proof. now destruct x. Qed.

Lemma fmul_nan_r (x : float) : fmul x S754_nan = S754_nan.
Proof. now destruct x. Qed.

Lemma shr_1_nonneg (mrs : shr_record) : 0 <= shr_m mrs -> 0 <= shr_m (shr_1 mrs).
Proof.
  destruct mrs as [m r s]. destruct m as [|[p|p|]|p]; simpl; lia.
Qed.

Lemma iter_shr_1_nonneg (p : positive) :
  forall mrs, 0 <= shr_m mrs -> 0 <= shr_m (iter_pos shr_1 p mrs).
Proof.
  induction p as [p IH|p IH|]; intros mrs H; simpl.
  - apply IH, IH, shr_1_nonneg, H.
  - apply IH, IH, H.
  - apply shr_1_nonneg, H.
Qed.

Lemma shr_fexp_nonneg (m e : Z) (l : location) :
  0 <= m -> 0 <= shr_m (fst (shr_fexp prec emax m e l)).
Proof.
  intros H. unfold shr_fexp, shr.
  assert (shr_m (shr_record_of_loc m l) = m) as Hm by (now destruct l as [|[]]).
  destruct (fexp prec emax (Zdigits2 m + e) - e); simpl; try lia.
  apply iter_shr_1_nonneg. lia.
Qed.

Lemma round_nearest_even_nonneg (m : Z) (l : location) :
  0 <= m -> 0 <= round_nearest_even m l.
Proof.
  intros H. destruct l as [|[]]; simpl; try lia.
  destruct (Z.even m); lia.
Qed.

(** Rounding a mantissa that is not negative gives no NaN, and the sign
    asked for. *)
Lemma binary_round_aux_signed (sx : bool) (mx ex : Z) (lx : location) :
  0 <= mx -> signed sx (binary_round_aux prec emax sx mx ex lx) = true.
Proof.
  intros H. unfold binary_round_aux.
  pose proof (shr_fexp_nonneg ex lx H) as H1.
  destruct (shr_fexp prec emax mx ex lx) as [mrs' e']. cbn [fst] in H1.
  pose proof (@shr_fexp_nonneg
                (round_nearest_even (shr_m mrs') (loc_of_shr_record mrs'))
                e' loc_Exact (round_nearest_even_nonneg _ H1)) as H2.
  destruct (shr_fexp prec emax _ e' loc_Exact) as [mrs'' e'']. cbn [fst] in H2.
  destruct (shr_m mrs''); [| |lia].
  - apply eqb_reflx.
  - destruct (e'' <=? emax - prec); apply eqb_reflx.
Qed.

Lemma binary_round_signed (sx : bool) (m : positive) (e : Z) :
  signed sx (binary_round prec emax sx m e) = true.
Proof.
  unfold binary_round. destruct (shl_align _ _ _) as [mz ez].
  apply binary_round_aux_signed. lia.
Qed.


Lemma signed_true_nonpos (x : float) : signed true x = true -> nonpos x = true.
Proof. destruct x as [[|]|[|]| |[|] m e]; simpl; congruence. Qed.

Lemma nonpos_not_nan (x : float) : nonpos x = true -> isnan x = false.
Proof. destruct x; simpl; congruence. Qed.





Lemma fadd_nonpos (x y : float) :
  nonpos x = true -> nonpos y = true -> nonpos (fadd x y) = true.
Proof.
  destruct x as [sx|sx| |sx mx ex], y as [sy|sy| |sy my ey]; simpl;
    intros Hx Hy; subst; try discriminate; try reflexivity.
  - now destruct sx, sy.
  - unfold fadd, SFadd.
    set (a := fst (shl_align mx ex (Z.min ex ey))).
    set (b := fst (shl_align my ey (Z.min ex ey))).
    cbn [cond_Zopp Z.opp Z.add binary_normalize].
    apply signed_true_nonpos, binary_round_signed.
Qed.

(** The reference reductions obey the laws. *)

Lemma fold_fadd_nan (l : list float) :
  forall acc, isnan acc = true \/ has_nan l -> fold_left fadd l acc = S754_nan.
Proof.
  induction l as [|x l IH]; intros acc [Ha|Hl]; simpl.
  - now apply isnan_true.
  - inversion Hl.
  - apply IH. left. apply isnan_true in Ha. now subst acc.
  - apply IH. inversion Hl as [? ? Hx|? ? Hr]; subst.
    + left. apply isnan_true in Hx. subst x. now rewrite fadd_nan_r.
    + now right.
Qed.

Lemma fold_fadd_nonpos (l : list float) :
  forall acc, nonpos acc = true -> Forall (fun x => nonpos x = true) l ->
              nonpos (fold_left fadd l acc) = true.
Proof.
  induction l as [|x l IH]; intros acc Ha Hl; simpl; [exact Ha|].
  inversion Hl; subst. apply IH; [|assumption]. now apply fadd_nonpos.
Qed.

Lemma Ref_numpy_laws : NumpyLaws Ref.numpy.
Proof.
  split; cbn [np_mean np_sum Ref.numpy].
  - intros l H. unfold Ref.mean, Ref.sum. rewrite fold_fadd_nan by now right.
    reflexivity.
  - intros l H. unfold Ref.sum. apply nonpos_not_nan.
    now apply fold_fadd_nonpos.
Qed.

(** ** The NaN guard of [EvaluateMeanSquaredError] *)

Section NaNGuard.
Context {NP : Numpy} {EXT : External} {LAWS : NumpyLaws NP}.

Lemma has_nan_scaled (a b : float) (o : list float) :
  has_nan o -> has_nan (map (fun v => fadd a (fmul b v)) o).
Proof.
  induction 1 as [x l Hx|x l _ IH]; cbn [map].
  - left. apply isnan_true in Hx. subst x. now rewrite fmul_nan_r, fadd_nan_r.
  - right. exact IH.
Qed.

Lemma has_nan_squared_differences (t : list float) :
  forall p, length t = length p -> has_nan p -> has_nan (squared_differences t p).
Proof.
  induction t as [|x t IH]; intros [|y p] Hl Hn; try discriminate.
  - inversion Hn.
  - unfold squared_differences. cbn [combine map fst snd].
    inversion Hn as [? ? Hy|? ? Hr]; subst.
    + left. apply isnan_true in Hy. subst y. now rewrite fsub_nan_r.
    + right. apply IH; [|exact Hr]. simpl in Hl. congruence.
Qed.

(** The mean squared error against an output with a NaN is a NaN,
    whatever the scaling. *)
Lemma mse_nan (a b : float) (t o : list float) :
  length t = length o -> has_nan o -> isnan (mse a b t o) = true.
Proof.
  intros Hl Hn. unfold mse. apply np_mean_nan.
  apply has_nan_squared_differences.
  - now rewrite length_map.
  - now apply has_nan_scaled.
Qed.

Lemma has_nan_map_index (f : nat -> float) (idx : list nat) (i : nat) :
  In i idx -> isnan (f i) = true -> has_nan (map f idx).
Proof.
  induction idx as [|j idx IH]; intros Hin Hf; [contradiction|].
  destruct Hin as [->|Hin]; cbn [map]; [now left|right; now apply IH].
Qed.

Lemma EvaluateMeanSquaredError_single (s : State) (t : Tree) (y : list float) :
  individual s = Single t ->
  y_train (self s) = Vec y ->
  length y = length (tree_GetOutput t (X_train (self s))) ->
  has_nan (tree_GetOutput t (X_train (self s))) ->
  exists s', EvaluateMeanSquaredError s = (s', Ok np_inf) /\ keeps s s'.
Proof.
  intros Hi Hy Hl Hn.
  pose proof (keeps_EvaluateMeanSquaredError s) as Hk.
  unfold EvaluateMeanSquaredError in *. unfold bind at 1 in Hk. unfold bind at 1.
  unfold get_individual at 1 in Hk. unfold get_individual at 1. rewrite Hi in *.
  destruct (use_linear_scaling (self s)) eqn:Hls.
  - rewrite (bind_Ok _ _ _ (@NormalTree_scaled _ s t y Hy Hi Hl Hls)) in *.
    unfold ret in *. rewrite mse_nan by assumption. eexists. split; [reflexivity|exact Hk].
  - rewrite (bind_Ok _ _ _ (@NormalTree_unscaled _ s t y Hy Hi Hl Hls)) in *.
    unfold ret in *. rewrite mse_nan by assumption. eexists. split; [reflexivity|exact Hk].
Qed.

Lemma EvaluateMeanSquaredError_multi (s : State) (m : MultiTreeIndividual)
      (ys : list (list float)) (i : nat) :
  individual s = Multi m ->
  y_train (self s) = Mat ys ->
  let os := multi_GetOutput m (X_train (self s)) in
  let K := Z.to_nat (num_sup_functions m) in
  (forall j, (j < K)%nat ->
             channel_ok ys os j /\ (j < length (sup_functions m))%nat) ->
  (i < K)%nat ->
  has_nan (chan os i) ->
  exists s', EvaluateMeanSquaredError s = (s', Ok np_inf) /\ keeps s s'.
Proof.
  intros Hi Hy os K Hok HiK Hn.
  pose proof (keeps_EvaluateMeanSquaredError s) as Hk.
  assert (Forall (fun j => channel_ok ys os j /\ (j < length (sup_functions m))%nat)
                 (seq 0 K)) as Hall.
  { apply Forall_forall. intros j Hin. apply in_seq in Hin. apply Hok. lia. }
  assert (In i (seq 0 K)) as Hin by (apply in_seq; lia).
  destruct (Hok i HiK) as [(_ & _ & Hlen) _].
  unfold EvaluateMeanSquaredError in *. unfold bind at 1 in Hk. unfold bind at 1.
  unfold get_individual at 1 in Hk. unfold get_individual at 1. rewrite Hi in *.
  destruct (use_linear_scaling (self s)) eqn:Hls.
  - rewrite (bind_Ok _ _ _
               (@EvaluateMeanSquaredErrorOfMultiTree_scaled _ s m ys Hi Hy Hls Hall)) in *.
    unfold ret in *. rewrite np_mean_nan.
    + eexists. split; [reflexivity|exact Hk].
    + apply has_nan_map_index with (i := i); [exact Hin|].
      unfold fitted_mse. now apply mse_nan.
  - assert (Forall (channel_ok ys os) (seq 0 K)) as Hall'.
    { eapply Forall_impl; [|exact Hall]. now intros j [H _]. }
    rewrite (bind_Ok _ _ _
               (@EvaluateMeanSquaredErrorOfMultiTree_unscaled _ s m ys Hi Hy Hls Hall')) in *.
    unfold ret in *. rewrite np_mean_nan.
    + eexists. split; [reflexivity|exact Hk].
    + apply has_nan_map_index with (i := i); [exact Hin|]. now apply mse_nan.
Qed.

End NaNGuard.

Section NaNGuardTheorem.
Context {NP : Numpy} {EXT : External}.

Lemma first_objective_mse (fit : string) :
  mse_mode fit = true -> first_objective fit = EvaluateMeanSquaredError.
Proof.
  unfold mse_mode, first_objective. intros H.
  destruct (String.eqb_spec fit "manifold_fitness") as [->|_]; [discriminate|].
  destruct (String.eqb_spec fit "neural_decoder_fitness") as [->|_]; [discriminate|].
  now rewrite H.
Qed.

Lemma EvaluateMeanSquaredError_not_nan (s s' : State) (v : float) :
  EvaluateMeanSquaredError s = (s', Ok v) -> isnan v = false.
Proof.
  unfold EvaluateMeanSquaredError, bind, get_individual, ret.
  destruct (individual s) as [t|m].
  - destruct (EvaluateMeanSquaredErrorOfNormalTree t s) as [s1 [fe|e]];
      [|discriminate].
    intros H. inversion H; subst. now destruct (isnan fe) eqn:E.
  - destruct (EvaluateMeanSquaredErrorOfMultiTree m s) as [s1 [fe|e]];
      [|discriminate].
    intros H. inversion H; subst. now destruct (isnan fe) eqn:E.
Qed.

(** Whatever happens after the first objective is appended, it stays the
    first entry of the objectives. *)
Lemma first_objective_stays (s s1 : State) (v : float) :
  first_objective (fitness (self s)) (begun s) = (s1, Ok v) ->
  forall s' r, Evaluate s = (s', r) -> objective0 (individual s') = Ok (VFloat v).
Proof.
  intros H1 s' r. rewrite Evaluate_stages.
  pose proof (keeps_first_objective (fitness (self s)) (begun s)) as Hk.
  rewrite H1 in *. destruct Hk as (_ & _ & Hobj). cbn [fst] in Hobj.
  unfold begun in Hobj. cbn [individual] in Hobj.
  rewrite objectives_with_objectives in Hobj. cbv zeta.
  assert (forall l, objective0 (with_objectives (individual s1) (VFloat v :: l))
                    = Ok (VFloat v)) as Hhd.
  { intros l. unfold objective0. now rewrite objectives_with_objectives. }
  assert (individual (appended s1 (VFloat v))
          = with_objectives (individual s1) [VFloat v]) as Hi2.
  { unfold appended, with_individual. cbn [individual]. now rewrite Hobj. }
  assert (forall o, appended (appended s1 (VFloat v)) o
                  = with_individual s1 (with_objectives (individual s1) [VFloat v; o]))
  as Hs3.
{ intros o. unfold appended, with_individual.
  cbn [individual self calls_GetOutput calls_deepcopy].
  rewrite objectives_with_objectives, with_objectives_twice, Hobj. reflexivity. }
destruct (second_objective _) as [obj2|e].
- rewrite Hs3. destruct (better _) as [[|]|e]; intros E;
    apply (f_equal fst) in E; cbn [fst] in E; subst s';
    unfold replace_elite; cbn [fst individual with_individual]; apply Hhd.
- intros E. apply (f_equal fst) in E. cbn [fst] in E. subst s'.
  rewrite Hi2. apply Hhd.
Qed.

(** C3. [EvaluateMeanSquaredError] returns no NaN: a NaN error, of a single
    tree or of a multi-tree individual, is replaced by [+inf].  With a numpy
    whose mean of data holding a NaN is NaN, an individual whose output
    holds a NaN gets the error [+inf]: the first objective is computed
    without an exception and [objectives[0]] is [+inf]. *)
Theorem nan_error_becomes_infinity :
  (forall s,
     EvaluateMeanSquaredError s
     = match raw_error s with
       | (s', Ok fit_error) =>
           (s', Ok (if isnan fit_error then np_inf else fit_error))
       | (s', Raise e) => (s', Raise e)
       end) /\
  (forall s s' v, EvaluateMeanSquaredError s = (s', Ok v) -> isnan v = false) /\
  (forall s t y,
     NumpyLaws NP ->
     individual s = Single t ->
     y_train (self s) = Vec y ->
     length y = length (tree_GetOutput t (X_train (self s))) ->
     has_nan (tree_GetOutput t (X_train (self s))) ->
     (exists s', EvaluateMeanSquaredError s = (s', Ok np_inf)) /\
     (mse_mode (fitness (self s)) = true ->
      (exists s1, first_objective (fitness (self s)) (begun s) = (s1, Ok np_inf)) /\
      forall s' r, Evaluate s = (s', r) ->
                   objective0 (individual s') = Ok (VFloat np_inf))) /\
  (forall s m ys i,
     NumpyLaws NP ->
     individual s = Multi m ->
     y_train (self s) = Mat ys ->
     (forall j, (j < Z.to_nat (num_sup_functions m))%nat ->
        channel_ok ys (multi_GetOutput m (X_train (self s))) j /\
        (j < length (sup_functions m))%nat) ->
     (i < Z.to_nat (num_sup_functions m))%nat ->
     has_nan (chan (multi_GetOutput m (X_train (self s))) i) ->
     (exists s', EvaluateMeanSquaredError s = (s', Ok np_inf)) /\
     (mse_mode (fitness (self s)) = true ->
      (exists s1, first_objective (fitness (self s)) (begun s) = (s1, Ok np_inf)) /\
      forall s' r, Evaluate s = (s', r) ->
                   objective0 (individual s') = Ok (VFloat np_inf))).
Proof.
  split.
  { intros s. unfold EvaluateMeanSquaredError, raw_error, bind, get_individual, ret.
    destruct (individual s) as [t|m].
    - now destruct (EvaluateMeanSquaredErrorOfNormalTree t s) as [s1 [fe|e]].
    - now destruct (EvaluateMeanSquaredErrorOfMultiTree m s) as [s1 [fe|e]]. }
  split; [exact EvaluateMeanSquaredError_not_nan|]. split.
  - intros s t y LAWS Hi Hy Hl Hn. split.
    + destruct (@EvaluateMeanSquaredError_single _ _ s t y Hi Hy Hl Hn) as (s' & H & _).
      now exists s'.
    + intros Hmode.
      destruct (@EvaluateMeanSquaredError_single _ _ (begun s)
                  (mkTree (GetSubtree t) (tree_GetOutput t) (Count_n_nacomp t)
                          (ls_a t) (ls_b t) []) y)
        as (s1 & H & _).
      * unfold begun. cbn [individual]. now rewrite Hi.
      * exact Hy.
      * exact Hl.
      * exact Hn.
      * rewrite <- (first_objective_mse _ Hmode) in H.
        split; [now exists s1|]. now apply first_objective_stays with (s1 := s1).
  - intros s m ys i LAWS Hi Hy Hok HiK Hn. split.
    + destruct (@EvaluateMeanSquaredError_multi _ _ s m ys i Hi Hy Hok HiK Hn)
        as (s' & H & _).
      now exists s'.
    + intros Hmode.
      destruct (@EvaluateMeanSquaredError_multi _ _ (begun s)
                  (mkMulti (sup_functions m) (sub_functions m) (num_sup_functions m)
                           (num_sub_functions m) (multi_GetOutput m) []) ys i)
        as (s1 & H & _).
      * unfold begun. cbn [individual]. now rewrite Hi.
      * exact Hy.
      * exact Hok.
      * exact HiK.
      * exact Hn.
      * rewrite <- (first_objective_mse _ Hmode) in H.
        split; [now exists s1|]. now apply first_objective_stays with (s1 := s1).
Qed.

End NaNGuardTheorem.

(** [Sample.broken] under the reference environment. *)
Lemma nan_error_sample :
  let s := Sample.start (Sample.plain Sample.teacher) Sample.broken in
  (exists s', @EvaluateMeanSquaredError Ref.numpy s = (s', Ok np_inf)) /\
  (exists s1, @first_objective Ref.numpy Ref.external (fitness (self s)) (begun s)
              = (s1, Ok np_inf)) /\
  (forall s' r, @Evaluate Ref.numpy Ref.external s = (s', r) ->
                objective0 (individual s') = Ok (VFloat np_inf)).
Proof.
  intros s.
  destruct (proj1 (proj2 (proj2 (@nan_error_becomes_infinity Ref.numpy Ref.external)))
              s (Sample.tree [Sample.x0] [np_nan; f_0_0; f_0_0; f_0_0]) Sample.zeros
              Ref_numpy_laws)
    as [H1 H2].
  - reflexivity.
  - reflexivity.
  - reflexivity.
  - left. reflexivity.
  - split; [exact H1|]. apply H2. reflexivity.
Defined.

(** ** The objective vector *)

Section ObjectiveVector.
Context {NP : Numpy} {EXT : External}.









(** The decoder strategy raises [IndexError] on every single tree: the
    output is computed, its [shape[1]] (or that of a rank-1 [X_train])
    does not exist, and no decoder is trained. *)
Lemma neural_decoder_fitness_single (seed : Z) (s : State) (t : Tree) :
  individual s = Single t ->
  neural_decoder_fitness seed s = (with_call s, Raise IndexError).
Proof.
  intros Hi. unfold neural_decoder_fitness, bind, reads, GetOutput, lift.
  rewrite Hi. cbn [output_of self individual].
  unfold with_call. rewrite Hi.
  destruct (X_train (self s)); reflexivity.
Qed.





End ObjectiveVector.

(** The leaves of the sample trees print as the loop expects. *)
Lemma sample_leaves_print :
  Forall (@leaf_prints Ref.external) [Sample.plus; Sample.x0; Sample.c7].
Proof.
  repeat constructor.
  - intros H. discriminate.
  - intros _. exists "x"%char, "0"%string. split; [reflexivity|].
    intros _. exists 0. reflexivity.
  - intros _. exists "7"%char, ".0"%string. split; [reflexivity|].
    intros H. discriminate.
Defined.



(** The score of the tree of [Sample.i1]: three nodes, one operator. *)
Lemma EvaluatePHIsModel_sample :
  let t := Sample.tree [Sample.plus; Sample.x0; Sample.c7]
                       [Sample.four; Sample.two; f_0_0; f_0_0] in
  @EvaluatePHIsModel Ref.numpy Ref.external (Single t)
  = Ok (fmul (Z2f (-1)) (@linear_model Ref.numpy 3 1 0 0)).
Proof.
  intros t.
  apply (proj1 (proj2 (@EvaluatePHIsModel_computes Ref.numpy Ref.external)) t).
  exact sample_leaves_print.
Defined.

(** The three complexities on the samples. *)
Lemma EvaluateLength_sample :
  EvaluateLength (Sample.plain Sample.teacher) Sample.i1 = Ok (VInt 3) /\
  (exists v, EvaluateLength (Sample.plain gp_autoencoder) (Multi Sample.each_once)
             = Ok v /\ pyval_is v 2) /\
  EvaluateLength (Sample.plain Sample.teacher) (Multi Sample.each_once)
  = Ok (VInt 3).
Proof.
  destruct (EvaluateLength_computes (Sample.plain Sample.teacher)) as (H1 & _ & H3 & _).
  destruct (EvaluateLength_computes (Sample.plain gp_autoencoder)) as (_ & H2 & _ & _).
  split; [apply H1|]. split; [apply H2; reflexivity|].
  rewrite H3 by discriminate. reflexivity.
Defined.

(** * Further properties of the evaluator *)

(** ** What every call of [Evaluate] does to the evaluator *)

Section EvaluatorState.
Context {NP : Numpy} {EXT : External}.

Lemma replace_elite_run (s : State) :
  replace_elite s
  = (mkState (with_elite (self s) (Some (individual s))) (individual s)
             (calls_GetOutput s) (S (calls_deepcopy s)), Ok tt).
Proof. reflexivity. Qed.

Lemma with_elite_same (e : Evaluator) : with_elite e (elite e) = e.
Proof. now destruct e. Qed.

(** The state a call of [Evaluate] ends in, returning or raising, is the
    state after the first objective with its individual changed, and its
    evaluator changed at most in the elite. *)
Lemma Evaluate_ends (s : State) :
  exists s1 i' el,
    fst (first_objective (fitness (self s)) (begun s)) = s1 /\
    fst (Evaluate s)
    = mkState (with_elite (self s1) el) i' (calls_GetOutput s1)
              (calls_deepcopy (fst (Evaluate s))).
Proof.
  rewrite Evaluate_stages.
  destruct (first_objective (fitness (self s)) (begun s)) as [s1 [obj1|e]].
  - cbv zeta. exists s1.
    destruct (second_objective _) as [obj2|e].
    + destruct (better _) as [[|]|e].
      * rewrite replace_elite_run. eexists _, _. split; [reflexivity|].
        cbn. reflexivity.
      * exists (individual (appended (appended s1 (VFloat obj1)) obj2)),
               (elite (self s1)).
        split; [reflexivity|]. now rewrite with_elite_same.
      * exists (individual (appended (appended s1 (VFloat obj1)) obj2)),
               (elite (self s1)).
        split; [reflexivity|]. now rewrite with_elite_same.
    + exists (individual (appended s1 (VFloat obj1))), (elite (self s1)).
      split; [reflexivity|]. now rewrite with_elite_same.
  - exists s1, (individual s1), (elite (self s1)). split; [reflexivity|].
    rewrite with_elite_same. now destruct s1.
Qed.

(** One call of [Evaluate], whether it returns or raises, increments the
    evaluation counter by one and leaves the training data, the two flags
    and the fitness mode of the evaluator as they were. *)
Lemma Evaluate_keeps_evaluator (s : State) :
  let e' := self (fst (Evaluate s)) in
  evaluations e' = evaluations (self s) + 1 /\
  X_train e' = X_train (self s) /\
  y_train e' = y_train (self s) /\
  use_linear_scaling e' = use_linear_scaling (self s) /\
  use_interpretability_model e' = use_interpretability_model (self s) /\
  fitness e' = fitness (self s).
Proof.
  destruct (Evaluate_ends s) as (s1 & i' & el & H1 & H).
  pose proof (keeps_first_objective (fitness (self s)) (begun s)) as (Hs & _ & _).
  rewrite H1 in Hs. cbv zeta. rewrite H. cbn [self]. rewrite Hs.
  repeat split.
Qed.

(** The stage at which a call of [Evaluate] raised, read off the
    objectives it leaves on the individual. *)
Lemma Evaluate_raise_stages (s s' : State) (e : exn) :
  Evaluate s = (s', Raise e) ->
  elite (self s') = elite (self s) /\
  calls_deepcopy s' = calls_deepcopy s /\
  ((snd (first_objective (fitness (self s)) (begun s)) = Raise e /\
    objectives (individual s') = []) \/
   (exists s1 obj1,
      first_objective (fitness (self s)) (begun s) = (s1, Ok obj1) /\
      second_objective (appended s1 (VFloat obj1)) = Raise e /\
      objectives (individual s') = [VFloat obj1]) \/
   (exists obj1 obj2 el,
      objectives (individual s') = [VFloat obj1; obj2] /\
      elite (self s) = Some el /\ objectives el = [] /\ e = IndexError)).
Proof.
  rewrite Evaluate_stages.
  pose proof (keeps_first_objective (fitness (self s)) (begun s)) as Hk.
  destruct (first_objective (fitness (self s)) (begun s)) as [s1 [obj1|e1]].
  - destruct Hk as (Hs & Hd & Ho). cbn [fst] in *.
    unfold begun in Ho. cbn [individual] in Ho.
    rewrite objectives_with_objectives in Ho. cbv zeta.
    assert (forall o, appended (appended s1 (VFloat obj1)) o
                      = with_individual s1
                          (with_objectives (individual s1) [VFloat obj1; o])) as Hs3.
    { intros o. unfold appended, with_individual.
      cbn [individual self calls_GetOutput calls_deepcopy].
      rewrite objectives_with_objectives, with_objectives_twice, Ho. reflexivity. }
    destruct (second_objective _) as [obj2|e2] eqn:E2.
    + rewrite Hs3. destruct (better _) as [[|]|e3] eqn:Eb; intros H; inversion H; subst.
      cbn [self individual calls_deepcopy with_individual].
      rewrite Hs, objectives_with_objectives.
      split; [reflexivity|]. split; [exact Hd|]. right. right.
      unfold better in Eb. cbn [self individual with_individual] in Eb.
      rewrite Hs in Eb. cbn [begun self elite with_evaluations] in Eb.
      destruct (elite (self s)) as [el|]; [|discriminate].
      unfold objective0 at 1 in Eb. rewrite objectives_with_objectives in Eb.
      cbn [py_getitem] in Eb. unfold py_getitem in Eb at 1. cbn in Eb.
      unfold objective0, py_getitem in Eb.
      destruct (objectives el) as [|o l] eqn:Eel.
      * cbn in Eb. inversion Eb. exists obj1, obj2, el. repeat split; congruence.
      * exfalso. cbn [length] in Eb.
        destruct (Z.ltb_spec 0 0); [lia|].
        destruct (Z.leb_spec 0 0); [|lia].
        destruct (Z.ltb_spec 0 (Z.of_nat (S (length l)))); [|lia].
        cbn in Eb. discriminate.
    + intros H. inversion H; subst.
      unfold appended, with_individual.
      cbn [self individual calls_deepcopy]. rewrite Hs, objectives_with_objectives, Ho.
      split; [reflexivity|]. split; [exact Hd|]. right. left.
      exists s1, obj1. repeat split. exact E2.
  - destruct Hk as (Hs & Hd & Ho). cbn [fst] in *. intros H. inversion H; subst.
    rewrite Hs. split; [reflexivity|]. split; [exact Hd|]. left.
    split; [reflexivity|]. rewrite Ho. unfold begun. cbn [individual].
    apply objectives_with_objectives.
Qed.

(** A call of [Evaluate] that raises is still counted as an evaluation,
    copies no individual and leaves the elite as it was; the objectives of
    the individual are cut short at the stage that raised: empty when the
    first objective raised, the first objective alone when the second
    raised, both when the comparison with an elite that has no objective
    raised. *)
Theorem Evaluate_raises (s s' : State) (e : exn) :
  Evaluate s = (s', Raise e) ->
  evaluations (self s') = evaluations (self s) + 1 /\
  elite (self s') = elite (self s) /\
  calls_deepcopy s' = calls_deepcopy s /\
  ((snd (first_objective (fitness (self s)) (begun s)) = Raise e /\
    objectives (individual s') = []) \/
   (exists s1 obj1,
      first_objective (fitness (self s)) (begun s) = (s1, Ok obj1) /\
      second_objective (appended s1 (VFloat obj1)) = Raise e /\
      objectives (individual s') = [VFloat obj1]) \/
   (exists obj1 obj2 el,
      objectives (individual s') = [VFloat obj1; obj2] /\
      elite (self s) = Some el /\ objectives el = [] /\ e = IndexError)).
Proof.
  intros E. pose proof (Evaluate_keeps_evaluator s) as (Hc & _).
  cbv zeta in Hc. rewrite E in Hc. cbn [fst] in Hc.
  split; [exact Hc|]. now apply Evaluate_raise_stages.
Qed.

End EvaluatorState.

(** ** Calls of [GetOutput] *)

Section OutputCalls.
Context {NP : Numpy} {EXT : External}.

Lemma quiet_ret {A} (a : A) : quiet (ret a).
Proof. intros s. reflexivity. Qed.

Lemma quiet_lift {A} (r : result A) : quiet (lift r).
Proof. intros s. reflexivity. Qed.

Lemma quiet_reads {A} (f : Evaluator -> A) : quiet (reads f).
Proof. intros s. reflexivity. Qed.

Lemma quiet_get_individual : quiet get_individual.
Proof. intros s. reflexivity. Qed.

Lemma quiet_put_individual (i : Individual) : quiet (put_individual i).
Proof. intros s. reflexivity. Qed.

Lemma quiet_bind {A B} (c : M A) (k : A -> M B) :
  quiet c -> (forall a, quiet (k a)) -> quiet (bind c k).
Proof.
  intros Hc Hk s. unfold bind. specialize (Hc s).
  destruct (c s) as [s' [a|e]]; cbn [fst] in *; [|exact Hc].
  rewrite (Hk a s'). exact Hc.
Qed.

Lemma quiet_foldM {A B} (body : B -> A -> M B) (l : list A) :
  (forall acc x, quiet (body acc x)) -> forall acc, quiet (foldM body l acc).
Proof.
  intros H. induction l as [|x l IH]; intros acc; cbn [foldM].
  - apply quiet_ret.
  - apply quiet_bind; [apply H|exact IH].
Qed.

Lemma once_GetOutput (X : ndarray) : once (GetOutput X).
Proof. intros s. reflexivity. Qed.

(** A quiet prefix, or a quiet rest, keeps the count of a computation
    that calls once. *)
Lemma once_after_quiet {A B} (c : M A) (k : A -> M B) :
  quiet c -> (forall a, once (k a)) -> once (bind c k).
Proof.
  intros Hc Hk s. unfold bind. specialize (Hc s).
  destruct (c s) as [s' [a|e]]; cbn [fst snd] in *; [|now left].
  specialize (Hk a s'). rewrite <- Hc. exact Hk.
Qed.

Lemma once_before_quiet {A B} (c : M A) (k : A -> M B) :
  once c -> (forall a, quiet (k a)) -> once (bind c k).
Proof.
  intros Hc Hk s. unfold bind. specialize (Hc s).
  destruct (c s) as [s' [a|e]]; cbn [fst snd] in *; [|exact Hc].
  specialize (Hk a s'). destruct (k a s') as [s'' [b|e]]; cbn [fst snd] in *.
  - now rewrite Hk.
  - right. now rewrite Hk.
Qed.

Ltac quiet_steps :=
  repeat first
    [ apply quiet_ret | apply quiet_lift | apply quiet_reads
    | apply quiet_get_individual | apply quiet_put_individual
    | apply quiet_bind; [|intros ?]
    | match goal with
      | |- quiet (if ?b then _ else _) => destruct b
      | |- quiet (match ?x with _ => _ end) => destruct x
      end ].

Lemma quiet_channel_step (out : ndarray) (acc : MultiTreeIndividual * list float)
      (i : Z) :
  quiet (channel_step out acc i).
Proof.
  unfold channel_step. destruct acc as [m errs]. quiet_steps.
Qed.

Lemma once_stress_cost (b : Z) : once (stress_cost b).
Proof.
  unfold stress_cost.
  repeat (apply once_after_quiet; [solve [quiet_steps]|intros ?]).
  apply once_before_quiet; [apply once_GetOutput|intros ?]. quiet_steps.
Qed.

Lemma once_neural_decoder_fitness (seed : Z) : once (neural_decoder_fitness seed).
Proof.
  unfold neural_decoder_fitness.
  repeat (apply once_after_quiet; [solve [quiet_steps]|intros ?]).
  apply once_before_quiet; [apply once_GetOutput|intros ?]. quiet_steps.
Qed.

Lemma once_NormalTree (t : Tree) : once (EvaluateMeanSquaredErrorOfNormalTree t).
Proof.
  unfold EvaluateMeanSquaredErrorOfNormalTree.
  repeat (apply once_after_quiet; [solve [quiet_steps]|intros ?]).
  apply once_before_quiet; [apply once_GetOutput|intros ?]. quiet_steps.
Qed.

Lemma once_MultiTree (m : MultiTreeIndividual) :
  once (EvaluateMeanSquaredErrorOfMultiTree m).
Proof.
  unfold EvaluateMeanSquaredErrorOfMultiTree.
  repeat (apply once_after_quiet; [solve [quiet_steps]|intros ?]).
  apply once_before_quiet; [apply once_GetOutput|intros ?].
  apply quiet_bind; [|intros ?; apply quiet_ret].
  apply quiet_foldM. intros. apply quiet_channel_step.
Qed.

Lemma once_EvaluateMeanSquaredError : once EvaluateMeanSquaredError.
Proof.
  unfold EvaluateMeanSquaredError.
  apply once_after_quiet; [apply quiet_get_individual|intros ind].
  apply once_before_quiet; [|intros ?; apply quiet_ret].
  destruct ind; [apply once_NormalTree|apply once_MultiTree].
Qed.

Lemma once_first_objective (fit : string) :
  recognised fit = true -> once (first_objective fit).
Proof.
  unfold recognised, first_objective. intros H.
  destruct (String.eqb fit "manifold_fitness"); [apply once_stress_cost|].
  destruct (String.eqb fit "neural_decoder_fitness").
  { apply once_after_quiet; [apply quiet_reads|intros ?].
    apply once_neural_decoder_fitness. }
  destruct (String.eqb fit "autoencoder_teacher_fitness");
    [apply once_EvaluateMeanSquaredError|].
  destruct (String.eqb fit "gp_autoencoder_fitness");
    [apply once_EvaluateMeanSquaredError|discriminate].
Qed.

Lemma first_objective_unrecognised (fit : string) :
  recognised fit = false -> first_objective fit = lift (Raise UnboundLocalError).
Proof.
  unfold recognised, first_objective. intros H.
  destruct (String.eqb fit "manifold_fitness"); [discriminate|].
  destruct (String.eqb fit "neural_decoder_fitness"); [discriminate|].
  destruct (String.eqb fit "autoencoder_teacher_fitness"); [discriminate|].
  destruct (String.eqb fit "gp_autoencoder_fitness"); [discriminate|].
  reflexivity.
Qed.

(** One call of [Evaluate] calls [GetOutput] of the individual exactly
    once when it returns, never more than once when it raises, and not at
    all under a fitness string it has no branch for: the second objective
    and the elite update read no output. *)
Theorem Evaluate_calls_GetOutput_once (s : State) :
  (calls_GetOutput s <= calls_GetOutput (fst (Evaluate s))
   <= S (calls_GetOutput s))%nat /\
  (snd (Evaluate s) = Ok tt ->
   calls_GetOutput (fst (Evaluate s)) = S (calls_GetOutput s)) /\
  (recognised (fitness (self s)) = false ->
   calls_GetOutput (fst (Evaluate s)) = calls_GetOutput s).
Proof.
  assert (recognised (fitness (self s)) = false ->
          calls_GetOutput (fst (Evaluate s)) = calls_GetOutput s) as Hnone.
  { intros Hr. rewrite Evaluate_stages.
    rewrite (first_objective_unrecognised _ Hr). reflexivity. }
  rewrite <- and_assoc. split; [|exact Hnone]. clear Hnone.
  destruct (Evaluate_ends s) as (s1 & i' & el & H1 & H).
  rewrite H. cbn [calls_GetOutput].
  assert (calls_GetOutput (begun s) = calls_GetOutput s) as Hb by reflexivity.
  destruct (recognised (fitness (self s))) eqn:Hr.
  - pose proof (once_first_objective _ Hr (begun s)) as Ho.
    rewrite H1, Hb in Ho. split.
    + destruct (snd (first_objective (fitness (self s)) (begun s))); lia.
    + intros Hok. rewrite Evaluate_stages in Hok.
      destruct (first_objective (fitness (self s)) (begun s)) as [s1' [o|e]];
        cbn [fst snd] in *; [subst; exact Ho|discriminate].
  - pose proof (first_objective_unrecognised _ Hr) as Hu.
    split.
    + rewrite <- H1, Hu. cbn. lia.
    + intros Hok. rewrite Evaluate_stages, Hu in Hok. discriminate.
Qed.

End OutputCalls.

(** ** The two strategies outside the mean squared error *)

Lemma firstn_two_skipn {A} (d : A) (l : list A) :
  forall j, (S j < length l)%nat ->
            firstn 2 (skipn j l) = [nth j l d; nth (S j) l d].
Proof.
  induction l as [|a l IH]; intros j H; [simpl in H; lia|].
  destruct j as [|j].
  - destruct l as [|b l]; [simpl in H; lia|]. reflexivity.
  - cbn [skipn]. rewrite IH by (simpl in H; lia). reflexivity.
Qed.

(** [l[k-1:k+1]] for an index [k >= 1] of [l] is the entry before [k]
    and the entry at [k]. *)
Lemma py_slice_window {A} (d : A) (l : list A) (k : Z) :
  1 <= k < len l ->
  py_slice l (k - 1) (k + 1)
  = [nth (Z.to_nat (k - 1)) l d; nth (Z.to_nat k) l d].
Proof.
  intros H. unfold py_slice, len in *.
  destruct (Z.ltb_spec (k - 1) 0); [lia|].
  destruct (Z.ltb_spec (k + 1) 0); [lia|].
  replace (Z.max 0 (Z.min (Z.of_nat (length l)) (k - 1))) with (k - 1) by lia.
  replace (Z.max 0 (Z.min (Z.of_nat (length l)) (k + 1))) with (k + 1) by lia.
  replace (Z.to_nat (k + 1 - (k - 1))) with 2%nat by lia.
  rewrite (firstn_two_skipn d) by lia.
  do 2 f_equal. f_equal. lia.
Qed.

(** [l[-1:1]] is empty as soon as [l] has two entries. *)
Lemma py_slice_wraps {A} (l : list A) :
  2 <= len l -> py_slice l (0 - 1) (0 + 1) = [].
Proof.
  intros H. unfold py_slice, len in *.
  change (0 - 1 <? 0) with true. change (0 + 1 <? 0) with false. cbv beta iota.
  set (n := Z.of_nat (length l)) in *.
  replace (Z.to_nat (Z.max 0 (Z.min n (0 + 1)) - Z.max 0 (Z.min n (0 - 1 + n))))
    with 0%nat by lia.
  reflexivity.
Qed.

Section Strategies.
Context {NP : Numpy} {EXT : External}.

(** Under ["manifold_fitness"], training data of fewer than 64 rows make
    every call of [Evaluate] raise [AssertionError] once the counter is
    incremented and the objectives are emptied, before any row is sampled
    and before the output of the individual is computed. *)
Theorem manifold_needs_64_rows (s : State) :
  fitness (self s) = "manifold_fitness"%string ->
  shape0 (X_train (self s)) < 64 ->
  Evaluate s = (begun s, Raise AssertionError).
Proof.
  intros Hf Hx. rewrite Evaluate_stages, Hf.
  unfold first_objective. cbn [String.eqb Ascii.eqb Bool.eqb].
  unfold stress_cost, bind, reads, lift. cbn [begun self X_train with_evaluations].
  destruct (Z.leb_spec 64 (shape0 (X_train (self s)))); [lia|]. reflexivity.
Qed.

(** Under ["neural_decoder_fitness"], [Evaluate] on a single tree always
    raises [IndexError], after one call of [GetOutput], leaving the
    objectives empty and the elite as it was. *)
Theorem decoder_rejects_single_trees (s : State) (t : Tree) :
  individual s = Single t ->
  fitness (self s) = "neural_decoder_fitness"%string ->
  Evaluate s = (with_call (begun s), Raise IndexError) /\
  objectives (individual (fst (Evaluate s))) = [].
Proof.
  intros Hi Hf.
  assert (Evaluate s = (with_call (begun s), Raise IndexError)) as H.
  { rewrite Evaluate_stages, Hf.
    unfold first_objective. cbn [String.eqb Ascii.eqb Bool.eqb].
    unfold bind at 1. unfold reads at 1.
    rewrite (@neural_decoder_fitness_single _ _ _ (begun s)
               (mkTree (GetSubtree t) (tree_GetOutput t) (Count_n_nacomp t)
                       (ls_a t) (ls_b t) []))
      by (unfold begun; cbn [individual]; now rewrite Hi).
    reflexivity. }
  split; [exact H|]. rewrite H. cbn [fst with_call begun individual].
  apply objectives_with_objectives.
Qed.

(** The loss the decoder strategy returns for a multi-tree individual is
    [np.mean] of the lowest loss of the training history and of the loss of
    the epoch before it; when the lowest loss is that of the first epoch
    of a history of two epochs or more, the window [argmin-1:argmin+1] is
    empty and the loss is [np.mean] of no value. *)
Theorem decoder_loss_window (seed : Z) (s : State) (m : MultiTreeIndividual)
        (xs : list (list float)) (losses : list float) (k : Z) :
  individual s = Multi m ->
  X_train (self s) = Mat xs ->
  keras_fit (len xs) (len (multi_GetOutput m (Mat xs))) seed
            (Mat (multi_GetOutput m (Mat xs))) (Mat xs) = Ok losses ->
  np_argmin losses = Ok k ->
  (1 <= k < len losses ->
   neural_decoder_fitness seed s
   = (with_call s,
      Ok (np_mean [nth (Z.to_nat (k - 1)) losses np_nan;
                   nth (Z.to_nat k) losses np_nan]))) /\
  (k = 0 -> 2 <= len losses ->
   neural_decoder_fitness seed s = (with_call s, Ok (np_mean []))).
Proof.
  intros Hi Hx Hk Ha.
  assert (neural_decoder_fitness seed s
          = (with_call s, Ok (np_mean (py_slice losses (k - 1) (k + 1))))) as H.
  { unfold neural_decoder_fitness, bind, reads, GetOutput, lift, ret.
    rewrite Hi, Hx. cbn [output_of self individual shape1].
    fold (len xs). fold (len (multi_GetOutput m (Mat xs))).
    rewrite Hk, Ha. unfold with_call. now rewrite Hi. }
  split.
  - intros Hr. rewrite H. now rewrite (py_slice_window np_nan) by exact Hr.
  - intros -> Hl. rewrite H. now rewrite py_slice_wraps by exact Hl.
Qed.

End Strategies.

(** ** The elite over many calls *)

Lemma fltb_nan_r (x : float) : fltb x S754_nan = false.
Proof. now destruct x. Qed.

Lemma py_lt_nan_l (v : pyval) : py_lt (VFloat S754_nan) v = false.
Proof. now destruct v. Qed.

Lemma py_lt_nan_r (v : pyval) : py_lt v (VFloat S754_nan) = false.
Proof. destruct v as [n|x]; [reflexivity|apply fltb_nan_r]. Qed.

Section EliteOverCalls.
Context {NP : Numpy} {EXT : External}.

(** The elite after a call, returning or raising: the old one, or the
    individual just evaluated with its two objectives. *)
Lemma elite_after_call (s : State) :
  elite (self (fst (Evaluate s))) = elite (self s) \/
  (snd (Evaluate s) = Ok tt /\
   elite (self (fst (Evaluate s))) = Some (individual (fst (Evaluate s))) /\
   length (objectives (individual (fst (Evaluate s)))) = 2%nat).
Proof.
  destruct (Evaluate s) as [s' [[]|e]] eqn:E; cbn [fst snd].
  - pose proof (@Evaluate_returns _ _ s s' E) as (s1 & o1 & o2 & b & _ & _ & _ & Ho & _).
    pose proof (@Evaluate_elite _ _ s s' E) as (s1' & o1' & _ & _ & Hel).
    destruct (elite (self s)) as [el|].
    + destruct Hel as (oe & _ & Hel). destruct (py_lt _ _).
      * right. split; [reflexivity|]. split; [apply Hel|]. now rewrite Ho.
      * left. apply Hel.
    + right. split; [reflexivity|]. split; [apply Hel|]. now rewrite Ho.
  - left. now apply Evaluate_raise_stages in E.
Qed.

Lemma elite_has_two_step (s : State) :
  elite_has_two (self s) -> elite_has_two (self (fst (Evaluate s))).
Proof.
  intros H. unfold elite_has_two in *.
  destruct (elite_after_call s) as [->|(_ & -> & Hl)]; assumption.
Qed.

(** The evaluation counter counts the calls of [Evaluate], those that
    raised included: after the calls on a list of individuals it has grown
    by the length of the list, and the training data, the two flags and
    the fitness mode are those the evaluator was constructed with. *)
Theorem evaluations_count_calls (l : list Individual) :
  forall s,
    let e' := self (EvaluateAll l s) in
    evaluations e' = evaluations (self s) + len l /\
    X_train e' = X_train (self s) /\
    y_train e' = y_train (self s) /\
    use_linear_scaling e' = use_linear_scaling (self s) /\
    use_interpretability_model e' = use_interpretability_model (self s) /\
    fitness e' = fitness (self s).
Proof.
  induction l as [|i l IH]; intros s; cbn [EvaluateAll]; cbv zeta.
  - unfold len. cbn. repeat split. lia.
  - specialize (IH (fst (Evaluate (next s i)))). cbv zeta in IH.
    destruct IH as (I1 & I2 & I3 & I4 & I5 & I6).
    pose proof (Evaluate_keeps_evaluator (next s i)) as (H1 & H2 & H3 & H4 & H5 & H6).
    cbv zeta in *. cbn [next with_individual self] in *.
    rewrite I1, I2, I3, I4, I5, I6, H1, H2, H3, H4, H5, H6, len_cons.
    repeat split. lia.
Qed.

(** From its construction on, whatever the individuals evaluated and
    whether the calls return or raise, the elite of an evaluator is absent
    or carries exactly two objectives; so the comparison with the elite
    never fails, and a call that raises has raised in one of the two
    objectives, leaving fewer than two objectives on the individual. *)
Theorem elite_keeps_two_objectives :
  (forall X y ls im fit, elite_has_two (init X y ls im fit)) /\
  (forall l s, elite_has_two (self s) -> elite_has_two (self (EvaluateAll l s))) /\
  (forall s s' e,
     elite_has_two (self s) ->
     Evaluate s = (s', Raise e) ->
     (length (objectives (individual s')) < 2)%nat).
Proof.
  split; [|split].
  - intros. exact I.
  - induction l as [|i l IH]; intros s H; cbn [EvaluateAll]; [exact H|].
    apply IH. now apply (elite_has_two_step (next s i)).
  - intros s s' e H E. apply Evaluate_raise_stages in E.
    destruct E as (_ & _ & [[_ Ho]|[(s1 & o1 & _ & _ & Ho)|(o1 & o2 & el & _ & Hel & Hempty & _)]]).
    + rewrite Ho. cbn. lia.
    + rewrite Ho. cbn. lia.
    + exfalso. unfold elite_has_two in H. rewrite Hel, Hempty in H. discriminate.
Qed.

Lemma nan_elite_step (s : State) (el : Individual) :
  elite (self s) = Some el ->
  objective0 el = Ok (VFloat S754_nan) ->
  elite (self (fst (Evaluate s))) = Some el.
Proof.
  intros Hel Ho. destruct (Evaluate s) as [s' [[]|e]] eqn:E; cbn [fst].
  - apply Evaluate_elite in E. destruct E as (s1 & o1 & _ & _ & E).
    rewrite Hel in E. destruct E as (oe & Hoe & E).
    rewrite Ho in Hoe. inversion Hoe; subst oe.
    rewrite py_lt_nan_r in E. apply E.
  - apply Evaluate_raise_stages in E. destruct E as (E & _). now rewrite E.
Qed.

(** A NaN never wins and never loses the comparison: an elite whose first
    objective is a NaN is never replaced, whatever is evaluated afterwards,
    and an individual whose first objective is a NaN never replaces an
    elite. *)
Theorem nan_elite_is_never_replaced :
  (forall l s el,
     elite (self s) = Some el ->
     objective0 el = Ok (VFloat S754_nan) ->
     elite (self (EvaluateAll l s)) = Some el) /\
  (forall s s' el,
     elite (self s) = Some el ->
     Evaluate s = (s', Ok tt) ->
     objective0 (individual s') = Ok (VFloat S754_nan) ->
     elite (self s') = Some el /\ calls_deepcopy s' = calls_deepcopy s).
Proof.
  split.
  - induction l as [|i l IH]; intros s el Hel Ho; cbn [EvaluateAll]; [exact Hel|].
    apply IH; [|exact Ho]. now apply (nan_elite_step (next s i)).
  - intros s s' el Hel E Ho. apply Evaluate_elite in E.
    destruct E as (s1 & o1 & _ & Ho1 & E). rewrite Hel in E.
    destruct E as (oe & _ & E). rewrite Ho in Ho1. inversion Ho1; subst o1.
    now rewrite py_lt_nan_l in E.
Qed.

End EliteOverCalls.

(** ** Exceptions and counters of the interpretability score *)

Section InterpretabilityLoop.
Context {NP : Numpy} {EXT : External}.

Lemma count_step_prints (c c' : counters) (n : Node) :
  count_step c n = Ok c' -> leaf_prints n.
Proof.
  unfold count_step, leaf_prints. fold (is_op n). intros H Hop. rewrite Hop in H.
  destruct (node_str n) as [|c0 rest]; [discriminate|].
  exists c0, rest. split; [reflexivity|]. intros ->.
  cbn [Ascii.eqb Bool.eqb andb] in H.
  destruct (py_int rest) as [k|]; [now exists k|discriminate].
Qed.

Lemma count_loop_prints (nodes : list Node) :
  forall c c', rfold count_step nodes c = Ok c' -> Forall leaf_prints nodes.
Proof.
  induction nodes as [|n nodes IH]; intros c c' H; [constructor|].
  cbn [rfold] in H. destruct (count_step c n) as [c1|] eqn:E; [|discriminate].
  cbn [rbind] in H. constructor.
  - now apply count_step_prints in E.
  - now apply IH in H.
Qed.

(** The score of a single tree is returned exactly when every leaf of the
    flattened subtree prints as a non-empty string that, if it begins with
    ["x"], goes on with what [int] reads.  The first leaf that does not
    stops the loop: with [IndexError] when it prints as the empty string,
    with the exception of [int] when its index does not read. *)
Theorem EvaluatePHIsModel_raises (t : Tree) :
  ((exists r, EvaluatePHIsModel (Single t) = Ok r)
   <-> Forall leaf_prints (GetSubtree t)) /\
  (forall pre n post,
     GetSubtree t = pre ++ n :: post ->
     Forall leaf_prints pre ->
     is_op n = false ->
     (node_str n = EmptyString ->
      EvaluatePHIsModel (Single t) = Raise IndexError) /\
     (forall rest e,
        node_str n = String "x" rest -> py_int rest = Raise e ->
        EvaluatePHIsModel (Single t) = Raise e)).
Proof.
  split.
  - split.
    + intros [r H]. cbn [EvaluatePHIsModel] in H.
      unfold EvaluatePHIsModelOfNormalTree in H.
      destruct (rfold count_step (GetSubtree t) _) as [c'|] eqn:E; [|discriminate].
      now apply count_loop_prints in E.
    + intros H. eexists. now apply EvaluatePHIsModelOfNormalTree_score.
  - intros pre n post Hsub Hpre Hop.
    cbn [EvaluatePHIsModel]. unfold EvaluatePHIsModelOfNormalTree.
    rewrite Hsub, rfold_app.
    destruct (count_loop (mkCounters 0 0 0 [] 0) Hpre) as (c1 & -> & _).
    cbn [rbind rfold].
    split; [intros Hs|intros rest e Hs Hp];
      unfold count_step at 1; fold (is_op n); rewrite Hop, Hs.
    + reflexivity.
    + cbn [Ascii.eqb Bool.eqb andb]. rewrite Hp. reflexivity.
Qed.

(** The counters of the loop, started at zero: every node is counted once
    as an operator, a variable or a constant; non-arithmetic operators are
    operators; the set of dimensions holds no index twice and no more
    indices than there are variable leaves. *)
Lemma count_loop_invariants (nodes : list Node) :
  forall c c',
    rfold count_step nodes c = Ok c' ->
    NoDup (dimensions c) ->
    n_ops c' + n_vars c' + n_constants c'
    = n_ops c + n_vars c + n_constants c + len nodes /\
    n_naops c' - n_naops c <= n_ops c' - n_ops c /\
    0 <= n_naops c' - n_naops c /\
    NoDup (dimensions c') /\
    len (dimensions c') - len (dimensions c) <= n_vars c' - n_vars c.
Proof.
  induction nodes as [|n nodes IH]; intros c c' H Hnd.
  - cbn in H. inversion H; subst. unfold len. cbn. repeat split; try lia. exact Hnd.
  - cbn [rfold] in H. destruct (count_step c n) as [c1|] eqn:E; [|discriminate].
    cbn [rbind] in H. rewrite len_cons.
    unfold count_step in E. destruct (0 <? arity n).
    + inversion E; subst c1. apply IH in H; [|exact Hnd].
      cbn [n_ops n_naops n_vars n_constants dimensions] in H.
      destruct (is_not_arithmetic n); repeat split; try lia; apply H.
    + destruct (node_str n) as [|c0 rest]; [discriminate|].
      destruct (Ascii.eqb c0 "x"%char).
      * destruct (py_int rest) as [k|]; [|discriminate]. cbn [rbind] in E.
        inversion E; subst c1. apply IH in H.
        -- cbn [n_ops n_naops n_vars n_constants dimensions] in H.
           assert (len (set_add k (dimensions c)) <= len (dimensions c) + 1) as Hl.
           { unfold set_add. destruct (existsb _ _); [|rewrite len_cons]; lia. }
           repeat split; try lia; apply H.
        -- cbn [dimensions]. unfold set_add.
           destruct (existsb (Z.eqb k) (dimensions c)) eqn:Ex; [exact Hnd|].
           constructor; [|exact Hnd]. intros Hin.
           assert (existsb (Z.eqb k) (dimensions c) = true) as Ht.
           { apply existsb_exists. exists k. split; [exact Hin|apply Z.eqb_refl]. }
           congruence.
      * inversion E; subst c1. apply IH in H; [|exact Hnd].
        cbn [n_ops n_naops n_vars n_constants dimensions] in H.
        repeat split; try lia; apply H.
Qed.

(** The statistics [__EvaluatePHIsModelOfNormalTree] gathers on a tree,
    whenever its loop ends: [n_ops + n_vars + n_constants == n_nodes],
    [0 <= n_naops <= n_ops], and [n_dim <= n_vars] with [dimensions] free
    of duplicates. *)
Theorem tree_statistics (t : Tree) (c : counters) :
  rfold count_step (GetSubtree t) (mkCounters 0 0 0 [] 0) = Ok c ->
  n_ops c + n_vars c + n_constants c = len (GetSubtree t) /\
  0 <= n_naops c <= n_ops c /\
  len (dimensions c) <= n_vars c /\
  NoDup (dimensions c).
Proof.
  intros H. apply count_loop_invariants in H; [|constructor].
  cbn [n_ops n_naops n_vars n_constants dimensions] in H.
  destruct H as (H1 & H2 & H3 & H4 & H5).
  change (len (@nil Z)) with 0 in H5.
  repeat split; try lia; exact H4.
Qed.

End InterpretabilityLoop.

(** ** References to sub_functions in the inlined complexity *)

(** Python's indexing succeeds exactly on the indices from [-len(l)] to
    [len(l) - 1], a negative one counting from the end, and raises
    [IndexError] on the others. *)
Lemma py_getitem_index {A} (l : list A) (i : Z) :
  (index_ok (len l) i ->
   exists a, py_getitem l i = Ok a /\
             nth_error l (Z.to_nat (if i <? 0 then i + len l else i)) = Some a) /\
  (~ index_ok (len l) i -> py_getitem l i = Raise IndexError).
Proof.
  unfold index_ok, py_getitem, len. split; intros H.
  - destruct (Z.ltb_spec i 0).
    + destruct (Z.leb_spec 0 (i + Z.of_nat (length l))); [|lia].
      destruct (Z.ltb_spec (i + Z.of_nat (length l)) (Z.of_nat (length l))); [|lia].
      cbn [andb].
      destruct (nth_error l (Z.to_nat (i + Z.of_nat (length l)))) as [a|] eqn:E.
      * now exists a.
      * apply nth_error_None in E. lia.
    + destruct (Z.leb_spec 0 i); [|lia].
      destruct (Z.ltb_spec i (Z.of_nat (length l))); [|lia]. cbn [andb].
      destruct (nth_error l (Z.to_nat i)) as [a|] eqn:E.
      * now exists a.
      * apply nth_error_None in E. lia.
  - destruct (Z.ltb_spec i 0).
    + destruct (Z.leb_spec 0 (i + Z.of_nat (length l))); [|reflexivity].
      destruct (Z.ltb_spec (i + Z.of_nat (length l)) (Z.of_nat (length l)));
        [lia|reflexivity].
    + destruct (Z.leb_spec 0 i); [|reflexivity].
      destruct (Z.ltb_spec i (Z.of_nat (length l))); [lia|reflexivity].
Qed.

Lemma classic_index (n i : Z) : index_ok n i \/ ~ index_ok n i.
Proof. unfold index_ok. lia. Qed.

Section References.
Context {NP : Numpy} {EXT : External}.

Lemma node_cost_raises (m : MultiTreeIndividual) (n : Node) (e : exn) :
  node_cost m n = Raise e -> e = IndexError.
Proof.
  unfold node_cost. destruct (_ && _); [|discriminate].
  destruct (classic_index (len (sub_functions m)) (node_id n)) as [H|H].
  - apply (proj1 (py_getitem_index (sub_functions m) (node_id n))) in H.
    destruct H as (a & -> & _). discriminate.
  - rewrite (proj2 (py_getitem_index (sub_functions m) (node_id n)) H).
    cbn [rbind]. congruence.
Qed.

Lemma rmap_node_cost (m : MultiTreeIndividual) (nodes : list Node) :
  0 < num_sub_functions m ->
  (Forall (fun n => is_FeatureNode n = true ->
                    index_ok (len (sub_functions m)) (node_id n)) nodes ->
   exists costs, rmap (node_cost m) nodes = Ok costs) /\
  (~ Forall (fun n => is_FeatureNode n = true ->
                      index_ok (len (sub_functions m)) (node_id n)) nodes ->
   rmap (node_cost m) nodes = Raise IndexError).
Proof.
  intros Hpos. induction nodes as [|n nodes [IH1 IH2]]; split.
  - intros _. now exists [].
  - intros H. exfalso. apply H. constructor.
  - intros H. inversion H as [|? ? Hn Hr]; subst.
    destruct (IH1 Hr) as [costs Hc]. cbn [rmap]. rewrite Hc.
    unfold node_cost. destruct (is_FeatureNode n); cbn [andb].
    + destruct (Z.ltb_spec 0 (num_sub_functions m)); [|lia].
      destruct (proj1 (py_getitem_index (sub_functions m) (node_id n)) (Hn eq_refl))
        as (a & -> & _).
      eexists. reflexivity.
    + eexists. reflexivity.
  - intros H. cbn [rmap].
    destruct (node_cost m n) as [k|e] eqn:E.
    + cbn [rbind]. rewrite IH2; [reflexivity|].
      intros Hr. apply H. constructor; [|exact Hr].
      intros Hf. unfold node_cost in E. rewrite Hf in E.
      destruct (Z.ltb_spec 0 (num_sub_functions m)); [|lia]. cbn [andb] in E.
      destruct (classic_index (len (sub_functions m)) (node_id n)) as [Hi|Hi];
        [exact Hi|].
      rewrite (proj2 (py_getitem_index (sub_functions m) (node_id n)) Hi) in E.
      discriminate.
    + apply node_cost_raises in E. now subst e.
Qed.

(** Under a mode other than ["gp_autoencoder_fitness"], with
    [num_sub_functions > 0]: the complexity of a multi-tree individual is
    returned exactly when the [id] of every FeatureNode of the
    sup_functions is an index Python accepts on [sub_functions], from
    [-len] to [len - 1], and [IndexError] is raised otherwise; a negative
    [id] counts the sub_function found from the end. *)
Theorem inlined_complexity_indices (e : Evaluator) (m : MultiTreeIndividual) :
  fitness e <> gp_autoencoder ->
  0 < num_sub_functions m ->
  let accepted :=
    Forall (fun n => is_FeatureNode n = true ->
                     index_ok (len (sub_functions m)) (node_id n)) (sup_nodes m) in
  (accepted -> exists l, EvaluateLength e (Multi m) = Ok (VInt l)) /\
  (~ accepted -> EvaluateLength e (Multi m) = Raise IndexError) /\
  (forall n sub,
     is_FeatureNode n = true ->
     - len (sub_functions m) <= node_id n < 0 ->
     nth_error (sub_functions m) (Z.to_nat (node_id n + len (sub_functions m)))
     = Some sub ->
     node_cost m n = Ok (size sub)).
Proof.
  intros Hf Hpos accepted. rewrite EvaluateLength_inlined by exact Hf.
  destruct (@rmap_node_cost m (sup_nodes m) Hpos) as [H1 H2].
  split; [|split].
  - intros H. destruct (H1 H) as [costs ->]. eexists. reflexivity.
  - intros H. now rewrite (H2 H).
  - intros n sub Hn Hid Hsub. unfold node_cost. rewrite Hn.
    destruct (Z.ltb_spec 0 (num_sub_functions m)); [|lia]. cbn [andb].
    destruct (proj1 (py_getitem_index (sub_functions m) (node_id n)))
      as (a & -> & Ha).
    + unfold index_ok. lia.
    + destruct (Z.ltb_spec (node_id n) 0); [|lia].
      rewrite Hsub in Ha. inversion Ha. reflexivity.
Qed.

End References.

(** ** Edges of the multi-tree error *)

Lemma foldM_app {A B} (body : B -> A -> M B) (l1 l2 : list A) :
  forall acc s,
    foldM body (l1 ++ l2) acc s = bind (foldM body l1 acc) (foldM body l2) s.
Proof.
  induction l1 as [|x l1 IH]; intros acc s; cbn [app foldM].
  - reflexivity.
  - unfold bind. destruct (body acc x s) as [s' [b|e]]; [|reflexivity].
    rewrite IH. reflexivity.
Qed.

Section MultiTreeEdges.
Context {NP : Numpy} {EXT : External}.

(** Without output channel to visit ([num_sup_functions <= 0]) the loop
    does not run: the output is computed once, no sup_function is touched
    and the error is [np.mean] of the empty list of channel errors. *)
Theorem no_channel_error (s : State) (m : MultiTreeIndividual) :
  individual s = Multi m ->
  num_sup_functions m <= 0 ->
  EvaluateMeanSquaredErrorOfMultiTree m s = (with_call s, Ok (np_mean [])) /\
  EvaluateMeanSquaredError s
  = (with_call s, Ok (if isnan (np_mean []) then np_inf else np_mean [])).
Proof.
  intros Hi Hk.
  assert (EvaluateMeanSquaredErrorOfMultiTree m s = (with_call s, Ok (np_mean [])))
    as H.
  { unfold EvaluateMeanSquaredErrorOfMultiTree, bind, reads, GetOutput, py_range.
    replace (Z.to_nat (num_sup_functions m)) with 0%nat by lia.
    reflexivity. }
  split; [exact H|].
  unfold EvaluateMeanSquaredError, bind, get_individual. rewrite Hi, H. reflexivity.
Qed.

Lemma column_raises (a : ndarray) (i : Z) (e : exn) :
  column a i = Raise e -> e = IndexError.
Proof.
  unfold column. destruct a as [v|cols]; [congruence|].
  destruct (nth_error cols (Z.to_nat i)); [|congruence].
  destruct (0 <=? i); congruence.
Qed.

Lemma channel_step_missing (out : ndarray) (acc : MultiTreeIndividual * list float)
      (i : Z) (s : State) :
  column out i = Raise IndexError ->
  channel_step out acc i s = (s, Raise IndexError).
Proof.
  intros H. unfold channel_step, bind, reads, lift. destruct acc as [m errs].
  destruct (column (y_train (self s)) i) as [y|e] eqn:Ey.
  - rewrite H. reflexivity.
  - apply column_raises in Ey. now subst e.
Qed.

(** When the output has fewer columns than [num_sup_functions], with
    linear scaling: the error raises [IndexError] at the first missing
    channel, and the sup_functions of the channels before it keep the
    coefficients the loop has already stored on them. *)
Theorem missing_channel_leaves_partial_fit
        (s : State) (m : MultiTreeIndividual) (ys : list (list float)) :
  individual s = Multi m ->
  y_train (self s) = Mat ys ->
  use_linear_scaling (self s) = true ->
  let os := multi_GetOutput m (X_train (self s)) in
  (length os < Z.to_nat (num_sup_functions m))%nat ->
  (forall i, (i < length os)%nat ->
             channel_ok ys os i /\ (i < length (sup_functions m))%nat) ->
  exists s' m',
    EvaluateMeanSquaredErrorOfMultiTree m s = (s', Raise IndexError) /\
    individual s' = Multi m' /\
    length (sup_functions m') = length (sup_functions m) /\
    (forall i f, (i < length os)%nat ->
       nth_error (sup_functions m) i = Some f ->
       nth_error (sup_functions m') i = Some (fitted ys os i f)) /\
    (forall i, (length os <= i)%nat ->
       nth_error (sup_functions m') i = nth_error (sup_functions m) i).
Proof.
  intros Hi Hy Hls os Hk Hok.
  set (k := length os) in *.
  exists (with_individual (with_call s)
            (Multi (with_sup_functions m
                      (updates (fitted ys os) (seq 0 k) (sup_functions m))))),
         (with_sup_functions m (updates (fitted ys os) (seq 0 k) (sup_functions m))).
  split; [|split; [reflexivity|split; [apply updates_length|split]]].
  - unfold EvaluateMeanSquaredErrorOfMultiTree.
    unfold bind at 1. unfold reads at 1. unfold bind at 1. unfold GetOutput at 1.
    cbn [self individual]. rewrite Hi. cbn [output_of]. fold os.
    unfold py_range.
    replace (Z.to_nat (num_sup_functions m))
      with (k + S (Z.to_nat (num_sup_functions m) - S k))%nat by lia.
    unfold bind at 1.
    rewrite seq_app, map_app, foldM_app. cbn [seq map foldM Nat.add].
    erewrite bind_Ok.
    2:{ apply loop_scaled with (ys := ys); cbn; try first [eassumption|reflexivity].
        apply Forall_forall. intros i Hin. apply in_seq in Hin. apply Hok. lia. }
    unfold bind at 1. rewrite channel_step_missing; [reflexivity|].
    unfold column. destruct (nth_error os (Z.to_nat (Z.of_nat k))) eqn:E;
      [|reflexivity].
    rewrite Nat2Z.id in E.
    assert (nth_error os k <> None) as Hn by congruence.
    apply nth_error_Some in Hn. unfold k in Hn. lia.
  - intros i f Hil Hf. cbn [sup_functions with_sup_functions].
    rewrite nth_error_updates by apply seq_NoDup.
    destruct (in_dec Nat.eq_dec i (seq 0 k)) as [?|Hout].
    + now rewrite Hf.
    + exfalso. apply Hout, in_seq. lia.
  - intros i Hil. cbn [sup_functions with_sup_functions].
    rewrite nth_error_updates by apply seq_NoDup.
    destruct (in_dec Nat.eq_dec i (seq 0 k)) as [Hin|?]; [|reflexivity].
    apply in_seq in Hin. lia.
Qed.

End MultiTreeEdges.

(** ** The elite is a lowest error *)

Lemma fltb_irrefl (x : float) : fltb x x = false.
Proof.
  unfold fltb, SFltb. destruct x as [[|]|[|]| |[|] m e]; cbn; try reflexivity.
  - rewrite Z.compare_refl, Pos.compare_cont_refl. reflexivity.
  - rewrite Z.compare_refl, Pos.compare_cont_refl. reflexivity.
Qed.

Lemma fltb_trans (x y z : float) :
  fltb x y = true -> fltb y z = true -> fltb x z = true.
Proof.
  unfold fltb, SFltb.
  destruct x as [[|]|[|]| |[|] mx ex], y as [[|]|[|]| |[|] my ey],
           z as [[|]|[|]| |[|] mz ez];
    cbn; try discriminate; try reflexivity;
    change (Pos.compare_cont Eq ?a ?b) with (Pos.compare a b);
    destruct (Z.compare_spec ex ey), (Z.compare_spec ey ez), (Z.compare_spec ex ez);
    try discriminate; try reflexivity; try lia; subst;
    destruct (Pos.compare_spec mx my), (Pos.compare_spec my mz),
             (Pos.compare_spec mx mz);
    cbn; try discriminate; try reflexivity; try lia.
Qed.

Section LowestError.
Context {NP : Numpy} {EXT : External}.

Lemma lowest_of_step (seen : list float) (s : State) (i : Individual) :
  lowest_of seen (self s) ->
  let s' := fst (Evaluate (next s i)) in
  lowest_of
    (seen ++ match snd (Evaluate (next s i)), objective0 (individual s') with
             | Ok _, Ok (VFloat v) => [v]
             | _, _ => []
             end)
    (self s').
Proof.
  intros H. cbv zeta.
  destruct (Evaluate (next s i)) as [s' [[]|e]] eqn:E; cbn [fst snd].
  - destruct (@Evaluate_elite _ _ _ _ E) as (s1 & o1 & _ & Ho & Hel).
    rewrite Ho. unfold lowest_of in *.
    change (elite (self (next s i))) with (elite (self s)) in Hel.
    destruct (elite (self s)) as [el|].
    + destruct H as (x & Hx & Hin & Hlow).
      destruct Hel as (oe & Hoe & Hel). rewrite Hx in Hoe. inversion Hoe; subst oe.
      cbn [py_lt] in Hel. destruct (fltb o1 x) eqn:Elt; destruct Hel as [-> _].
      * exists o1. split; [exact Ho|]. split; [apply in_or_app; right; now left|].
        intros v Hv. apply in_app_or in Hv. destruct Hv as [Hv|[<-|[]]].
        -- destruct (fltb v o1) eqn:Ev; [|reflexivity].
           rewrite <- (Hlow v Hv). symmetry. now apply fltb_trans with (y := o1).
        -- apply fltb_irrefl.
      * exists x. split; [exact Hx|]. split; [apply in_or_app; now left|].
        intros v Hv. apply in_app_or in Hv. destruct Hv as [Hv|[<-|[]]].
        -- now apply Hlow.
        -- exact Elt.
    + subst seen. destruct Hel as [-> _]. exists o1. split; [exact Ho|].
      split; [now left|]. intros v [<-|[]]. apply fltb_irrefl.
  - apply Evaluate_raise_stages in E. destruct E as (E & _).
    unfold lowest_of in *. rewrite E, app_nil_r.
    exact H.
Qed.

Lemma lowest_of_calls (l : list Individual) :
  forall seen s,
    lowest_of seen (self s) ->
    lowest_of (seen ++ returned_errors l s) (self (EvaluateAll l s)).
Proof.
  induction l as [|i l IH]; intros seen s H; cbn [EvaluateAll returned_errors].
  - now rewrite app_nil_r.
  - pose proof (@lowest_of_step seen s i H) as Hs. cbv zeta in Hs. apply IH in Hs.
    destruct (snd (Evaluate (next s i))) as [[]|e];
      [destruct (objective0 (individual (fst (Evaluate (next s i)))))
         as [[n|v]|e]|];
      rewrite <- ?app_assoc in Hs; exact Hs.
Qed.

(** The elite of an evaluator that began without one holds a lowest error
    of the calls that returned, whatever the individuals and whichever
    calls raised: there is no elite exactly when no call has returned;
    otherwise its first objective is the first objective one of those calls
    computed, and no call returned one that compares below it. *)
Theorem elite_has_lowest_error (l : list Individual) (s : State) :
  elite (self s) = None ->
  lowest_of (returned_errors l s) (self (EvaluateAll l s)).
Proof.
  intros H. apply (@lowest_of_calls l [] s). unfold lowest_of. now rewrite H.
Qed.

End LowestError.

(** ** Arrays that do not fit *)

Section Shapes.
Context {NP : Numpy} {EXT : External}.

(** A single tree whose output has not the length of [y_train].  With
    linear scaling [np.cov] refuses the two arrays: [ValueError] is raised
    after the one call of [GetOutput] and before a coefficient is stored,
    also when one of the two has a single element.  Without linear scaling
    numpy broadcasts a single target, or a single output, against the
    other array and an error is returned; any other mismatch raises
    [ValueError]. *)
Theorem single_tree_length_mismatch (s : State) (t : Tree) (y : list float) :
  individual s = Single t ->
  y_train (self s) = Vec y ->
  let o := tree_GetOutput t (X_train (self s)) in
  length y <> length o ->
  (use_linear_scaling (self s) = true ->
   EvaluateMeanSquaredErrorOfNormalTree t s = (with_call s, Raise ValueError)) /\
  (use_linear_scaling (self s) = false ->
   (forall v, y = [v] ->
      EvaluateMeanSquaredErrorOfNormalTree t s
      = (with_call s,
         Ok (np_mean (map square (map (fsub v) (scale f_0_0 f_1_0 o)))))) /\
   (forall u, o = [u] ->
      EvaluateMeanSquaredErrorOfNormalTree t s
      = (with_call s,
         Ok (np_mean (map square
                        (map (fun w => fsub w (fadd f_0_0 (fmul f_1_0 u))) y))))) /\
   (length y <> 1%nat -> length o <> 1%nat ->
      EvaluateMeanSquaredErrorOfNormalTree t s = (with_call s, Raise ValueError))).
Proof.
  intros Hi Hy o Hl.
  assert ((length y =? length o)%nat = false) as Hne by now apply Nat.eqb_neq.
  split.
  - intros Hls.
    unfold EvaluateMeanSquaredErrorOfNormalTree, bind, reads, GetOutput, lift.
    cbn [self individual]. rewrite Hi, Hy, Hls. cbn [output_of vector]. fold o.
    unfold fit_b_nd, cov01_nd, cov01. rewrite Hne. cbn [rbind].
    unfold with_call. now rewrite Hi.
  - intros Hls.
    assert (EvaluateMeanSquaredErrorOfNormalTree t s
            = (with_call s,
               (d <-- broadcast fsub y (scale f_0_0 f_1_0 o) ;
                Ok (np_mean (map square d)))%res)) as H.
    { unfold EvaluateMeanSquaredErrorOfNormalTree, bind, reads, GetOutput, lift, ret.
      cbn [self individual]. rewrite Hi, Hy, Hls. cbn [output_of vector fst snd].
      fold o.
      unfold with_call, mean_square_diff_nd, subtract. rewrite Hi.
      destruct (broadcast fsub y (scale f_0_0 f_1_0 o)); reflexivity. }
    assert ((length y =? length (scale f_0_0 f_1_0 o))%nat = false) as Hne'.
    { unfold scale. now rewrite length_map. }
    rewrite H. unfold broadcast. rewrite Hne'. split; [|split].
    + intros v ->. reflexivity.
    + intros u Hu. rewrite Hu in *. cbn [scale map].
      destruct y as [|v [|w y']]; [reflexivity| |reflexivity].
      exfalso. apply Hl. reflexivity.
    + intros Hy1 Ho1. unfold scale.
      destruct y as [|v [|w y']]; [|exfalso; now apply Hy1|].
      * destruct o as [|u [|u' o']]; [exfalso; now apply Hl| |reflexivity].
        exfalso. now apply Ho1.
      * destruct o as [|u [|u' o']]; [reflexivity| |reflexivity].
        exfalso. now apply Ho1.
Qed.

(** A multi-tree individual needs a rank-2 [y_train]: against a rank-1
    one, with a channel to visit, [y_train[:, 0]] raises [IndexError]
    after the one call of [GetOutput], whatever the linear scaling, and no
    sup_function is touched. *)
Theorem rank1_targets_refused (s : State) (m : MultiTreeIndividual)
        (y : list float) :
  individual s = Multi m ->
  y_train (self s) = Vec y ->
  0 < num_sup_functions m ->
  EvaluateMeanSquaredErrorOfMultiTree m s = (with_call s, Raise IndexError) /\
  EvaluateMeanSquaredError s = (with_call s, Raise IndexError).
Proof.
  intros Hi Hy Hk.
  assert (EvaluateMeanSquaredErrorOfMultiTree m s = (with_call s, Raise IndexError))
    as H.
  { unfold EvaluateMeanSquaredErrorOfMultiTree, py_range.
    destruct (Z.to_nat (num_sup_functions m)) as [|k] eqn:Ek; [lia|].
    cbn [seq map foldM].
    unfold bind at 1. unfold reads at 1. unfold bind at 1. unfold GetOutput at 1.
    unfold bind at 1. unfold bind at 1.
    unfold channel_step, bind, reads, lift. cbn [self]. rewrite Hy.
    reflexivity. }
  split; [exact H|].
  unfold EvaluateMeanSquaredError, bind, get_individual. rewrite Hi, H. reflexivity.
Qed.

Lemma map_nth_seq {A} (d : A) (l : list A) :
  map (fun r => nth r l d) (seq 0 (length l)) = l.
Proof.
  induction l as [|a l IH]; [reflexivity|].
  cbn [length seq map nth]. rewrite <- seq_shift, map_map. cbn [nth].
  now rewrite IH.
Qed.

Lemma rows_column (c : list float) : rows [c] = map (fun v => [v]) c.
Proof.
  unfold rows. cbn [hd map].
  rewrite <- (map_nth_seq np_nan c) at 2. now rewrite map_map.
Qed.

Lemma broadcast_single (f : float -> float -> float) (v : float)
      (l : list float) :
  broadcast f [v] l = Ok (map (f v) l).
Proof. destruct l as [|u [|u' l]]; reflexivity. Qed.

Lemma rmap_broadcast_column (c l : list float) :
  rmap (fun r => broadcast fsub r l) (map (fun v => [v]) c)
  = Ok (map (fun v => map (fsub v) l) c).
Proof.
  induction c as [|v c IH]; [reflexivity|].
  cbn [map rmap]. rewrite broadcast_single, IH. reflexivity.
Qed.

(** A single tree against a [y_train] of one column, of shape [(N, 1)].
    Without linear scaling nothing is refused: numpy broadcasts the column
    against the output and the error returned is the mean of the squared
    differences of every target with every output, [N * len(output)] of
    them.  With linear scaling [np.cov] refuses the column unless the
    output has one element, and raises [ValueError] (or [IndexError] when
    the column is empty) before a coefficient is stored. *)
Theorem column_targets_single_tree (s : State) (t : Tree) (c : list float) :
  individual s = Single t ->
  y_train (self s) = Mat [c] ->
  let o := tree_GetOutput t (X_train (self s)) in
  (use_linear_scaling (self s) = false ->
   EvaluateMeanSquaredErrorOfNormalTree t s
   = (with_call s,
      Ok (np_mean
            (map square
               (concat (map (fun v => map (fsub v) (scale f_0_0 f_1_0 o)) c)))))) /\
  (use_linear_scaling (self s) = true ->
   c <> [] -> length o <> 1%nat ->
   EvaluateMeanSquaredErrorOfNormalTree t s = (with_call s, Raise ValueError)) /\
  (use_linear_scaling (self s) = true ->
   c = [] ->
   EvaluateMeanSquaredErrorOfNormalTree t s = (with_call s, Raise IndexError)).
Proof.
  intros Hi Hy o. split; [|split].
  - intros Hls.
    unfold EvaluateMeanSquaredErrorOfNormalTree, bind, reads, GetOutput, lift, ret.
    cbn [self individual]. rewrite Hi, Hy, Hls. cbn [output_of vector fst snd].
    fold o. unfold with_call, mean_square_diff_nd, subtract. rewrite Hi.
    cbn [length Nat.eqb]. rewrite orb_true_r. cbn [orb].
    rewrite rows_column, rmap_broadcast_column. reflexivity.
  - intros Hls Hc Ho.
    unfold EvaluateMeanSquaredErrorOfNormalTree, bind, reads, GetOutput, lift.
    cbn [self individual]. rewrite Hi, Hy, Hls. cbn [output_of vector]. fold o.
    unfold fit_b_nd, cov01_nd. rewrite rows_column.
    destruct c as [|v c]; [now exfalso|]. cbn [map length].
    destruct (length o) as [|[|n]] eqn:El; [| now exfalso |]; cbn [Nat.eqb rbind];
      unfold with_call; now rewrite Hi.
  - intros Hls ->.
    unfold EvaluateMeanSquaredErrorOfNormalTree, bind, reads, GetOutput, lift.
    cbn [self individual]. rewrite Hi, Hy, Hls. cbn [output_of vector].
    unfold with_call. now rewrite Hi.
Qed.

End Shapes.

(** ** The properties on the samples *)

(** [Sample.i1] under the decoder strategy: the call raises, is counted,
    and leaves no objective. *)
Lemma Evaluate_raises_sample :
  let s := Sample.start Sample.decoder Sample.i1 in
  let s' := fst (@Evaluate Ref.numpy Ref.external s) in
  evaluations (self s') = evaluations (self s) + 1 /\
  elite (self s') = elite (self s) /\
  calls_deepcopy s' = calls_deepcopy s /\
  objectives (individual s') = [].
Proof.
  intros s s'.
  destruct (@Evaluate_raises Ref.numpy Ref.external s s' IndexError)
    as (H1 & H2 & H3 & _).
  - vm_compute. reflexivity.
  - split; [exact H1|]. split; [exact H2|]. split; [exact H3|].
    vm_compute. reflexivity.
Defined.

(** A call that returns has asked for the output once. *)
Lemma Evaluate_calls_GetOutput_once_sample :
  let s := Sample.start (Sample.plain Sample.teacher) Sample.i1 in
  calls_GetOutput (fst (@Evaluate Ref.numpy Ref.external s)) = 1%nat.
Proof.
  intros s.
  apply (proj1 (proj2 (@Evaluate_calls_GetOutput_once Ref.numpy Ref.external s))).
  vm_compute. reflexivity.
Defined.

(** The four rows of [Sample.X] are too few for the manifold strategy. *)
Lemma manifold_needs_64_rows_sample :
  let s := Sample.start Sample.manifold Sample.i1 in
  @Evaluate Ref.numpy Ref.external s = (begun s, Raise AssertionError).
Proof.
  intros s. apply manifold_needs_64_rows; [reflexivity|].
  vm_compute. reflexivity.
Defined.

Lemma decoder_rejects_single_trees_sample :
  let s := Sample.start Sample.decoder Sample.i1 in
  @Evaluate Ref.numpy Ref.external s = (with_call (begun s), Raise IndexError) /\
  objectives (individual (fst (@Evaluate Ref.numpy Ref.external s))) = [].
Proof.
  intros s.
  apply (@decoder_rejects_single_trees Ref.numpy Ref.external s
           (Sample.tree [Sample.plus; Sample.x0; Sample.c7]
                        [Sample.four; Sample.two; f_0_0; f_0_0]));
    reflexivity.
Defined.

(** A history whose lowest loss is the last one gives the mean of the last
    two losses; one whose lowest loss is the first gives the mean of no
    value. *)
Lemma decoder_loss_window_sample :
  let s := Sample.start Sample.multi_decoder (Multi Sample.one_channel) in
  @neural_decoder_fitness Ref.numpy Sample.converging 0 s
  = (with_call s, Ok (Ref.mean [Sample.two; f_1_0])) /\
  @neural_decoder_fitness Ref.numpy Sample.diverging 0 s
  = (with_call s, Ok (Ref.mean [])).
Proof.
  intros s. split.
  - refine (proj1 (@decoder_loss_window Ref.numpy Sample.converging 0 s
                     Sample.one_channel [[f_0_0; f_1_0; Sample.two; Sample.four]]
                     (repeat Sample.two 99 ++ [f_1_0]) 99
                     eq_refl eq_refl eq_refl _) _).
    + vm_compute. reflexivity.
    + vm_compute. split; [discriminate|reflexivity].
  - refine (proj2 (@decoder_loss_window Ref.numpy Sample.diverging 0 s
                     Sample.one_channel [[f_0_0; f_1_0; Sample.two; Sample.four]]
                     (f_1_0 :: repeat Sample.two 99) 0
                     eq_refl eq_refl eq_refl _) eq_refl _).
    + vm_compute. reflexivity.
    + vm_compute. discriminate.
Defined.

(** Three calls, one of them on a tree whose output has a NaN, and a call
    that raises. *)
Lemma elite_keeps_two_objectives_sample :
  let s := Sample.start (Sample.plain Sample.teacher) Sample.i1 in
  let d := Sample.start Sample.decoder Sample.i1 in
  elite_has_two
    (self (@EvaluateAll Ref.numpy Ref.external
             [Sample.i1; Sample.broken; Sample.i2] s)) /\
  (length (objectives (individual (fst (@Evaluate Ref.numpy Ref.external d))))
   < 2)%nat.
Proof.
  intros s d.
  destruct (@elite_keeps_two_objectives Ref.numpy Ref.external) as (_ & H2 & H3).
  split.
  - apply H2. exact I.
  - apply (H3 d (fst (@Evaluate Ref.numpy Ref.external d)) IndexError).
    + exact I.
    + vm_compute. reflexivity.
Defined.

(** The elite whose decoder loss is a NaN stays through two more calls,
    and an individual whose loss is a NaN does not replace it. *)
Lemma nan_elite_is_never_replaced_sample :
  let s0 := Sample.start Sample.multi_decoder (Multi Sample.one_channel) in
  let s := fst (@Evaluate Ref.numpy Sample.diverging s0) in
  let el := individual s in
  let n := next s (Multi Sample.one_channel) in
  let n' := fst (@Evaluate Ref.numpy Sample.diverging n) in
  elite (self (@EvaluateAll Ref.numpy Sample.diverging
                 [Multi Sample.one_channel; Sample.i1] s)) = Some el /\
  elite (self n') = Some el /\ calls_deepcopy n' = calls_deepcopy n.
Proof.
  intros s0 s el n n'.
  destruct (@nan_elite_is_never_replaced Ref.numpy Sample.diverging) as (H1 & H2).
  split.
  - apply H1; vm_compute; reflexivity.
  - apply (H2 n n' el); vm_compute; reflexivity.
Defined.

(** A leaf that prints as the empty string raises [IndexError]; the leaf
    ["xa"] raises the [ValueError] of [int]. *)
Lemma EvaluatePHIsModel_raises_sample :
  @EvaluatePHIsModel Ref.numpy Ref.external
     (Single (Sample.tree [Sample.plus; Sample.x0; Sample.unnamed] Sample.zeros))
  = Raise IndexError /\
  @EvaluatePHIsModel Ref.numpy Ref.external
     (Single (Sample.tree [Sample.plus; Sample.xa; Sample.c7] Sample.zeros))
  = Raise ValueError.
Proof.
  assert (@leaf_prints Ref.external Sample.plus) as Hplus.
  { intros H. discriminate. }
  assert (@leaf_prints Ref.external Sample.x0) as Hx0.
  { intros _. exists "x"%char, "0"%string. split; [reflexivity|].
    intros _. exists 0. reflexivity. }
  split.
  - refine (proj1 (proj2 (@EvaluatePHIsModel_raises Ref.numpy Ref.external
                            (Sample.tree [Sample.plus; Sample.x0; Sample.unnamed]
                                         Sample.zeros))
                     [Sample.plus; Sample.x0] Sample.unnamed [] eq_refl _ eq_refl)
                  eq_refl).
    repeat constructor; assumption.
  - refine (proj2 (proj2 (@EvaluatePHIsModel_raises Ref.numpy Ref.external
                            (Sample.tree [Sample.plus; Sample.xa; Sample.c7]
                                         Sample.zeros))
                     [Sample.plus] Sample.xa [Sample.c7] eq_refl _ eq_refl)
                  "a"%string ValueError eq_refl eq_refl).
    repeat constructor; assumption.
Defined.

(** The counters of the tree [x0 + 7.0]. *)
Lemma tree_statistics_sample :
  let t := Sample.tree [Sample.plus; Sample.x0; Sample.c7] Sample.zeros in
  let c := mkCounters 1 0 1 [0] 1 in
  n_ops c + n_vars c + n_constants c = len (GetSubtree t) /\
  0 <= n_naops c <= n_ops c /\
  len (dimensions c) <= n_vars c /\
  NoDup (dimensions c).
Proof.
  intros t c. apply (@tree_statistics Ref.external t c).
  vm_compute. reflexivity.
Defined.

(** The two FeatureNodes of [Sample.each_once] are accepted indices, and
    [x-1] counts the last sub_function. *)
Lemma inlined_complexity_indices_sample :
  (exists l, EvaluateLength (Sample.plain Sample.teacher) (Multi Sample.each_once)
             = Ok (VInt l)) /\
  node_cost Sample.each_once Sample.xlast = Ok 1.
Proof.
  destruct (@inlined_complexity_indices (Sample.plain Sample.teacher)
              Sample.each_once) as (H1 & _ & H3).
  - discriminate.
  - reflexivity.
  - split.
    + apply H1. cbn.
      constructor; [intros H; discriminate|].
      constructor; [intros _; unfold index_ok; cbn; lia|].
      constructor; [intros _; unfold index_ok; cbn; lia|].
      constructor.
    + apply (H3 Sample.xlast (Sample.tree [Sample.c7] Sample.zeros)).
      * reflexivity.
      * vm_compute. split; [discriminate|reflexivity].
      * reflexivity.
Defined.

Lemma no_channel_error_sample :
  let s := Sample.start (Sample.multi true) (Multi Sample.no_channel) in
  @EvaluateMeanSquaredErrorOfMultiTree Ref.numpy Sample.no_channel s
  = (with_call s, Ok (Ref.mean [])) /\
  @EvaluateMeanSquaredError Ref.numpy s
  = (with_call s, Ok (if isnan (Ref.mean []) then np_inf else Ref.mean [])).
Proof.
  intros s. apply (@no_channel_error Ref.numpy s Sample.no_channel).
  - reflexivity.
  - vm_compute. discriminate.
Defined.

(** Two sup_functions over an output of one column: the first is fitted,
    the second is not, and the error raises. *)
Lemma missing_channel_sample :
  let s := Sample.start (Sample.multi true) (Multi Sample.short_output) in
  exists s' m',
    @EvaluateMeanSquaredErrorOfMultiTree Ref.numpy Sample.short_output s
    = (s', Raise IndexError) /\
    individual s' = Multi m' /\
    nth_error (sup_functions m') 0
    = Some (@fitted Ref.numpy [Sample.targets] [Sample.ramp] 0
              (Sample.tree [Sample.x0] Sample.ramp)) /\
    nth_error (sup_functions m') 1 = Some (Sample.tree [Sample.x1] Sample.ramp).
Proof.
  intros s.
  destruct (@missing_channel_leaves_partial_fit Ref.numpy s Sample.short_output
              [Sample.targets])
    as (s' & m' & Hrun & Hi & _ & Hfit & Hrest).
  - reflexivity.
  - reflexivity.
  - reflexivity.
  - cbn. lia.
  - intros i Hi. cbn in Hi. assert (i = 0%nat) as -> by lia.
    unfold channel_ok. cbn. repeat split; lia.
  - exists s', m'. split; [exact Hrun|]. split; [exact Hi|]. split.
    + apply Hfit; [cbn; lia|reflexivity].
    + rewrite Hrest; [reflexivity|cbn; lia].
Defined.

(** Four targets against an output of one value, and one target against
    an output of four values. *)
Lemma single_tree_length_mismatch_sample :
  let t := Sample.tree [Sample.x0] [Sample.two] in
  let s := Sample.start (Sample.scaled Sample.teacher) (Single t) in
  let u := Sample.start (Sample.plain Sample.teacher) (Single t) in
  @EvaluateMeanSquaredErrorOfNormalTree Ref.numpy t s
  = (with_call s, Raise ValueError) /\
  @EvaluateMeanSquaredErrorOfNormalTree Ref.numpy t u
  = (with_call u, Ok (Z2f 4)).
Proof.
  intros t s u. split.
  - apply (proj1 (@single_tree_length_mismatch Ref.numpy s t Sample.targets
                    eq_refl eq_refl ltac:(cbn; lia))).
    reflexivity.
  - rewrite (proj1 (proj2 (proj2 (@single_tree_length_mismatch Ref.numpy u t
                                     Sample.zeros eq_refl eq_refl
                                     ltac:(cbn; lia)) eq_refl))
               Sample.two eq_refl).
    vm_compute. reflexivity.
Defined.

Lemma rank1_targets_refused_sample :
  let s := Sample.start (Sample.scaled Sample.teacher) (Multi Sample.one_channel) in
  @EvaluateMeanSquaredErrorOfMultiTree Ref.numpy Sample.one_channel s
  = (with_call s, Raise IndexError) /\
  @EvaluateMeanSquaredError Ref.numpy s = (with_call s, Raise IndexError).
Proof.
  intros s.
  apply (@rank1_targets_refused Ref.numpy s Sample.one_channel Sample.targets).
  - reflexivity.
  - reflexivity.
  - reflexivity.
Defined.

(** The errors 5, 3, 4 and 3 of the four sample trees: the elite holds 3. *)
Lemma elite_has_lowest_error_sample :
  let s := Sample.start (Sample.plain Sample.teacher) Sample.i1 in
  let l := [Sample.i1; Sample.i2; Sample.i3; Sample.i4] in
  lowest_of (@returned_errors Ref.numpy Ref.external l s)
            (self (@EvaluateAll Ref.numpy Ref.external l s)) /\
  @returned_errors Ref.numpy Ref.external l s
  = [Z2f 5; Z2f 3; Z2f 4; Z2f 3].
Proof.
  intros s l. split.
  - apply (@elite_has_lowest_error Ref.numpy Ref.external l s). reflexivity.
  - vm_compute. reflexivity.
Defined.

(** The targets [1, 3, 5, 9] as one column against the outputs
    [0, 1, 2, 4]: the sixteen squared differences have the mean 37/2. *)
Lemma column_targets_single_tree_sample :
  let u := Sample.start (Sample.multi false) (Single Sample.leaf) in
  let s := Sample.start (Sample.multi true) (Single Sample.leaf) in
  @EvaluateMeanSquaredErrorOfNormalTree Ref.numpy Sample.leaf u
  = (with_call u, Ok (fdiv (Z2f 37) (Z2f 2))) /\
  @EvaluateMeanSquaredErrorOfNormalTree Ref.numpy Sample.leaf s
  = (with_call s, Raise ValueError).
Proof.
  intros u s.
  destruct (@column_targets_single_tree Ref.numpy u Sample.leaf Sample.targets
              eq_refl eq_refl) as (Hu & _).
  destruct (@column_targets_single_tree Ref.numpy s Sample.leaf Sample.targets
              eq_refl eq_refl) as (_ & Hs & _).
  split.
  - rewrite (Hu eq_refl). vm_compute. reflexivity.
  - apply (Hs eq_refl); [discriminate|cbn; lia].
Defined.
